(** * TokoKu point of sale: payment reconciliation and inventory consistency

    A shallow embedding of the route handlers that create sales, decrement
    stock, append inventory logs, reconcile gateway payment statuses and
    report low stock, together with the properties stated about them.

    The relational store is an explicit value of type [DB] that every
    handler receives and returns.  Tables with a primary key that are only
    read by key (products, users) are finite maps; the transaction table is
    a list of rows, in the order of their creation, because the webhook
    scans it with [findFirst].  The constraints of the schema (primary and
    unique keys, foreign keys, column ranges) are checked where a handler
    inserts a row whose values come from the request or the session. *)

From Stdlib Require Import ZArith String Ascii List Permutation.
From stdpp Require Import base option list gmap strings fin_maps.

Local Open Scope string_scope.
Local Open Scope Z_scope.
Local Open Scope list_scope.

(** ** JavaScript values that reach the handlers through JSON bodies *)

(** A field of a JSON body that the handlers use as a string: absent
    ([undefined]), [null], or a string.  The handlers below are written on
    bodies with such fields; what the webhook does on a body whose fields
    have other JSON types is [XenditWebhook.receive]. *)
Inductive jsval :=
  | Undefined
  | Null
  | Str (s : string).

(** JavaScript truthiness: only a non-empty string is truthy here. *)
Definition truthy (v : jsval) : bool :=
  match v with
  | Str s => negb (String.eqb s "")
  | _ => false
  end.

(** [a || b]. *)
Definition js_or (a b : jsval) : jsval := if truthy a then a else b.

(** The string carried by a truthy value. *)
Definition truthy_string (v : jsval) : option string :=
  match v with
  | Str s => if String.eqb s "" then None else Some s
  | _ => None
  end.

(** [v === lit] for a string literal. *)
Definition strict_eq (v : jsval) (lit : string) : bool :=
  match v with
  | Str s => String.eqb s lit
  | _ => false
  end.





(** ** Enumerations of the schema *)

Inductive PaymentMethod := CASH | XENDIT_QRIS | XENDIT_EWALLET | XENDIT_VIRTUAL_ACCOUNT.
Inductive PaymentStatus := PENDING | PAID | FAILED | EXPIRED.
Inductive InventoryLogType := SALE | RESTOCK | ADJUSTMENT | RETURN.
Inductive NotificationType := INFO | SUCCESS | WARNING | ERROR.

#[global] Instance PaymentStatus_eq_dec : EqDecision PaymentStatus.
Proof. solve_decision. Defined.
#[global] Instance PaymentMethod_eq_dec : EqDecision PaymentMethod.
Proof. solve_decision. Defined.
#[global] Instance InventoryLogType_eq_dec : EqDecision InventoryLogType.
Proof. solve_decision. Defined.

Definition PaymentStatus_eqb (a b : PaymentStatus) : bool := bool_decide (a = b).

(** The enum check the ORM performs on the [paymentMethod] column. *)
Definition parse_PaymentMethod (s : string) : option PaymentMethod :=
  if String.eqb s "CASH" then Some CASH
  else if String.eqb s "XENDIT_QRIS" then Some XENDIT_QRIS
  else if String.eqb s "XENDIT_EWALLET" then Some XENDIT_EWALLET
  else if String.eqb s "XENDIT_VIRTUAL_ACCOUNT" then Some XENDIT_VIRTUAL_ACCOUNT
  else None.

(** ** Rows *)

Module Product.
Record t := mk {
  name : string;
  stock : Z;
  minStock : Z;
  categoryId : string;
  isActive : bool
}.
Definition with_stock (s : Z) (p : t) : t :=
  mk (name p) s (minStock p) (categoryId p) (isActive p).
Definition with_minStock (m : Z) (p : t) : t :=
  mk (name p) (stock p) m (categoryId p) (isActive p).
End Product.

Module TransactionItem.
Record t := mk {
  productId : string;
  quantity : Z;
  unitPrice : Z;
  totalPrice : Z
}.
End TransactionItem.

Module Transaction.
Record t := mk {
  id : string;
  transactionNumber : string;
  totalAmount : Z;
  taxAmount : Z;
  discountAmount : Z;
  finalAmount : Z;
  paymentMethod : PaymentMethod;
  paymentStatus : PaymentStatus;
  xenditPaymentId : option string;
  xenditInvoiceUrl : option string;
  cashierId : string;
  items : list TransactionItem.t
}.
Definition with_paymentStatus (s : PaymentStatus) (x : t) : t :=
  mk (id x) (transactionNumber x) (totalAmount x) (taxAmount x)
     (discountAmount x) (finalAmount x) (paymentMethod x) s
     (xenditPaymentId x) (xenditInvoiceUrl x) (cashierId x) (items x).
Definition with_xenditPaymentId (p : option string) (x : t) : t :=
  mk (id x) (transactionNumber x) (totalAmount x) (taxAmount x)
     (discountAmount x) (finalAmount x) (paymentMethod x) (paymentStatus x)
     p (xenditInvoiceUrl x) (cashierId x) (items x).
End Transaction.

Module InventoryLog.
Record t := mk {
  productId : string;
  type : InventoryLogType;
  quantity : Z;
  previousStock : Z;
  newStock : Z;
  reason : string;
  createdBy : string
}.
End InventoryLog.

(** The structured metadata stored with a notification.  The message text
    is a locale-formatted rendering of the same data and is not modelled. *)
Inductive NotificationMeta :=
  | LowStockMeta (productName : string) (currentStock : Z)
  | NewOrderMeta (transactionNumber : string) (amount : Z)
  | PaymentReceivedMeta (transactionNumber : string) (amount : Z)
  | PaymentFailedMeta (transactionNumber : string) (reason : jsval)
  | InventoryUpdateMeta (productName : string) (quantity : Z) (type : InventoryLogType).

Module Notification.
Record t := mk {
  userId : string;
  title : string;
  type : NotificationType;
  metadata : NotificationMeta
}.
End Notification.

(** ** The store *)

Record DB := mkDB {
  users : gset string;
  products : gmap string Product.t;
  transactions : list Transaction.t;
  inventoryLogs : list InventoryLog.t;
  notifications : list Notification.t
}.

(** ** The ORM operations the handlers call *)

Module Prisma.

Definition set_products (ps : gmap string Product.t) (db : DB) : DB :=
  mkDB (users db) ps (transactions db) (inventoryLogs db) (notifications db).
Definition set_transactions (ts : list Transaction.t) (db : DB) : DB :=
  mkDB (users db) (products db) ts (inventoryLogs db) (notifications db).

(** [prisma.user.findUnique({ where: { id } })], as an existence test. *)
Definition user_exists (uid : string) (db : DB) : bool :=
  bool_decide (uid ∈ users db).

(** [prisma.product.findUnique({ where: { id } })]. *)
Definition product_findUnique (pid : string) (db : DB) : option Product.t :=
  products db !! pid.

(** [prisma.product.update({ where: { id }, data: { stock: { decrement } } })]:
    the decrement is applied to the stored value. *)
Definition product_decrement_stock (pid : string) (q : Z) (db : DB) : DB :=
  set_products
    (alter (fun p => Product.with_stock (Product.stock p - q) p) pid (products db)) db.

(** [prisma.product.update({ where: { id }, data: { stock } })]. *)
Definition product_set_stock (pid : string) (s : Z) (db : DB) : DB :=
  set_products (alter (Product.with_stock s) pid (products db)) db.

(** The range of an [INTEGER] column. *)
Definition int4 (z : Z) : bool := (-2147483648 <=? z) && (z <=? 2147483647).

(** The range of a [DECIMAL(10,2)] column, for a whole amount. *)
Definition decimal_10_2 (z : Z) : bool := (-100000000 <? z) && (z <? 100000000).

(** The constraints of the inventory log: the foreign keys on [createdBy]
    and [productId] and the three [INTEGER] columns.  An insert that
    violates one throws. *)
Definition inventoryLog_insertable (l : InventoryLog.t) (db : DB) : bool :=
  user_exists (InventoryLog.createdBy l) db
  && bool_decide (is_Some (products db !! InventoryLog.productId l))
  && int4 (InventoryLog.quantity l)
  && int4 (InventoryLog.previousStock l)
  && int4 (InventoryLog.newStock l).

(** [prisma.inventoryLog.create]: the log is append-only.  The sale loops
    insert with [createdBy] the cashier of a stored transaction, whom the
    foreign key of the transaction table keeps among the users, and with a
    product they have just read; the adjustment handler inserts with the
    user of the session and tests [inventoryLog_insertable] itself. *)
Definition inventoryLog_create (l : InventoryLog.t) (db : DB) : DB :=
  mkDB (users db) (products db) (transactions db)
       (inventoryLogs db ++ [l]) (notifications db).

(** [prisma.notification.create]. *)
Definition notification_create (n : Notification.t) (db : DB) : DB :=
  mkDB (users db) (products db) (transactions db)
       (inventoryLogs db) (notifications db ++ [n]).

(** The constraints on a line item inserted with its transaction: the
    foreign key on [productId] and the ranges of its columns. *)
Definition item_insertable (it : TransactionItem.t) (db : DB) : bool :=
  bool_decide (is_Some (products db !! TransactionItem.productId it))
  && int4 (TransactionItem.quantity it)
  && decimal_10_2 (TransactionItem.unitPrice it)
  && decimal_10_2 (TransactionItem.totalPrice it).

(** The constraints on a transaction inserted with its items: the primary
    key, the unique [transactionNumber], the foreign key on [cashierId],
    the ranges of the four amounts, the constraints of every item, and
    the unique index on [(transactionId, productId)], which allows a
    product on one line only. *)
Definition transaction_insertable (x : Transaction.t) (db : DB) : bool :=
  bool_decide (Transaction.id x ∉ map Transaction.id (transactions db))
  && bool_decide (Transaction.transactionNumber x
                  ∉ map Transaction.transactionNumber (transactions db))
  && user_exists (Transaction.cashierId x) db
  && decimal_10_2 (Transaction.totalAmount x)
  && decimal_10_2 (Transaction.taxAmount x)
  && decimal_10_2 (Transaction.discountAmount x)
  && decimal_10_2 (Transaction.finalAmount x)
  && forallb (fun it => item_insertable it db) (Transaction.items x)
  && bool_decide (NoDup (map TransactionItem.productId (Transaction.items x))).

(** The table with the row added at its end. *)
Definition transaction_append (x : Transaction.t) (db : DB) : DB :=
  set_transactions (transactions db ++ [x]) db.

(** [prisma.transaction.create] with nested [items: { create }]: one
    insert that either stores the row with all its items or throws
    ([None]) and stores nothing. *)
Definition transaction_create (x : Transaction.t) (db : DB) : option DB :=
  if transaction_insertable x db then Some (transaction_append x db) else None.

(** [prisma.transaction.findUnique({ where: { id } })]. *)
Definition transaction_findUnique (tid : string) (db : DB) : option Transaction.t :=
  find (fun x => String.eqb (Transaction.id x) tid) (transactions db).

(** [prisma.transaction.update({ where: { id }, data })]: [data] is the
    function that overwrites the listed columns.  The row keeps its place
    in the list, which is the order of creation and not an order the
    database promises to scan in. *)
Definition transaction_update (tid : string) (data : Transaction.t -> Transaction.t)
    (db : DB) : DB :=
  set_transactions
    (map (fun x => if String.eqb (Transaction.id x) tid then data x else x)
         (transactions db)) db.

(** One alternative of a [where: { OR: [...] }] filter on transactions. *)
Inductive TransactionWhere :=
  | WhereId (tid : string)
  | WhereXenditPaymentId (v : jsval).

(** A field filter whose value is [undefined] is dropped by the ORM and
    selects nothing inside [OR]; [null] selects the rows whose column is
    NULL. *)
Definition where_matches (w : TransactionWhere) (x : Transaction.t) : bool :=
  match w with
  | WhereId tid => String.eqb (Transaction.id x) tid
  | WhereXenditPaymentId Undefined => false
  | WhereXenditPaymentId Null =>
      match Transaction.xenditPaymentId x with None => true | Some _ => false end
  | WhereXenditPaymentId (Str s) =>
      match Transaction.xenditPaymentId x with
      | Some p => String.eqb p s
      | None => false
      end
  end.

(** [prisma.transaction.findFirst({ where: { OR: ws } })]: a row that
    satisfies one of the alternatives.  The query has no [orderBy], so
    which of several matching rows is returned is up to the database; the
    model returns the oldest.  What is stated below about a lookup either
    takes the row it returned as given, or assumes that one row matches,
    in which case the order of the scan does not matter
    ([findFirst_sole], [findFirst_any_order]). *)
Definition transaction_findFirst (ws : list TransactionWhere) (db : DB)
    : option Transaction.t :=
  find (fun x => existsb (fun w => where_matches w x) ws) (transactions db).

End Prisma.

(** ** lib/notifications *)

Module Notifications.

Definition createNotification (userId title : string) (type : NotificationType)
    (metadata : NotificationMeta) (db : DB) : DB :=
  Prisma.notification_create (Notification.mk userId title type metadata) db.

Definition notifyLowStock (userId productName : string) (currentStock : Z) : DB -> DB :=
  createNotification userId "Low Stock Alert" WARNING
    (LowStockMeta productName currentStock).

Definition notifyNewOrder (userId transactionNumber : string) (amount : Z) : DB -> DB :=
  createNotification userId "New Order" INFO
    (NewOrderMeta transactionNumber amount).

Definition notifyPaymentReceived (userId transactionNumber : string) (amount : Z)
    : DB -> DB :=
  createNotification userId "Payment Received" SUCCESS
    (PaymentReceivedMeta transactionNumber amount).

Definition notifyPaymentFailed (userId transactionNumber : string) (reason : jsval)
    : DB -> DB :=
  createNotification userId "Payment Failed" ERROR
    (PaymentFailedMeta transactionNumber reason).

Definition notifyInventoryUpdate (userId productName : string) (quantity : Z)
    (type : InventoryLogType) : DB -> DB :=
  createNotification userId "Inventory Updated" INFO
    (InventoryUpdateMeta productName quantity type).

End Notifications.

(** The reason text of a sale log entry. *)
Definition sale_reason (transactionNumber : string) : string :=
  "Sale - Transaction " +:+ transactionNumber.

(** ** POST /api/transactions: create a transaction *)

Module Transactions.

Record Item := mkItem {
  productId : string;
  quantity : Z;
  unitPrice : Z;
  totalPrice : Z
}.

Record Body := mkBody {
  totalAmount : Z;
  taxAmount : Z;
  discountAmount : Z;
  finalAmount : Z;
  paymentMethod : string;
  paymentStatus : jsval;
  cashierId : string;
  xenditPaymentId : jsval;
  xenditInvoiceUrl : jsval;
  items : list Item
}.

(** What the handler takes from its surroundings: the session, the
    transaction number built from the clock and the random generator, and
    the primary key the database assigns to the new row. *)
Record Env := mkEnv {
  session : option string;
  transactionNumber : string;
  newId : string
}.

Inductive Response :=
  | Created (transaction : Transaction.t)        (* 201 *)
  | Error (status : Z) (error : string).

(** The quantity validation loop: the first offending item, if any. *)
Fixpoint invalid_quantity (its : list Item) : option Item :=
  match its with
  | [] => None
  | it :: rest => if quantity it <=? 0 then Some it else invalid_quantity rest
  end.

Definition to_row (it : Item) : TransactionItem.t :=
  TransactionItem.mk (productId it) (quantity it) (unitPrice it) (totalPrice it).

Definition isXenditPayment (m : PaymentMethod) : bool :=
  match m with
  | XENDIT_QRIS | XENDIT_EWALLET | XENDIT_VIRTUAL_ACCOUNT => true
  | CASH => false
  end.

(** The body of the stock loop for one item.  A missing product throws,
    which is reported as [Some message]. *)
Definition sell_item (cashierId transactionNumber : string) (it : Item) (db : DB)
    : DB * option string :=
  match Prisma.product_findUnique (productId it) db with
  | None => (db, Some ("Product " +:+ productId it +:+ " not found"))
  | Some product =>
      let quantity := quantity it in
      let previousStock := Product.stock product in
      let newStock := previousStock - quantity in
      let db := Prisma.product_decrement_stock (productId it) quantity db in
      let db := Prisma.inventoryLog_create
                  (InventoryLog.mk (productId it) SALE quantity previousStock
                     newStock (sale_reason transactionNumber) cashierId) db in
      let db := if newStock <=? Product.minStock product
                then Notifications.notifyLowStock cashierId
                       (Product.name product) newStock db
                else db in
      (db, None)
  end.

(** The stock loop.  When an item throws the loop stops, and what it has
    written so far stays written. *)
Fixpoint update_stock (cashierId transactionNumber : string) (its : list Item)
    (db : DB) : DB * option string :=
  match its with
  | [] => (db, None)
  | it :: rest =>
      match sell_item cashierId transactionNumber it db with
      | (db, Some thrown) => (db, Some thrown)
      | (db, None) => update_stock cashierId transactionNumber rest db
      end
  end.

Definition POST (env : Env) (body : Body) (db : DB) : DB * Response :=
  match session env with
  | None => (db, Error 401 "Unauthorized")
  | Some _ =>
      if (totalAmount body =? 0) || (finalAmount body =? 0)
         || String.eqb (paymentMethod body) "" || String.eqb (cashierId body) ""
         || (length (items body) =? 0)%nat
      then (db, Error 400 "Total amount, final amount, payment method, cashier ID, and items are required")
      else if negb (Prisma.user_exists (cashierId body) db)
      then (db, Error 400 "Invalid cashier ID. Please log out and log in again.")
      else
        match invalid_quantity (items body) with
        | Some it => (db, Error 400 ("Invalid quantity for product " +:+ productId it))
        | None =>
            match parse_PaymentMethod (paymentMethod body) with
            | None => (db, Error 500 "Internal server error")
            | Some method =>
                let transaction :=
                  Transaction.mk (newId env) (transactionNumber env)
                    (totalAmount body) (taxAmount body) (discountAmount body)
                    (finalAmount body) method
                    (if String.eqb (paymentMethod body) "CASH" then PAID else PENDING)
                    (truthy_string (xenditPaymentId body))
                    (truthy_string (xenditInvoiceUrl body))
                    (cashierId body) (map to_row (items body)) in
                match Prisma.transaction_create transaction db with
                | None => (db, Error 500 "Internal server error")
                | Some db =>
                    let '(db, thrown) :=
                      if String.eqb (paymentMethod body) "CASH"
                         || (isXenditPayment method
                             && strict_eq (paymentStatus body) "PAID")
                      then update_stock (cashierId body) (transactionNumber env)
                             (items body) db
                      else (db, None) in
                    match thrown with
                    | Some _ => (db, Error 500 "Internal server error")
                    | None =>
                        let db := Notifications.notifyNewOrder (cashierId body)
                                    (transactionNumber env) (finalAmount body) db in
                        (db, Created transaction)
                    end
                end
            end
        end
  end.

End Transactions.

(** ** POST /api/payments/xendit/webhook: the gateway pushes a status *)

Module XenditWebhook.

Record Body := mkBody {
  external_id : jsval;
  externalId : jsval;
  status : jsval;
  id : jsval
}.

Inductive Response :=
  | Received                                   (* 200 { received: true } *)
  | Error (status : Z) (error : string).

(** The longest prefix without a dash, and what follows it. *)
Fixpoint span_non_dash (s : string) : string * string :=
  match s with
  | EmptyString => (EmptyString, EmptyString)
  | String c rest =>
      if Ascii.eqb c "-" then (EmptyString, s)
      else let '(grp, tail) := span_non_dash rest in (String c grp, tail)
  end.

Definition strip_prefix (p s : string) : option string :=
  if String.prefix p s
  then Some (String.substring (String.length p) (String.length s - String.length p) s)
  else None.

(** [externalId.match(/^txn-([^-]+)-/)], returning the captured group. *)
Definition match_transaction_id (externalId : string) : option string :=
  match strip_prefix "txn-" externalId with
  | None => None
  | Some rest =>
      match span_non_dash rest with
      | (EmptyString, _) => None
      | (_, EmptyString) => None
      | (grp, String _ _) => Some grp
      end
  end.

(** The [OR] alternatives of the lookup. *)
Definition lookup_filters (externalId : string) (id : jsval)
    : list Prisma.TransactionWhere :=
  match match_transaction_id externalId with
  | Some transactionId => [Prisma.WhereId transactionId]
  | None => []
  end ++ [Prisma.WhereXenditPaymentId (Str externalId);
          Prisma.WhereXenditPaymentId id].

(** Map Xendit status to our payment status. *)
Definition map_status (status : jsval) : PaymentStatus :=
  if strict_eq status "PAID" || strict_eq status "SETTLED"
     || strict_eq status "SUCCEEDED" then PAID
  else if strict_eq status "FAILED" then FAILED
  else if strict_eq status "EXPIRED" then EXPIRED
  else PENDING.

(** The column value written for a string-valued expression. *)
Definition column_of (v : jsval) : option string :=
  match v with
  | Str s => Some s
  | _ => None
  end.

(** The body of the stock loop for one item; a missing product is
    skipped. *)
Definition sell_item (transaction : Transaction.t) (item : TransactionItem.t)
    (db : DB) : DB :=
  match Prisma.product_findUnique (TransactionItem.productId item) db with
  | None => db
  | Some product =>
      let db := Prisma.product_decrement_stock (TransactionItem.productId item)
                  (TransactionItem.quantity item) db in
      let db := Prisma.inventoryLog_create
                  (InventoryLog.mk (TransactionItem.productId item) SALE
                     (TransactionItem.quantity item)
                     (Product.stock product)
                     (Product.stock product - TransactionItem.quantity item)
                     (sale_reason (Transaction.transactionNumber transaction))
                     (Transaction.cashierId transaction)) db in
      let newStock := Product.stock product - TransactionItem.quantity item in
      if newStock <=? Product.minStock product
      then Notifications.notifyLowStock (Transaction.cashierId transaction)
             (Product.name product) newStock db
      else db
  end.

(** The stock loop over the items of the stored transaction. *)
Fixpoint update_stock (transaction : Transaction.t) (its : list TransactionItem.t)
    (db : DB) : DB :=
  match its with
  | [] => db
  | item :: rest => update_stock transaction rest (sell_item transaction item db)
  end.

(** The row the handler works on, when the body carries an external id. *)
Definition find_transaction (body : Body) (db : DB) : option Transaction.t :=
  match truthy_string (js_or (external_id body) (externalId body)) with
  | None => None
  | Some ext => Prisma.transaction_findFirst (lookup_filters ext (id body)) db
  end.

(** The [data] of the status update:
    [{ paymentStatus, xenditPaymentId: id || externalId }]. *)
Definition update_data (body : Body) (x : Transaction.t) : Transaction.t :=
  let externalId := js_or (external_id body) (externalId body) in
  Transaction.with_xenditPaymentId (column_of (js_or (id body) externalId))
    (Transaction.with_paymentStatus (map_status (status body)) x).

(** The handler on a body whose fields are strings, null or absent.  On
    such a body no call throws: the lookup and the update take strings,
    and the log entries name a product just read and the cashier of a
    stored transaction.  The [catch] is reached from [receive] below. *)
Definition POST (body : Body) (db : DB) : DB * Response :=
  let externalId := js_or (external_id body) (externalId body) in
  let status := status body in
  let id := id body in
  match truthy_string externalId with
  | None => (db, Received)
  | Some ext =>
      match Prisma.transaction_findFirst (lookup_filters ext id) db with
      | None => (db, Received)
      | Some transaction =>
          let paymentStatus := map_status status in
          let db := Prisma.transaction_update (Transaction.id transaction)
                      (update_data body) db in
          let db :=
            if PaymentStatus_eqb paymentStatus PAID
               && negb (PaymentStatus_eqb (Transaction.paymentStatus transaction) PAID)
            then
              match Prisma.transaction_findUnique (Transaction.id transaction) db with
              | None => db
              | Some transactionWithItems =>
                  let db := update_stock transaction
                              (Transaction.items transactionWithItems) db in
                  Notifications.notifyPaymentReceived
                    (Transaction.cashierId transaction)
                    (Transaction.transactionNumber transaction)
                    (Transaction.finalAmount transaction) db
              end
            else if PaymentStatus_eqb paymentStatus FAILED
            then Notifications.notifyPaymentFailed
                   (Transaction.cashierId transaction)
                   (Transaction.transactionNumber transaction) status db
            else db in
          (db, Received)
      end
  end.

(** The [where] of the lookup as a test on one row. *)
Definition lookup_matches (body : Body) (x : Transaction.t) : bool :=
  match truthy_string (js_or (external_id body) (externalId body)) with
  | None => false
  | Some ext =>
      existsb (fun w => Prisma.where_matches w x) (lookup_filters ext (id body))
  end.





End XenditWebhook.

(** ** POST /api/payments/check: the synchronous status check *)

Module PaymentStatusCheck.

(** [xendit.Invoice.getInvoiceById]: the status of the invoice with the
    given id, or [None] when the call throws. *)
Definition Gateway := string -> option string.

Inductive Response :=
  | Status (status : PaymentStatus) (transaction : Transaction.t)   (* 200 *)
  | Error (status : Z) (error : string).

(** Update transaction based on Xendit status. *)
Definition map_status (status : string) : PaymentStatus :=
  if String.eqb status "PAID" || String.eqb status "SETTLED" then PAID
  else if String.eqb status "EXPIRED" then EXPIRED
  else PENDING.

(** The body of the stock loop for one item; a missing product is
    skipped. *)
Definition sell_item (transaction : Transaction.t) (item : TransactionItem.t)
    (db : DB) : DB :=
  match Prisma.product_findUnique (TransactionItem.productId item) db with
  | None => db
  | Some product =>
      let previousStock := Product.stock product in
      let newStock := previousStock - TransactionItem.quantity item in
      let db := Prisma.product_set_stock (TransactionItem.productId item)
                  newStock db in
      let db := Prisma.inventoryLog_create
                  (InventoryLog.mk (TransactionItem.productId item) SALE
                     (TransactionItem.quantity item) previousStock newStock
                     (sale_reason (Transaction.transactionNumber transaction))
                     (Transaction.cashierId transaction)) db in
      if newStock <=? Product.minStock product
      then Notifications.notifyLowStock (Transaction.cashierId transaction)
             (Product.name product) newStock db
      else db
  end.

(** The stock loop over the items fetched with the transaction. *)
Fixpoint update_stock (transaction : Transaction.t) (its : list TransactionItem.t)
    (db : DB) : DB :=
  match its with
  | [] => db
  | item :: rest => update_stock transaction rest (sell_item transaction item db)
  end.

Definition POST (gw : Gateway) (session : option string) (transactionId : jsval)
    (db : DB) : DB * Response :=
  match session with
  | None => (db, Error 401 "Unauthorized")
  | Some _ =>
      match truthy_string transactionId with
      | None => (db, Error 400 "Transaction ID is required")
      | Some tid =>
          match Prisma.transaction_findUnique tid db with
          | None => (db, Error 404 "Transaction not found")
          | Some transaction =>
              if PaymentStatus_eqb (Transaction.paymentStatus transaction) PAID
              then (db, Status PAID transaction)
              else
                let current := (db, Status (Transaction.paymentStatus transaction)
                                      transaction) in
                match Transaction.xenditPaymentId transaction with
                | None => current
                | Some invoiceId =>
                    if String.eqb invoiceId "" then current
                    else
                      match gw invoiceId with
                      | None => current
                      | Some invoiceStatus =>
                          let paymentStatus := map_status invoiceStatus in
                          if negb (PaymentStatus_eqb paymentStatus
                                     (Transaction.paymentStatus transaction))
                          then
                            let db := Prisma.transaction_update tid
                                        (Transaction.with_paymentStatus paymentStatus)
                                        db in
                            let updatedTransaction :=
                              Transaction.with_paymentStatus paymentStatus transaction in
                            let db :=
                              if PaymentStatus_eqb paymentStatus PAID
                              then
                                let db := update_stock transaction
                                            (Transaction.items transaction) db in
                                Notifications.notifyPaymentReceived
                                  (Transaction.cashierId transaction)
                                  (Transaction.transactionNumber transaction)
                                  (Transaction.finalAmount transaction) db
                              else db in
                            (db, Status paymentStatus updatedTransaction)
                          else current
                      end
                end
          end
      end
  end.

End PaymentStatusCheck.

(** ** POST /api/inventory: a batch of stock adjustments *)

Module Inventory.

(** [newStock] is [None] when the field is not a number. *)
Record Adjustment := mkAdjustment {
  productId : string;
  newStock : option Z;
  reason : string
}.

Record Result := mkResult {
  r_productId : string;
  r_previousStock : Z;
  r_newStock : Z;
  r_stockDifference : Z
}.

Inductive Response :=
  | Success (adjustments : list Result)          (* 200 { success: true, adjustments } *)
  | Error (status : Z) (error : string).

Definition log_type (stockDifference : Z) : InventoryLogType :=
  if 0 <? stockDifference then RESTOCK else ADJUSTMENT.

(** The loop over the batch; [results] is the accumulator the handler
    pushes to.  The two [return]s inside the loop end the request, and so
    does a write that throws: the stock update when [newStock] does not
    fit the column, and the log insert, after the stock has been written,
    when the user of the session has no row or the quantity does not fit. *)
Fixpoint adjust (userId : string) (adjustments : list Adjustment)
    (results : list Result) (db : DB) : DB * Response :=
  match adjustments with
  | [] => (db, Success results)
  | adjustment :: rest =>
      match newStock adjustment with
      | None => (db, Error 400 "Product ID, new stock, and reason are required for each adjustment")
      | Some newStock =>
          if String.eqb (productId adjustment) "" || String.eqb (reason adjustment) ""
          then (db, Error 400 "Product ID, new stock, and reason are required for each adjustment")
          else
            match Prisma.product_findUnique (productId adjustment) db with
            | None => (db, Error 404 ("Product " +:+ productId adjustment +:+ " not found"))
            | Some product =>
                let previousStock := Product.stock product in
                let stockDifference := newStock - previousStock in
                if negb (Prisma.int4 newStock)
                then (db, Error 500 "Internal server error")
                else
                  let db := Prisma.product_set_stock (productId adjustment) newStock db in
                  let log := InventoryLog.mk (productId adjustment)
                               (log_type stockDifference) (Z.abs stockDifference)
                               previousStock newStock (reason adjustment) userId in
                  if negb (Prisma.inventoryLog_insertable log db)
                  then (db, Error 500 "Internal server error")
                  else
                    let db := Prisma.inventoryLog_create log db in
                    let db := Notifications.notifyInventoryUpdate userId
                                (Product.name product) (Z.abs stockDifference)
                                (log_type stockDifference) db in
                    let db := if newStock <=? Product.minStock product
                              then Notifications.notifyLowStock userId
                                     (Product.name product) newStock db
                              else db in
                    adjust userId rest
                      (results ++ [mkResult (productId adjustment) previousStock
                                     newStock stockDifference]) db
            end
      end
  end.

(** [adjustments] is [None] when the field is missing or not an array. *)
Definition POST (session : option string) (adjustments : option (list Adjustment))
    (db : DB) : DB * Response :=
  match session with
  | None => (db, Error 401 "Unauthorized")
  | Some userId =>
      match adjustments with
      | None | Some [] => (db, Error 400 "Adjustments array is required")
      | Some adjustments => adjust userId adjustments [] db
      end
  end.

End Inventory.

(** ** GET /api/reports: the low-stock figures *)

Module Reports.

(** The product filters the report queries use; [None] leaves a column
    unconstrained. *)
Record ProductWhere := mkWhere {
  stock_lte : option Z;
  isActive : option bool;
  categoryId : option string
}.

Definition product_matches (w : ProductWhere) (p : Product.t) : bool :=
  match stock_lte w with Some n => Product.stock p <=? n | None => true end
  && match isActive w with Some b => Bool.eqb (Product.isActive p) b | None => true end
  && match categoryId w with
     | Some c => String.eqb (Product.categoryId p) c
     | None => true
     end.

Definition rows (db : DB) : list (string * Product.t) := map_to_list (products db).

(** [prisma.product.count({ where })]. *)
Definition product_count (w : ProductWhere) (db : DB) : nat :=
  length (List.filter (fun r => product_matches w r.2) (rows db)).

Fixpoint insert_by_stock (r : string * Product.t) (l : list (string * Product.t))
    : list (string * Product.t) :=
  match l with
  | [] => [r]
  | x :: rest =>
      if Product.stock r.2 <=? Product.stock x.2 then r :: l
      else x :: insert_by_stock r rest
  end.

Definition sort_by_stock (l : list (string * Product.t)) : list (string * Product.t) :=
  foldr insert_by_stock [] l.

(** [prisma.product.findMany({ where, orderBy: { stock: 'asc' } })]. *)
Definition product_findMany (w : ProductWhere) (db : DB) : list (string * Product.t) :=
  sort_by_stock (List.filter (fun r => product_matches w r.2) (rows db)).

(** The overview figure. *)
Definition lowStockCount (db : DB) : nat :=
  product_count (mkWhere (Some 5) (Some true) None) db.

(** The inventory-tab listing; [categoryId] is the query parameter. *)
Definition lowStockProducts (categoryId : option string) (db : DB)
    : list (string * Product.t) :=
  product_findMany
    (mkWhere (Some 5) (Some true)
       (match categoryId with
        | Some c => if String.eqb c "" then None else Some c
        | None => None
        end)) db.

End Reports.

(** ** Vocabulary of the properties *)

(** The stock of a product, when the product exists. *)
Definition stock_of (db : DB) (pid : string) : option Z :=
  Product.stock <$> products db !! pid.

(** The quantity a list of line items sells of one product. *)
Fixpoint qty_for (pid : string) (its : list TransactionItem.t) : Z :=
  match its with
  | [] => 0
  | it :: rest =>
      (if String.eqb (TransactionItem.productId it) pid
       then TransactionItem.quantity it else 0) + qty_for pid rest
  end.

Definition sum_quantities (its : list TransactionItem.t) : Z :=
  foldr (fun it acc => TransactionItem.quantity it + acc) 0 its.

(** The stock summed over all products. *)
Definition total_stock (db : DB) : Z :=
  map_fold (fun _ p acc => Product.stock p + acc) 0 (products db).

(** The line items whose product exists in the store. *)
Definition sellable (db : DB) (its : list TransactionItem.t) : list TransactionItem.t :=
  List.filter (fun it => bool_decide (is_Some (products db !! TransactionItem.productId it))) its.

(** [l] records the sale of line item [it] of transaction [t]. *)
Definition is_sale_log (t : Transaction.t) (it : TransactionItem.t) (l : InventoryLog.t)
    : Prop :=
  InventoryLog.productId l = TransactionItem.productId it
  /\ InventoryLog.type l = SALE
  /\ InventoryLog.quantity l = TransactionItem.quantity it
  /\ InventoryLog.newStock l = InventoryLog.previousStock l - TransactionItem.quantity it
  /\ InventoryLog.reason l = sale_reason (Transaction.transactionNumber t)
  /\ InventoryLog.createdBy l = Transaction.cashierId t.

Definition low_stock_alert (userId productName : string) (currentStock : Z)
    : Notification.t :=
  Notification.mk userId "Low Stock Alert" WARNING (LowStockMeta productName currentStock).

Definition is_low_stock_alert (n : Notification.t) : Prop :=
  exists productName currentStock,
    n = low_stock_alert (Notification.userId n) productName currentStock.

Definition payment_received (t : Transaction.t) : Notification.t :=
  Notification.mk (Transaction.cashierId t) "Payment Received" SUCCESS
    (PaymentReceivedMeta (Transaction.transactionNumber t) (Transaction.finalAmount t)).

Definition payment_failed (t : Transaction.t) (reason : jsval) : Notification.t :=
  Notification.mk (Transaction.cashierId t) "Payment Failed" ERROR
    (PaymentFailedMeta (Transaction.transactionNumber t) reason).

(** What one line item sells of a product. *)
Definition sold (it : TransactionItem.t) (pid : string) : Z :=
  if String.eqb (TransactionItem.productId it) pid
  then TransactionItem.quantity it else 0.

(** What one pass of the loop body appends to the inventory log. *)
Definition sale_log (t : Transaction.t) (it : TransactionItem.t) (p : Product.t)
    : InventoryLog.t :=
  InventoryLog.mk (TransactionItem.productId it) SALE (TransactionItem.quantity it)
    (Product.stock p) (Product.stock p - TransactionItem.quantity it)
    (sale_reason (Transaction.transactionNumber t)) (Transaction.cashierId t).

(** What one pass of the loop body appends to the notifications. *)
Definition sale_alerts (t : Transaction.t) (it : TransactionItem.t) (p : Product.t)
    : list Notification.t :=
  if Product.stock p - TransactionItem.quantity it <=? Product.minStock p
  then [low_stock_alert (Transaction.cashierId t) (Product.name p)
          (Product.stock p - TransactionItem.quantity it)]
  else [].

(** Primary key of the transaction table. *)
Definition unique_ids (db : DB) : Prop := NoDup (map Transaction.id (transactions db)).

(** The reconciliation triggers. *)
Inductive Trigger :=
  | WebhookPush (body : XenditWebhook.Body)
  | StatusCheck (session : option string) (transactionId : jsval).

Definition fire (gw : PaymentStatusCheck.Gateway) (tr : Trigger) (db : DB) : DB :=
  match tr with
  | WebhookPush body => (XenditWebhook.POST body db).1
  | StatusCheck session transactionId =>
      (PaymentStatusCheck.POST gw session transactionId db).1
  end.

(** The row a trigger resolves to. *)
Definition target (tr : Trigger) (db : DB) : option Transaction.t :=
  match tr with
  | WebhookPush body => XenditWebhook.find_transaction body db
  | StatusCheck session transactionId =>
      match session, truthy_string transactionId with
      | Some _, Some tid => Prisma.transaction_findUnique tid db
      | _, _ => None
      end
  end.

(** The trigger carries, or obtains from the gateway, the status "PAID" for
    the row [t]. *)
Definition observes_paid (gw : PaymentStatusCheck.Gateway) (tr : Trigger)
    (t : Transaction.t) : Prop :=
  match tr with
  | WebhookPush body => XenditWebhook.status body = Str "PAID"
  | StatusCheck _ _ =>
      exists invoiceId, Transaction.xenditPaymentId t = Some invoiceId
                        /\ invoiceId <> "" /\ gw invoiceId = Some "PAID"
  end.

(** The row the handler inserts. *)
Definition created_row (env : Transactions.Env) (body : Transactions.Body)
    (method : PaymentMethod) (status : PaymentStatus)
    : Transaction.t :=
  Transaction.mk (Transactions.newId env) (Transactions.transactionNumber env)
    (Transactions.totalAmount body) (Transactions.taxAmount body)
    (Transactions.discountAmount body) (Transactions.finalAmount body)
    method status
    (truthy_string (Transactions.xenditPaymentId body))
    (truthy_string (Transactions.xenditInvoiceUrl body))
    (Transactions.cashierId body) (map Transactions.to_row (Transactions.items body)).

(** What a trigger that observes "PAID" writes to the row it resolved. *)
Definition paid_write (tr : Trigger) : Transaction.t -> Transaction.t :=
  match tr with
  | WebhookPush body => XenditWebhook.update_data body
  | StatusCheck _ _ => Transaction.with_paymentStatus PAID
  end.

(** The stored payment status of the transaction with the given id. *)
Definition status_of (db : DB) (tid : string) : option PaymentStatus :=
  Transaction.paymentStatus <$> Prisma.transaction_findUnique tid db.

(** The values of a line item fit their columns. *)
Definition item_in_range (i : Transactions.Item) : Prop :=
  Prisma.int4 (Transactions.quantity i) = true
  /\ Prisma.decimal_10_2 (Transactions.unitPrice i) = true
  /\ Prisma.decimal_10_2 (Transactions.totalPrice i) = true.

(** The database takes the row of the request: the generated id and
    transaction number are new, no product is on two lines, and every
    amount fits its column. *)
Definition storable (env : Transactions.Env) (body : Transactions.Body) (db : DB)
    : Prop :=
  (Transactions.newId env ∉ map Transaction.id (transactions db))
  /\ (Transactions.transactionNumber env
      ∉ map Transaction.transactionNumber (transactions db))
  /\ NoDup (map Transactions.productId (Transactions.items body))
  /\ Prisma.decimal_10_2 (Transactions.totalAmount body) = true
  /\ Prisma.decimal_10_2 (Transactions.taxAmount body) = true
  /\ Prisma.decimal_10_2 (Transactions.discountAmount body) = true
  /\ Prisma.decimal_10_2 (Transactions.finalAmount body) = true
  /\ Forall item_in_range (Transactions.items body).

(** A request that passes every guard of the handler and whose row the
    database takes. *)
Definition accepted (env : Transactions.Env) (body : Transactions.Body) (db : DB)
    : Prop :=
  is_Some (Transactions.session env)
  /\ Transactions.totalAmount body <> 0
  /\ Transactions.finalAmount body <> 0
  /\ Transactions.cashierId body <> ""
  /\ Transactions.cashierId body ∈ users db
  /\ Transactions.items body <> []
  /\ Forall (fun i => 0 < Transactions.quantity i) (Transactions.items body)
  /\ Forall (fun i => is_Some (products db !! Transactions.productId i))
       (Transactions.items body)
  /\ storable env body db.

(** [t] is the only row the lookup of the webhook body matches. *)
Definition sole_match (b : XenditWebhook.Body) (db : DB) (t : Transaction.t) : Prop :=
  forall x, x ∈ transactions db -> XenditWebhook.lookup_matches b x = true -> x = t.

(** [t] is the only row the trigger can resolve to.  The status check
    looks its row up by primary key. *)
Definition sole_target (tr : Trigger) (db : DB) (t : Transaction.t) : Prop :=
  match tr with
  | WebhookPush b => sole_match b db t
  | StatusCheck _ _ => True
  end.

(** The stock of product [pid] after a list of adjustments has been
    applied to the stock [s]: the last adjustment of the product wins. *)
Fixpoint adjusted_stock (pid : string) (adjustments : list Inventory.Adjustment) (s : Z)
    : Z :=
  match adjustments with
  | [] => s
  | a :: rest =>
      adjusted_stock pid rest
        (if String.eqb (Inventory.productId a) pid
         then default s (Inventory.newStock a) else s)
  end.

(** [l] records the adjustment [a] made by user [userId]. *)
Definition is_adjustment_log (userId : string) (a : Inventory.Adjustment)
    (l : InventoryLog.t) : Prop :=
  InventoryLog.productId l = Inventory.productId a
  /\ Inventory.newStock a = Some (InventoryLog.newStock l)
  /\ InventoryLog.type l
     = Inventory.log_type (InventoryLog.newStock l - InventoryLog.previousStock l)
  /\ InventoryLog.quantity l
     = Z.abs (InventoryLog.newStock l - InventoryLog.previousStock l)
  /\ InventoryLog.reason l = Inventory.reason a
  /\ InventoryLog.createdBy l = userId.

(** [r] is the per-item result reported for the adjustment [a]. *)
Definition is_result_of (a : Inventory.Adjustment) (r : Inventory.Result) : Prop :=
  Inventory.r_productId r = Inventory.productId a
  /\ Inventory.newStock a = Some (Inventory.r_newStock r)
  /\ Inventory.r_stockDifference r = Inventory.r_newStock r - Inventory.r_previousStock r.

(** The two writes of an adjustment from stock [s] to [n] by the user
    [uid] go through: the user has a row, and the new stock, the old
    stock and their distance fit an [INTEGER] column. *)
Definition adjustable (uid : string) (db : DB) (s n : Z) : Prop :=
  uid ∈ users db
  /\ Prisma.int4 n = true /\ Prisma.int4 s = true
  /\ Prisma.int4 (Z.abs (n - s)) = true.

(** ** A small store used in the worked examples *)

Module Example.

Definition catalog : gmap string Product.t :=
  <["p1" := Product.mk "Kopi" 10 5 "c1" true]>
    (<["p2" := Product.mk "Teh" 7 5 "c1" true]> ∅).

Definition cart : list TransactionItem.t :=
  [TransactionItem.mk "p1" 3 10000 30000; TransactionItem.mk "p2" 1 5000 5000].

Definition sale (status : PaymentStatus) : Transaction.t :=
  Transaction.mk "t1" "TXN-1" 35000 0 0 35000 XENDIT_QRIS status
    (Some "inv-1") None "u1" cart.

(** One digital sale with the given status, nothing sold or logged yet. *)
Definition store (status : PaymentStatus) : DB :=
  mkDB {["u1"]} catalog [sale status] [] [].

(** An empty till: the catalog and the cashier only. *)
Definition empty_store : DB := mkDB {["u1"]} catalog [] [] [].

Definition push (status : string) : XenditWebhook.Body :=
  XenditWebhook.mkBody (Str "txn-t1-1700000000") Undefined (Str status) (Str "inv-1").


Definition gateway (status : string) : PaymentStatusCheck.Gateway :=
  fun _ => Some status.

Definition check : Trigger := StatusCheck (Some "u1") (Str "t1").

Definition env : Transactions.Env := Transactions.mkEnv (Some "u1") "TXN-1" "t1".

Definition order (paymentMethod : string) (paymentStatus : jsval) : Transactions.Body :=
  Transactions.mkBody 35000 0 0 35000 paymentMethod paymentStatus "u1"
    Undefined Undefined
    [Transactions.mkItem "p1" 3 10000 30000; Transactions.mkItem "p2" 1 5000 5000].

(** Three shelf items: low by its own threshold but above five, above
    its own threshold but below five, and retired. *)
Definition shelf : DB :=
  mkDB {["u1"]}
    (<["a" := Product.mk "Gula" 8 10 "c1" true]>
       (<["b" := Product.mk "Garam" 4 2 "c2" true]>
          (<["c" := Product.mk "Lada" 1 5 "c1" false]> ∅)))
    [] [] [].

(** A batch whose second entry names no product. *)
Definition batch : list Inventory.Adjustment :=
  [Inventory.mkAdjustment "p1" (Some 20) "recount";
   Inventory.mkAdjustment "nope" (Some 1) "recount";
   Inventory.mkAdjustment "p2" (Some 30) "delivery"].

End Example.

(** ** Further handlers *)

(** Column setters the further handlers need. *)
Definition with_xenditInvoiceUrl (u : option string) (x : Transaction.t) : Transaction.t :=
  Transaction.mk (Transaction.id x) (Transaction.transactionNumber x)
    (Transaction.totalAmount x) (Transaction.taxAmount x) (Transaction.discountAmount x)
    (Transaction.finalAmount x) (Transaction.paymentMethod x) (Transaction.paymentStatus x)
    (Transaction.xenditPaymentId x) u (Transaction.cashierId x) (Transaction.items x).

Definition with_paymentMethod (m : PaymentMethod) (x : Transaction.t) : Transaction.t :=
  Transaction.mk (Transaction.id x) (Transaction.transactionNumber x)
    (Transaction.totalAmount x) (Transaction.taxAmount x) (Transaction.discountAmount x)
    (Transaction.finalAmount x) m (Transaction.paymentStatus x)
    (Transaction.xenditPaymentId x) (Transaction.xenditInvoiceUrl x)
    (Transaction.cashierId x) (Transaction.items x).

Definition with_isActive (b : bool) (p : Product.t) : Product.t :=
  Product.mk (Product.name p) (Product.stock p) (Product.minStock p)
    (Product.categoryId p) b.

(** The enum check the ORM performs on the [paymentStatus] column. *)
Definition parse_PaymentStatus (s : string) : option PaymentStatus :=
  if String.eqb s "PENDING" then Some PENDING
  else if String.eqb s "PAID" then Some PAID
  else if String.eqb s "FAILED" then Some FAILED
  else if String.eqb s "EXPIRED" then Some EXPIRED
  else None.

(** ** PATCH and GET /api/transactions/[id] *)

Module TransactionById.

Record PatchBody := mkPatch {
  xenditPaymentId : jsval;
  xenditInvoiceUrl : jsval;
  paymentStatus : jsval
}.

Inductive Response :=
  | Ok (transaction : Transaction.t)             (* 200 *)
  | Error (status : Z) (error : string).

(** [...(xenditPaymentId && { xenditPaymentId })]: a falsy field spreads
    nothing. *)
Definition spread_xenditPaymentId (body : PatchBody) (x : Transaction.t) : Transaction.t :=
  match truthy_string (xenditPaymentId body) with
  | Some s => Transaction.with_xenditPaymentId (Some s) x
  | None => x
  end.

Definition spread_xenditInvoiceUrl (body : PatchBody) (x : Transaction.t) : Transaction.t :=
  match truthy_string (xenditInvoiceUrl body) with
  | Some s => with_xenditInvoiceUrl (Some s) x
  | None => x
  end.

(** The [data] of the update; [None] when the status string is no
    [PaymentStatus], which the ORM rejects. *)
Definition patch_data (body : PatchBody) : option (Transaction.t -> Transaction.t) :=
  match truthy_string (paymentStatus body) with
  | None =>
      Some (fun x => spread_xenditInvoiceUrl body (spread_xenditPaymentId body x))
  | Some s =>
      match parse_PaymentStatus s with
      | None => None
      | Some status =>
          Some (fun x => Transaction.with_paymentStatus status
                           (spread_xenditInvoiceUrl body (spread_xenditPaymentId body x)))
      end
  end.

(** The update throws, and the handler answers 500, when the data is
    rejected or no row has the id. *)
Definition PATCH (session : option string) (id : string) (body : PatchBody) (db : DB)
    : DB * Response :=
  match session with
  | None => (db, Error 401 "Unauthorized")
  | Some _ =>
      match patch_data body with
      | None => (db, Error 500 "Internal server error")
      | Some data =>
          match Prisma.transaction_findUnique id db with
          | None => (db, Error 500 "Internal server error")
          | Some row => (Prisma.transaction_update id data db, Ok (data row))
          end
      end
  end.

Definition GET (session : option string) (id : string) (db : DB) : Response :=
  match session with
  | None => Error 401 "Unauthorized"
  | Some _ =>
      match Prisma.transaction_findUnique id db with
      | None => Error 404 "Transaction not found"
      | Some transaction => Ok transaction
      end
  end.

End TransactionById.

(** ** /api/payments: invoice creation and the older status callback *)

Module Payments.

(** [`txn-${transactionId}-${Date.now()}`]; [now] is the printed clock
    value. *)
Definition externalId (transactionId now : string) : string :=
  "txn-" +:+ transactionId +:+ "-" +:+ now.

(** The [payment_method] field: a string, an object with an optional
    [type], or null / absent. *)
Inductive PaymentMethodField :=
  | MethodString (s : string)
  | MethodObject (type : jsval)
  | MethodAbsent.

(** [invoice_url] is [Undefined] when the key is not in the body. *)
Record PutBody := mkPut {
  external_id : jsval;
  status : jsval;
  payment_method : PaymentMethodField;
  invoice_url : jsval
}.

Inductive Response :=
  | Received                         (* 200 { received: true } *)
  | NotFound                         (* 200 { received: true, message: 'Transaction not found' } *)
  | Error (status : Z) (error : string).

(** [external_id.replace(/^txn-/, '')]. *)
Definition strip_txn (s : string) : string :=
  match XenditWebhook.strip_prefix "txn-" s with
  | Some rest => rest
  | None => s
  end.

Definition map_status (status : jsval) : PaymentStatus :=
  if strict_eq status "PAID" || strict_eq status "SETTLED" then PAID
  else if strict_eq status "FAILED" then FAILED
  else if strict_eq status "EXPIRED" then EXPIRED
  else PENDING.

(** The string the handler writes to the [paymentMethod] column. *)
Definition method_name (status : jsval) (payment_method : PaymentMethodField) : string :=
  if strict_eq status "PAID" || strict_eq status "SETTLED"
  then match payment_method with
       | MethodString s => s
       | MethodObject type =>
           match truthy_string type with Some s => s | None => "UNKNOWN" end
       | MethodAbsent => "UNKNOWN"
       end
  else "UNKNOWN".

(** The invoice url written: the body's when the key is present, the
    stored one otherwise. *)
Definition invoice_url_of (body : PutBody) (transaction : Transaction.t) : option string :=
  match invoice_url body with
  | Undefined => Transaction.xenditInvoiceUrl transaction
  | Null => None
  | Str u => Some u
  end.

(** [external_id.replace] throws on a missing id; the update throws when
    the method string is no [PaymentMethod]. *)
Definition PUT (body : PutBody) (db : DB) : DB * Response :=
  match external_id body with
  | Str ext =>
      match Prisma.transaction_findFirst
              [Prisma.WhereXenditPaymentId (Str ext); Prisma.WhereId (strip_txn ext)] db with
      | None => (db, NotFound)
      | Some transaction =>
          let paymentStatus := map_status (status body) in
          match parse_PaymentMethod (method_name (status body) (payment_method body)) with
          | None => (db, Error 500 "Internal server error")
          | Some paymentMethod =>
              (Prisma.transaction_update (Transaction.id transaction)
                 (fun x => with_xenditInvoiceUrl (invoice_url_of body transaction)
                             (with_paymentMethod paymentMethod
                                (Transaction.with_xenditPaymentId (Some ext)
                                   (Transaction.with_paymentStatus paymentStatus x))))
                 db,
               Received)
          end
      end
  | _ => (db, Error 500 "Internal server error")
  end.

End Payments.

(** ** GET /api/dashboard/stats *)

Module DashboardStats.

Record Stats := mkStats {
  totalProducts : nat;
  totalTransactions : nat;
  totalRevenue : Z;
  lowStockProducts : nat
}.

(** The handler has no session check.  The revenue is summed over every
    transaction, whatever its status; an empty sum is reported as 0. *)
Definition GET (db : DB) : Stats :=
  mkStats
    (length (Reports.rows db))
    (length (transactions db))
    (foldr (fun x acc => Transaction.finalAmount x + acc) 0 (transactions db))
    (length (List.filter (fun r => Product.stock r.2 <? 10) (Reports.rows db))).

End DashboardStats.

(** ** GET /api/reports?type=overview: the totals *)

Module ReportOverview.

Record Overview := mkOverview {
  totalRevenue : Z;
  totalTransactions : nat;
  totalProducts : nat;
  lowStockCount : nat
}.

(** The [where] of the two transaction queries.  Rows carry no timestamp
    in this model: [dateFilter] is the [createdAt] range test built from
    [startDate] and [endDate], and accepts every row when either is
    missing. *)
Definition paid_in_range (dateFilter : Transaction.t -> bool) (x : Transaction.t) : bool :=
  dateFilter x && PaymentStatus_eqb (Transaction.paymentStatus x) PAID.

Definition overview (dateFilter : Transaction.t -> bool) (db : DB) : Overview :=
  let paid := List.filter (paid_in_range dateFilter) (transactions db) in
  mkOverview
    (foldr (fun x acc => Transaction.finalAmount x + acc) 0 paid)
    (length paid)
    (Reports.product_count (Reports.mkWhere None (Some true) None) db)
    (Reports.lowStockCount db).

End ReportOverview.

(** ** GET and DELETE /api/products/[id] *)

Module ProductById.

Inductive Response :=
  | Found (product : Product.t) (inventoryLogs : list InventoryLog.t)   (* 200 *)
  | Deactivated                      (* 200 { message: 'Product deactivated' } *)
  | Deleted                          (* 200 { message: 'Product deleted' } *)
  | Error (status : Z) (error : string).

(** The log entries of a product, most recent first; the log is kept in
    creation order. *)
Definition logs_of (id : string) (db : DB) : list InventoryLog.t :=
  rev (List.filter (fun l => String.eqb (InventoryLog.productId l) id) (inventoryLogs db)).

(** [include: { inventoryLogs: { take: 10, orderBy: { createdAt: 'desc' } } }]. *)
Definition GET (session : option string) (id : string) (db : DB) : Response :=
  match session with
  | None => Error 401 "Unauthorized"
  | Some _ =>
      match Prisma.product_findUnique id db with
      | None => Error 404 "Product not found"
      | Some product => Found product (firstn 10 (logs_of id db))
      end
  end.

(** [include: { transactionItems: true }]: the line items, of any
    transaction, that name the product. *)
Definition transactionItems (id : string) (db : DB) : list TransactionItem.t :=
  flat_map
    (fun x => List.filter (fun it => String.eqb (TransactionItem.productId it) id)
                (Transaction.items x))
    (transactions db).

(** The foreign key of the inventory log ([ON DELETE RESTRICT]) makes
    [prisma.product.delete] throw while a log entry names the product. *)
Definition DELETE (session : option string) (id : string) (db : DB) : DB * Response :=
  match session with
  | None => (db, Error 401 "Unauthorized")
  | Some _ =>
      match Prisma.product_findUnique id db with
      | None => (db, Error 404 "Product not found")
      | Some existingProduct =>
          if (0 <? length (transactionItems id db))%nat
          then (Prisma.set_products (alter (with_isActive false) id (products db)) db,
                Deactivated)
          else if existsb (fun l => String.eqb (InventoryLog.productId l) id)
                    (inventoryLogs db)
          then (db, Error 500 "Internal server error")
          else (Prisma.set_products (delete id (products db)) db, Deleted)
      end
  end.

End ProductById.

(** ** Vocabulary of the further properties *)



(** The columns of a transaction that are fixed at checkout. *)
Definition checkout_columns (x : Transaction.t)
    : string * string * (Z * Z * Z * Z) * string * list TransactionItem.t :=
  (Transaction.id x, Transaction.transactionNumber x,
   (Transaction.totalAmount x, Transaction.taxAmount x,
    Transaction.discountAmount x, Transaction.finalAmount x),
   Transaction.cashierId x, Transaction.items x).

(** A dash occurs in the string. *)
Fixpoint has_dash (s : string) : bool :=
  match s with
  | EmptyString => false
  | String c rest => Ascii.eqb c "-" || has_dash rest
  end.

(** Every line item and every log entry names a product of the store. *)
Definition references_resolve (db : DB) : Prop :=
  (forall x it, x ∈ transactions db -> it ∈ Transaction.items x ->
                is_Some (products db !! TransactionItem.productId it))
  /\ (forall l, l ∈ inventoryLogs db -> is_Some (products db !! InventoryLog.productId l)).

(** The revenue of the PAID transactions, over all dates. *)
Definition paid_revenue (db : DB) : Z :=
  ReportOverview.totalRevenue (ReportOverview.overview (fun _ => true) db).

Definition paid_count (db : DB) : nat :=
  ReportOverview.totalTransactions (ReportOverview.overview (fun _ => true) db).

(** A creation request that passes the guards the handler checks before it
    writes: session, required fields, known cashier, positive quantities. *)
Definition passes_guards (env : Transactions.Env) (body : Transactions.Body) (db : DB)
    : Prop :=
  is_Some (Transactions.session env)
  /\ Transactions.totalAmount body <> 0
  /\ Transactions.finalAmount body <> 0
  /\ Transactions.cashierId body <> ""
  /\ Transactions.cashierId body ∈ users db
  /\ Transactions.items body <> []
  /\ Forall (fun i => 0 < Transactions.quantity i) (Transactions.items body).

(** The "New Order" notification of a creation request. *)
Definition new_order (env : Transactions.Env) (body : Transactions.Body) : Notification.t :=
  Notification.mk (Transactions.cashierId body) "New Order" INFO
    (NewOrderMeta (Transactions.transactionNumber env) (Transactions.finalAmount body)).

(** ** Further stores for the worked examples *)

Module Scenario.

(** A sale settled in cash, with its two log entries. *)
Definition after_cash_sale : DB :=
  (Transactions.POST Example.env (Example.order "CASH" Undefined) Example.empty_store).1.

(** A pending invoice created for transaction [t1] at clock value
    [1700000000000]. *)
Definition invoice_push (status : string) : XenditWebhook.Body :=
  XenditWebhook.mkBody (Str (Payments.externalId "t1" "1700000000000")) Undefined
    (Str status) (Str "inv-77").

Definition callback (status : string) (method : Payments.PaymentMethodField)
    : Payments.PutBody :=
  Payments.mkPut (Str "inv-1") (Str status) method Undefined.

Definition mark (status : string) : TransactionById.PatchBody :=
  TransactionById.mkPatch Undefined Undefined (Str status).

(** A cart of three lines; [middle] is the product and the quantity of the
    second line. *)
Definition cart_of (middle : string) (quantity : Z) : Transactions.Body :=
  Transactions.mkBody 36000 0 0 36000 "CASH" Undefined "u1" Undefined Undefined
    [Transactions.mkItem "p1" 3 10000 30000;
     Transactions.mkItem middle quantity 1000 1000;
     Transactions.mkItem "p2" 1 5000 5000].

Definition recount : Inventory.Adjustment :=
  Inventory.mkAdjustment "p1" (Some 20) "recount".





(** A cart that names the first product on two lines. *)
Definition double_cart : Transactions.Body :=
  Transactions.mkBody 20000 0 0 20000 "CASH" Undefined "u1" Undefined Undefined
    [Transactions.mkItem "p1" 1 10000 10000; Transactions.mkItem "p1" 1 10000 10000].

End Scenario.

(** * Properties *)

(** ** The store operations *)

Section StoreLemmas.

Implicit Types (db : DB) (pid : string) (t : Transaction.t).


(** Decrementing the stored value and writing the value computed from a
    fresh read are the same write when nothing runs in between. *)
Lemma decrement_is_set db pid q p :
  products db !! pid = Some p ->
  Prisma.product_decrement_stock pid q db
  = Prisma.product_set_stock pid (Product.stock p - q) db.
Proof.
  intros Hp. unfold Prisma.product_decrement_stock, Prisma.product_set_stock.
  f_equal. apply map_eq; intros k. rewrite !lookup_alter.
  case_decide; [subst; by rewrite Hp|done].
Qed.

Lemma total_stock_set_stock db pid s p :
  products db !! pid = Some p ->
  total_stock (Prisma.product_set_stock pid s db)
  = total_stock db - Product.stock p + s.
Proof.
  intros Hp. unfold total_stock, Prisma.product_set_stock; simpl.
  assert (Hcomm : forall (z1 z2 : Product.t) (y : Z),
             Product.stock z1 + (Product.stock z2 + y)
             = Product.stock z2 + (Product.stock z1 + y)) by (intros; lia).
  rewrite <- (insert_delete_id (products db) pid p Hp) at 2.
  rewrite (map_fold_insert_L _ _ pid p (delete pid (products db)));
    [|intros; apply Hcomm|apply lookup_delete_eq].
  replace (alter (Product.with_stock s) pid (products db))
    with (<[pid := Product.with_stock s p]> (delete pid (products db))).
  - rewrite map_fold_insert_L; [simpl; lia|intros; apply Hcomm|apply lookup_delete_eq].
  - apply map_eq; intros k. rewrite lookup_alter, lookup_insert.
    case_decide; [subst; by rewrite Hp|by rewrite lookup_delete_ne].
Qed.

Lemma findUnique_of_unique db t :
  unique_ids db -> t ∈ transactions db ->
  Prisma.transaction_findUnique (Transaction.id t) db = Some t.
Proof.
  unfold unique_ids, Prisma.transaction_findUnique.
  induction (transactions db) as [|x l IH]; intros Hnd Hin.
  - by apply elem_of_nil in Hin.
  - simpl in *. apply NoDup_cons in Hnd as [Hx Hnd].
    apply elem_of_cons in Hin as [->|Hin].
    + by rewrite String.eqb_refl.
    + destruct (String.eqb_spec (Transaction.id x) (Transaction.id t)) as [E|_].
      * exfalso. apply Hx. rewrite E. by apply list_elem_of_fmap_2.
      * by apply IH.
Qed.

Lemma unique_row db t t' :
  unique_ids db -> t ∈ transactions db -> t' ∈ transactions db ->
  Transaction.id t' = Transaction.id t -> t' = t.
Proof.
  intros Hu Ht Ht' E.
  pose proof (findUnique_of_unique db t Hu Ht) as H1.
  pose proof (findUnique_of_unique db t' Hu Ht') as H2.
  rewrite E in H2. congruence.
Qed.

End StoreLemmas.

(** ** The stock loop of the three sale paths *)

Section SaleLoop.

Implicit Types (db : DB) (pid : string) (t : Transaction.t)
  (it : TransactionItem.t) (its : list TransactionItem.t).

(** The loop body written as one store update. *)
Lemma check_sell_item_found t it db p :
  products db !! TransactionItem.productId it = Some p ->
  PaymentStatusCheck.sell_item t it db
  = mkDB (users db)
      (alter (Product.with_stock (Product.stock p - TransactionItem.quantity it))
         (TransactionItem.productId it) (products db))
      (transactions db)
      (inventoryLogs db ++ [sale_log t it p])
      (notifications db ++ sale_alerts t it p).
Proof.
  intros Hp. unfold PaymentStatusCheck.sell_item, Prisma.product_findUnique, sale_alerts.
  rewrite Hp. destruct (_ <=? _); simpl; [done|by rewrite app_nil_r].
Qed.

Lemma check_sell_item_missing t it db :
  products db !! TransactionItem.productId it = None ->
  PaymentStatusCheck.sell_item t it db = db.
Proof.
  intros Hp. unfold PaymentStatusCheck.sell_item, Prisma.product_findUnique.
  by rewrite Hp.
Qed.

(** The webhook decrements, the status check writes the new value: the
    same loop body. *)
Lemma webhook_sell_item t it db :
  XenditWebhook.sell_item t it db = PaymentStatusCheck.sell_item t it db.
Proof.
  unfold XenditWebhook.sell_item, PaymentStatusCheck.sell_item, Prisma.product_findUnique.
  destruct (products db !! _) as [p|] eqn:Hp; [|done].
  by rewrite (decrement_is_set _ _ _ _ Hp).
Qed.

Lemma webhook_update_stock t its db :
  XenditWebhook.update_stock t its db = PaymentStatusCheck.update_stock t its db.
Proof.
  revert db; induction its as [|it its IH]; intros db; simpl; [done|].
  by rewrite webhook_sell_item, IH.
Qed.

(** The creation path runs the same body on existing products. *)
Lemma create_sell_item t (i : Transactions.Item) db p :
  products db !! Transactions.productId i = Some p ->
  Transactions.sell_item (Transaction.cashierId t) (Transaction.transactionNumber t) i db
  = (PaymentStatusCheck.sell_item t (Transactions.to_row i) db, None).
Proof.
  intros Hp.
  unfold Transactions.sell_item, PaymentStatusCheck.sell_item, Prisma.product_findUnique.
  simpl. rewrite Hp. by rewrite (decrement_is_set _ _ _ _ Hp).
Qed.

Lemma sell_item_exists t it db pid :
  is_Some (products (PaymentStatusCheck.sell_item t it db) !! pid)
  <-> is_Some (products db !! pid).
Proof.
  destruct (products db !! TransactionItem.productId it) as [p|] eqn:Hp.
  - rewrite (check_sell_item_found _ _ _ _ Hp); simpl.
    rewrite lookup_alter. case_decide; [subst; rewrite Hp|]; by rewrite ?is_Some_alt.
  - by rewrite (check_sell_item_missing _ _ _ Hp).
Qed.

Lemma sell_item_stock t it db pid :
  stock_of (PaymentStatusCheck.sell_item t it db) pid
  = (fun s => s - sold it pid) <$> stock_of db pid.
Proof.
  unfold stock_of, sold.
  destruct (products db !! TransactionItem.productId it) as [p|] eqn:Hp.
  - rewrite (check_sell_item_found _ _ _ _ Hp); simpl.
    rewrite lookup_alter. case_decide as E.
    + subst pid. rewrite Hp, String.eqb_refl. done.
    + apply String.eqb_neq in E. rewrite E.
      destruct (products db !! pid); simpl; f_equal; lia.
  - rewrite (check_sell_item_missing _ _ _ Hp).
    destruct (String.eqb_spec (TransactionItem.productId it) pid) as [E|_].
    + by rewrite <- E, Hp.
    + destruct (products db !! pid); simpl; f_equal; lia.
Qed.

Lemma update_stock_exists t its db pid :
  is_Some (products (PaymentStatusCheck.update_stock t its db) !! pid)
  <-> is_Some (products db !! pid).
Proof.
  revert db; induction its as [|it its IH]; intros db; simpl; [done|].
  by rewrite IH, sell_item_exists.
Qed.

Lemma update_stock_stock t its db pid :
  stock_of (PaymentStatusCheck.update_stock t its db) pid
  = (fun s => s - qty_for pid its) <$> stock_of db pid.
Proof.
  revert db; induction its as [|it its IH]; intros db; simpl.
  - destruct (stock_of db pid); simpl; f_equal; lia.
  - rewrite IH, sell_item_stock. fold (sold it pid).
    destruct (stock_of db pid); simpl; f_equal; lia.
Qed.

Lemma update_stock_frame t its db :
  users (PaymentStatusCheck.update_stock t its db) = users db
  /\ transactions (PaymentStatusCheck.update_stock t its db) = transactions db.
Proof.
  revert db; induction its as [|it its IH]; intros db; simpl; [done|].
  destruct (IH (PaymentStatusCheck.sell_item t it db)) as [-> ->].
  destruct (products db !! TransactionItem.productId it) as [p|] eqn:Hp.
  - by rewrite (check_sell_item_found _ _ _ _ Hp).
  - by rewrite (check_sell_item_missing _ _ _ Hp).
Qed.

Lemma sellable_found db it its p :
  products db !! TransactionItem.productId it = Some p ->
  sellable db (it :: its) = it :: sellable db its.
Proof.
  intros Hp. unfold sellable; simpl. by rewrite bool_decide_eq_true_2.
Qed.

Lemma sellable_missing db it its :
  products db !! TransactionItem.productId it = None ->
  sellable db (it :: its) = sellable db its.
Proof.
  intros Hp. unfold sellable; simpl.
  rewrite bool_decide_eq_false_2; [done|]. rewrite Hp. by intros [? ?].
Qed.

Lemma sellable_sell_item t it its db :
  sellable (PaymentStatusCheck.sell_item t it db) its = sellable db its.
Proof.
  unfold sellable. apply List.filter_ext; intros x.
  apply bool_decide_ext, sell_item_exists.
Qed.

(** One log entry per line item whose product exists, in order. *)
Lemma update_stock_logs t its db :
  exists logs,
    inventoryLogs (PaymentStatusCheck.update_stock t its db) = inventoryLogs db ++ logs
    /\ Forall2 (is_sale_log t) (sellable db its) logs.
Proof.
  revert db; induction its as [|it its IH]; intros db; cbn [PaymentStatusCheck.update_stock].
  - exists []. by rewrite app_nil_r.
  - destruct (IH (PaymentStatusCheck.sell_item t it db)) as (logs & -> & HF).
    rewrite sellable_sell_item in HF.
    destruct (products db !! TransactionItem.productId it) as [p|] eqn:Hp.
    + rewrite (check_sell_item_found _ _ _ _ Hp); cbn [inventoryLogs].
      exists (sale_log t it p :: logs). split; [by rewrite <- app_assoc|].
      rewrite (sellable_found _ _ _ _ Hp).
      constructor; [|done]. by repeat split.
    + rewrite (check_sell_item_missing _ _ _ Hp).
      exists logs. split; [done|].
      by rewrite (sellable_missing _ _ _ Hp).
Qed.

(** The loop appends low-stock alerts and nothing else. *)
Lemma update_stock_notifications t its db :
  exists alerts,
    notifications (PaymentStatusCheck.update_stock t its db) = notifications db ++ alerts
    /\ Forall is_low_stock_alert alerts.
Proof.
  revert db; induction its as [|it its IH]; intros db; cbn [PaymentStatusCheck.update_stock].
  - exists []. by rewrite app_nil_r.
  - destruct (IH (PaymentStatusCheck.sell_item t it db)) as (alerts & -> & HF).
    destruct (products db !! TransactionItem.productId it) as [p|] eqn:Hp.
    + rewrite (check_sell_item_found _ _ _ _ Hp); simpl.
      exists (sale_alerts t it p ++ alerts). split; [by rewrite <- app_assoc|].
      apply Forall_app; split; [|done].
      unfold sale_alerts. destruct (_ <=? _); constructor; [|constructor].
      by eexists _, _.
    + rewrite (check_sell_item_missing _ _ _ Hp). by exists alerts.
Qed.

Lemma update_stock_total t its db :
  total_stock (PaymentStatusCheck.update_stock t its db)
  = total_stock db - sum_quantities (sellable db its).
Proof.
  revert db; induction its as [|it its IH]; intros db;
    cbn [PaymentStatusCheck.update_stock]; [unfold sellable; simpl; lia|].
  rewrite IH, sellable_sell_item.
  destruct (products db !! TransactionItem.productId it) as [p|] eqn:Hp.
  - rewrite (check_sell_item_found _ _ _ _ Hp).
    rewrite (sellable_found _ _ _ _ Hp). unfold sum_quantities; cbn [foldr].
    pose proof (total_stock_set_stock db (TransactionItem.productId it)
                  (Product.stock p - TransactionItem.quantity it) p Hp) as Ht.
    unfold total_stock, Prisma.product_set_stock in Ht; simpl in Ht.
    unfold total_stock at 1; simpl. rewrite Ht. unfold total_stock. lia.
  - rewrite (check_sell_item_missing _ _ _ Hp).
    rewrite (sellable_missing _ _ _ Hp). lia.
Qed.

Lemma sellable_all db its :
  Forall (fun it => is_Some (products db !! TransactionItem.productId it)) its ->
  sellable db its = its.
Proof.
  induction 1 as [|it its [p Hp] _ IH]; [done|].
  by rewrite (sellable_found _ _ _ _ Hp), IH.
Qed.

(** The creation loop on a list of existing products is the same loop and
    does not throw. *)
Lemma create_update_stock t (xs : list Transactions.Item) db :
  Forall (fun i => is_Some (products db !! Transactions.productId i)) xs ->
  Transactions.update_stock (Transaction.cashierId t)
    (Transaction.transactionNumber t) xs db
  = (PaymentStatusCheck.update_stock t (map Transactions.to_row xs) db, None).
Proof.
  revert db; induction xs as [|i xs IH]; intros db Hall; simpl; [done|].
  apply Forall_cons in Hall as [[p Hp] Hall].
  rewrite (create_sell_item t i db p Hp). apply IH.
  eapply Forall_impl; [exact Hall|]. intros x Hx; simpl in *.
  by apply (sell_item_exists t (Transactions.to_row i) db).
Qed.

End SaleLoop.

(** ** Creating a transaction *)

Section CreateTransaction.

Implicit Types (db : DB) (env : Transactions.Env) (body : Transactions.Body).

Lemma invalid_quantity_none (xs : list Transactions.Item) :
  Forall (fun i => 0 < Transactions.quantity i) xs ->
  Transactions.invalid_quantity xs = None.
Proof.
  induction 1 as [|i xs Hi _ IH]; simpl; [done|].
  destruct (Z.leb_spec (Transactions.quantity i) 0); [lia|done].
Qed.

Lemma qty_for_unique (it : TransactionItem.t) its :
  NoDup (map TransactionItem.productId its) -> it ∈ its ->
  qty_for (TransactionItem.productId it) its = TransactionItem.quantity it.
Proof.
  induction its as [|x its IH]; intros Hnd Hin; simpl in *.
  - by apply elem_of_nil in Hin.
  - apply NoDup_cons in Hnd as [Hx Hnd].
    assert (Hnone : forall y, y ∉ map TransactionItem.productId its ->
               qty_for y its = 0).
    { clear. induction its as [|z its IH]; intros y Hy; simpl; [done|].
      apply not_elem_of_cons in Hy as [Hz Hy]. rewrite (IH _ Hy).
      destruct (String.eqb_spec (TransactionItem.productId z) y); [congruence|lia]. }
    apply elem_of_cons in Hin as [->|Hin].
    + rewrite String.eqb_refl, (Hnone _ Hx). lia.
    + destruct (String.eqb_spec (TransactionItem.productId x)
                  (TransactionItem.productId it)) as [E|_].
      * exfalso. apply Hx. rewrite E. by apply list_elem_of_fmap_2.
      * rewrite (IH Hnd Hin). lia.
Qed.

Lemma forallb_Forall_true {A} (f : A -> bool) (l : list A) :
  Forall (fun x => f x = true) l -> forallb f l = true.
Proof. induction 1 as [|x l Hx _ IH]; simpl; [done|by rewrite Hx]. Qed.

Lemma row_product_ids (xs : list Transactions.Item) :
  map TransactionItem.productId (map Transactions.to_row xs)
  = map Transactions.productId xs.
Proof. rewrite map_map. by apply map_ext. Qed.

(** The database takes the row of a storable request whose cashier and
    products exist. *)
Lemma storable_insertable env body db method status :
  Transactions.cashierId body ∈ users db ->
  Forall (fun i => is_Some (products db !! Transactions.productId i))
    (Transactions.items body) ->
  storable env body db ->
  Prisma.transaction_insertable (created_row env body method status) db = true.
Proof.
  intros Hu Hp (Hid & Hnum & Hnd & Ht & Hx & Hd & Hf & Hr).
  unfold Prisma.transaction_insertable, created_row, Prisma.user_exists.
  cbn [Transaction.id Transaction.transactionNumber Transaction.cashierId
         Transaction.totalAmount Transaction.taxAmount Transaction.discountAmount
         Transaction.finalAmount Transaction.items].
  rewrite Ht, Hx, Hd, Hf, row_product_ids.
  rewrite !bool_decide_eq_true_2 by done. cbn [andb].
  rewrite andb_true_r. apply forallb_Forall_true, Forall_fmap.
  apply Forall_forall. intros i Hi.
  rewrite Forall_forall in Hp, Hr. destruct (Hr i Hi) as (Hq & Hup & Htp).
  unfold compose, Prisma.item_insertable, Transactions.to_row.
  cbn [TransactionItem.productId TransactionItem.quantity TransactionItem.unitPrice
         TransactionItem.totalPrice].
  rewrite Hq, Hup, Htp, bool_decide_eq_true_2 by (by apply Hp). done.
Qed.

Lemma accepted_create env body db method status :
  accepted env body db ->
  Prisma.transaction_create (created_row env body method status) db
  = Some (Prisma.transaction_append (created_row env body method status) db).
Proof.
  intros (_ & _ & _ & _ & Hu & _ & _ & Hp & Hs). unfold Prisma.transaction_create.
  by rewrite (storable_insertable env body db method status Hu Hp Hs).
Qed.

(** On an accepted request whose stock branch is taken, the handler
    inserts the row, runs the stock loop and notifies the new order. *)
Lemma POST_with_stock env body db method :
  accepted env body db ->
  parse_PaymentMethod (Transactions.paymentMethod body) = Some method ->
  String.eqb (Transactions.paymentMethod body) "CASH"
  || (Transactions.isXenditPayment method
      && strict_eq (Transactions.paymentStatus body) "PAID") = true ->
  let t := created_row env body method
             (if String.eqb (Transactions.paymentMethod body) "CASH"
              then PAID else PENDING) in
  Transactions.POST env body db
  = (Notifications.notifyNewOrder (Transactions.cashierId body)
       (Transactions.transactionNumber env) (Transactions.finalAmount body)
       (PaymentStatusCheck.update_stock t (Transaction.items t)
          (Prisma.transaction_append t db)),
     Transactions.Created t).
Proof.
  intros Hacc Hm Hbranch t.
  pose proof (accepted_create env body db method
                (if String.eqb (Transactions.paymentMethod body) "CASH"
                 then PAID else PENDING) Hacc) as Hcreate.
  destruct Hacc as (Hs & Ht & Hf & Hc & Hu & Hi & Hq & Hp & _).
  unfold Transactions.POST. destruct Hs as [uid ->].
  apply Z.eqb_neq in Ht, Hf. apply String.eqb_neq in Hc. rewrite Ht, Hf, Hc.
  assert (Hmne : String.eqb (Transactions.paymentMethod body) "" = false).
  { apply String.eqb_neq. intros E. rewrite E in Hm. discriminate. }
  rewrite Hmne.
  assert (Hlen : (length (Transactions.items body) =? 0)%nat = false).
  { apply Nat.eqb_neq. destruct (Transactions.items body); [done|simpl; lia]. }
  rewrite Hlen. cbn [orb].
  unfold Prisma.user_exists. rewrite bool_decide_eq_true_2 by done. cbn [negb].
  rewrite (invalid_quantity_none _ Hq), Hm.
  pose proof (create_update_stock t (Transactions.items body)
                (Prisma.transaction_append t db) Hp) as Hloop.
  subst t. unfold created_row in *. rewrite Hcreate, Hbranch.
  cbn [Transaction.cashierId Transaction.transactionNumber Transaction.items] in *.
  by rewrite Hloop.
Qed.

End CreateTransaction.

Section CashSale.

Lemma stock_of_ext (db1 db2 : DB) pid :
  products db1 = products db2 -> stock_of db1 pid = stock_of db2 pid.
Proof. unfold stock_of. by intros ->. Qed.

Lemma total_stock_ext (db1 db2 : DB) :
  products db1 = products db2 -> total_stock db1 = total_stock db2.
Proof. unfold total_stock. by intros ->. Qed.

Lemma sellable_ext (db1 db2 : DB) its :
  products db1 = products db2 -> sellable db1 its = sellable db2 its.
Proof. unfold sellable. by intros ->. Qed.

Lemma existing_rows (db : DB) (xs : list Transactions.Item) :
  Forall (fun i => is_Some (products db !! Transactions.productId i)) xs ->
  Forall (fun it => is_Some (products db !! TransactionItem.productId it))
    (map Transactions.to_row xs).
Proof. intros H. apply Forall_fmap. exact H. Qed.

(** C2: a cash sale that passes the handler's guards, and whose row the
    database takes, is stored as PAID, takes each item's quantity off the
    stock of its product (so the total stock falls by the sum of the
    quantities) and appends exactly one SALE entry per line item to the
    inventory log. *)
Theorem cash_sale_paid_and_stocked env body db :
  accepted env body db ->
  Transactions.paymentMethod body = "CASH" ->
  exists db' t logs,
    Transactions.POST env body db = (db', Transactions.Created t)
    /\ Transaction.paymentStatus t = PAID
    /\ Transaction.items t = map Transactions.to_row (Transactions.items body)
    /\ transactions db' = transactions db ++ [t]
    /\ (forall pid,
          stock_of db' pid
          = (fun s => s - qty_for pid (Transaction.items t)) <$> stock_of db pid)
    /\ (forall it, it ∈ Transaction.items t ->
          stock_of db' (TransactionItem.productId it)
          = (fun s => s - TransactionItem.quantity it)
              <$> stock_of db (TransactionItem.productId it))
    /\ total_stock db' = total_stock db - sum_quantities (Transaction.items t)
    /\ inventoryLogs db' = inventoryLogs db ++ logs
    /\ Forall2 (is_sale_log t) (Transaction.items t) logs.
Proof.
  intros Hacc Hcash.
  pose proof (POST_with_stock env body db CASH Hacc) as HP.
  rewrite Hcash in HP. specialize (HP eq_refl eq_refl). cbn zeta in HP.
  change (String.eqb "CASH" "CASH") with true in HP. cbn iota in HP.
  set (t := created_row env body CASH PAID) in *.
  destruct Hacc as (_ & _ & _ & _ & _ & _ & _ & Hp & _ & _ & Hnd & _).
  pose proof (existing_rows db _ Hp) as Hrows.
  rewrite <- row_product_ids in Hnd.
  change (map Transactions.to_row (Transactions.items body))
    with (Transaction.items t) in Hrows, Hnd.
  set (db0 := Prisma.transaction_append t db) in *.
  assert (Hprod : products db0 = products db) by done.
  destruct (update_stock_logs t (Transaction.items t) db0) as (logs & Hlogs & HF).
  destruct (update_stock_frame t (Transaction.items t) db0) as [_ Htx].
  assert (Hstock : forall pid,
             stock_of (PaymentStatusCheck.update_stock t (Transaction.items t) db0) pid
             = (fun s => s - qty_for pid (Transaction.items t)) <$> stock_of db pid).
  { intros pid. rewrite update_stock_stock. by rewrite (stock_of_ext db0 db). }
  eexists _, t, logs. split; [exact HP|].
  split; [done|]. split; [done|]. split; [exact Htx|]. split; [exact Hstock|].
  split.
  { intros it Hin.
    rewrite <- (qty_for_unique it (Transaction.items t) Hnd Hin). apply Hstock. }
  split.
  { etransitivity; [apply (update_stock_total t (Transaction.items t) db0)|].
    rewrite (sellable_ext db0 db), (total_stock_ext db0 db) by done.
    by rewrite (sellable_all db _ Hrows). }
  split; [exact Hlogs|].
  rewrite (sellable_ext db0 db), (sellable_all db _ Hrows) in HF by done. exact HF.
Qed.

End CashSale.

(** ** The transaction table *)

Section TransactionTable.

Implicit Types (db : DB) (t x : Transaction.t) (f : Transaction.t -> Transaction.t).

Lemma findFirst_elem ws db t :
  Prisma.transaction_findFirst ws db = Some t ->
  t ∈ transactions db /\ existsb (fun w => Prisma.where_matches w t) ws = true.
Proof.
  unfold Prisma.transaction_findFirst. intros H. apply find_some in H as [Hin Hm].
  split; [by apply list_elem_of_In|done].
Qed.

Lemma findUnique_elem tid db t :
  Prisma.transaction_findUnique tid db = Some t ->
  t ∈ transactions db /\ Transaction.id t = tid.
Proof.
  unfold Prisma.transaction_findUnique. intros H. apply find_some in H as [Hin Hm].
  split; [by apply list_elem_of_In|by apply String.eqb_eq].
Qed.

Lemma update_ids tid f db :
  (forall x, Transaction.id (f x) = Transaction.id x) ->
  map Transaction.id (transactions (Prisma.transaction_update tid f db))
  = map Transaction.id (transactions db).
Proof.
  intros Hid. unfold Prisma.transaction_update; simpl.
  rewrite map_map. apply map_ext. intros x. by destruct (String.eqb _ _).
Qed.

Lemma update_unique tid f db :
  (forall x, Transaction.id (f x) = Transaction.id x) ->
  unique_ids db -> unique_ids (Prisma.transaction_update tid f db).
Proof. intros Hid. unfold unique_ids. by rewrite update_ids. Qed.

Lemma update_elem f db t :
  t ∈ transactions db ->
  f t ∈ transactions (Prisma.transaction_update (Transaction.id t) f db).
Proof.
  intros Hin. unfold Prisma.transaction_update; simpl.
  apply list_elem_of_fmap. exists t. by rewrite String.eqb_refl.
Qed.

Lemma update_findUnique f db t :
  (forall x, Transaction.id (f x) = Transaction.id x) ->
  unique_ids db -> t ∈ transactions db ->
  Prisma.transaction_findUnique (Transaction.id t)
    (Prisma.transaction_update (Transaction.id t) f db) = Some (f t).
Proof.
  intros Hid Hu Hin. rewrite <- (Hid t) at 1.
  apply findUnique_of_unique; [by apply update_unique|by apply update_elem].
Qed.

Lemma update_update tid f g db :
  (forall x, Transaction.id (g x) = Transaction.id x) ->
  Prisma.transaction_update tid f (Prisma.transaction_update tid g db)
  = Prisma.transaction_update tid (fun x => f (g x)) db.
Proof.
  intros Hid. unfold Prisma.transaction_update, Prisma.set_transactions; simpl.
  f_equal. rewrite map_map. apply map_ext; intros x.
  destruct (String.eqb_spec (Transaction.id x) tid) as [E|E].
  - rewrite Hid. by rewrite (proj2 (String.eqb_eq _ _) E).
  - by rewrite (proj2 (String.eqb_neq _ _) E).
Qed.

Lemma update_ext tid f g db :
  (forall x, x ∈ transactions db -> Transaction.id x = tid -> f x = g x) ->
  Prisma.transaction_update tid f db = Prisma.transaction_update tid g db.
Proof.
  intros Hfg. unfold Prisma.transaction_update, Prisma.set_transactions.
  f_equal. apply map_ext_in; intros x Hin.
  destruct (String.eqb_spec (Transaction.id x) tid) as [E|E]; [|done].
  apply Hfg; [by apply list_elem_of_In|done].
Qed.

Lemma update_noop tid f db :
  (forall x, x ∈ transactions db -> Transaction.id x = tid -> f x = x) ->
  Prisma.transaction_update tid f db = db.
Proof.
  intros Hf. rewrite (update_ext tid f (fun x => x) db Hf).
  unfold Prisma.transaction_update, Prisma.set_transactions.
  destruct db as [u p ts l n]; simpl. f_equal.
  rewrite <- (map_id ts) at 2. apply map_ext; intros x. by destruct (String.eqb _ _).
Qed.

End TransactionTable.

(** ** Looking a transaction up *)

Section Lookup.

Implicit Types (db : DB) (b : XenditWebhook.Body).

Lemma find_only_match {A} (p : A -> bool) (l : list A) (t : A) :
  t ∈ l -> p t = true -> (forall x, x ∈ l -> p x = true -> x = t) ->
  find p l = Some t.
Proof.
  induction l as [|x l IH]; intros Hin Ht Honly.
  - by apply elem_of_nil in Hin.
  - simpl. destruct (p x) eqn:Hx.
    + f_equal. apply Honly; [by left|done].
    + apply IH; [|done|].
      * apply elem_of_cons in Hin as [->|Hin]; [congruence|done].
      * intros y Hy. apply Honly. by right.
Qed.

(** A lookup that one row matches returns that row wherever the row is
    in the table. *)
Lemma findFirst_sole ws db t :
  t ∈ transactions db ->
  existsb (fun w => Prisma.where_matches w t) ws = true ->
  (forall x, x ∈ transactions db ->
             existsb (fun w => Prisma.where_matches w x) ws = true -> x = t) ->
  Prisma.transaction_findFirst ws db = Some t.
Proof. intros Hin Hm Honly. by apply find_only_match. Qed.

(** With one matching row the result is the same for every order in which
    the table may be scanned. *)
Lemma findFirst_any_order ws db db' t :
  Permutation (transactions db) (transactions db') ->
  Prisma.transaction_findFirst ws db = Some t ->
  (forall x, x ∈ transactions db ->
             existsb (fun w => Prisma.where_matches w x) ws = true -> x = t) ->
  Prisma.transaction_findFirst ws db' = Some t.
Proof.
  intros Hperm Hfind Honly. apply findFirst_elem in Hfind as [Hin Hm].
  apply findFirst_sole; [by rewrite <- Hperm|done|].
  intros x Hx. apply Honly. by rewrite Hperm.
Qed.

Lemma find_transaction_find b db :
  XenditWebhook.find_transaction b db
  = find (XenditWebhook.lookup_matches b) (transactions db).
Proof.
  unfold XenditWebhook.find_transaction, XenditWebhook.lookup_matches,
    Prisma.transaction_findFirst.
  destruct (truthy_string _) as [ext|]; [done|].
  induction (transactions db) as [|x l IH]; [done|exact IH].
Qed.

Lemma find_transaction_elem b db t :
  XenditWebhook.find_transaction b db = Some t ->
  t ∈ transactions db /\ XenditWebhook.lookup_matches b t = true.
Proof.
  rewrite find_transaction_find. intros H. apply find_some in H as [Hin Hm].
  split; [by apply list_elem_of_In|done].
Qed.

Lemma find_transaction_sole b db t :
  t ∈ transactions db -> XenditWebhook.lookup_matches b t = true ->
  sole_match b db t ->
  XenditWebhook.find_transaction b db = Some t.
Proof. rewrite find_transaction_find. intros. by apply find_only_match. Qed.


Lemma substring_whole (s : string) : String.substring 0 (String.length s) s = s.
Proof. induction s as [|c s IH]; simpl; [done|by rewrite IH]. Qed.

Lemma strip_prefix_txn (s : string) :
  XenditWebhook.strip_prefix "txn-" ("txn-" +:+ s) = Some s.
Proof.
  unfold XenditWebhook.strip_prefix. simpl.
  change ("" +:+ s) with s. rewrite Nat.sub_0_r, substring_whole.
  by destruct s.
Qed.

Lemma span_stops_at_dash (a r : string) :
  has_dash a = false ->
  XenditWebhook.span_non_dash (a +:+ String "-" r) = (a, String "-" r).
Proof.
  induction a as [|c a IH]; simpl; [done|].
  destruct (Ascii.eqb c "-"); [done|]. intros Ha. cbn [orb] in Ha. by rewrite (IH Ha).
Qed.

Lemma span_group_has_no_dash (s : string) :
  has_dash (XenditWebhook.span_non_dash s).1 = false.
Proof.
  induction s as [|c s IH]; simpl; [done|].
  destruct (Ascii.eqb c "-") eqn:E; [done|].
  destruct (XenditWebhook.span_non_dash s) as [g tl]. simpl in *. by rewrite E.
Qed.

Lemma match_group_has_no_dash (s g : string) :
  XenditWebhook.match_transaction_id s = Some g -> has_dash g = false.
Proof.
  unfold XenditWebhook.match_transaction_id.
  destruct (XenditWebhook.strip_prefix "txn-" s) as [rest|]; [|done].
  pose proof (span_group_has_no_dash rest) as H.
  destruct (XenditWebhook.span_non_dash rest) as [[|c g'] [|c' tl]]; try done.
  by intros [= <-].
Qed.

Lemma external_id_id (transactionId now : string) :
  (transactionId <> "" -> has_dash transactionId = false ->
   XenditWebhook.match_transaction_id (Payments.externalId transactionId now)
   = Some transactionId)
  /\ (has_dash transactionId = true ->
      XenditWebhook.match_transaction_id (Payments.externalId transactionId now)
      <> Some transactionId).
Proof.
  split.
  - intros Hne Hnd. unfold XenditWebhook.match_transaction_id, Payments.externalId.
    rewrite strip_prefix_txn.
    change ("-" +:+ now) with (String "-" now).
    rewrite (span_stops_at_dash transactionId now Hnd).
    by destruct transactionId.
  - intros Hd Hm. apply match_group_has_no_dash in Hm. congruence.
Qed.


End Lookup.

(** ** The webhook *)

Section Webhook.

Implicit Types (db : DB) (t : Transaction.t) (b : XenditWebhook.Body).

Lemma update_data_id b x :
  Transaction.id (XenditWebhook.update_data b x) = Transaction.id x.
Proof. done. Qed.

Lemma update_data_status b x :
  Transaction.paymentStatus (XenditWebhook.update_data b x)
  = XenditWebhook.map_status (XenditWebhook.status b).
Proof. done. Qed.

Lemma update_data_idem b x :
  XenditWebhook.update_data b (XenditWebhook.update_data b x)
  = XenditWebhook.update_data b x.
Proof. done. Qed.

(** The row the webhook has written still passes the webhook's filter. *)
Lemma update_data_matches b ext x :
  truthy_string (js_or (XenditWebhook.external_id b) (XenditWebhook.externalId b))
  = Some ext ->
  existsb (fun w => Prisma.where_matches w (XenditWebhook.update_data b x))
    (XenditWebhook.lookup_filters ext (XenditWebhook.id b)) = true.
Proof.
  intros Hext. unfold XenditWebhook.lookup_filters.
  rewrite existsb_app. apply orb_true_iff; right.
  unfold XenditWebhook.update_data.
  destruct (js_or (XenditWebhook.external_id b) (XenditWebhook.externalId b))
    as [| |e] eqn:He; simpl in Hext; try done.
  destruct (String.eqb e "") eqn:Hne; [done|]. injection Hext as ->.
  unfold js_or. destruct (XenditWebhook.id b) as [| |i]; simpl.
  - by rewrite String.eqb_refl.
  - by rewrite String.eqb_refl.
  - destruct (String.eqb i ""); simpl; rewrite ?String.eqb_refl; by rewrite ?orb_true_r.
Qed.

(** The handler on a body that resolves to the row [t]. *)
Lemma webhook_found b db ext t :
  unique_ids db ->
  truthy_string (js_or (XenditWebhook.external_id b) (XenditWebhook.externalId b))
  = Some ext ->
  Prisma.transaction_findFirst
    (XenditWebhook.lookup_filters ext (XenditWebhook.id b)) db = Some t ->
  XenditWebhook.POST b db
  = (let db1 := Prisma.transaction_update (Transaction.id t)
                  (XenditWebhook.update_data b) db in
     if PaymentStatus_eqb (XenditWebhook.map_status (XenditWebhook.status b)) PAID
        && negb (PaymentStatus_eqb (Transaction.paymentStatus t) PAID)
     then Notifications.notifyPaymentReceived (Transaction.cashierId t)
            (Transaction.transactionNumber t) (Transaction.finalAmount t)
            (PaymentStatusCheck.update_stock t (Transaction.items t) db1)
     else if PaymentStatus_eqb (XenditWebhook.map_status (XenditWebhook.status b)) FAILED
     then Notifications.notifyPaymentFailed (Transaction.cashierId t)
            (Transaction.transactionNumber t) (XenditWebhook.status b) db1
     else db1,
     XenditWebhook.Received).
Proof.
  intros Hu Hext Hfind. unfold XenditWebhook.POST. rewrite Hext, Hfind.
  cbn zeta. f_equal.
  destruct (_ && _); [|done].
  apply findFirst_elem in Hfind as [Hin _].
  rewrite (update_findUnique _ db t (update_data_id b) Hu Hin).
  by rewrite webhook_update_stock.
Qed.

Lemma webhook_target b db t :
  XenditWebhook.find_transaction b db = Some t ->
  exists ext,
    truthy_string (js_or (XenditWebhook.external_id b) (XenditWebhook.externalId b))
    = Some ext
    /\ Prisma.transaction_findFirst
         (XenditWebhook.lookup_filters ext (XenditWebhook.id b)) db = Some t.
Proof.
  unfold XenditWebhook.find_transaction.
  destruct (truthy_string _) as [ext|]; [|done]. intros H. by exists ext.
Qed.

(** When [t] is the only row the body matches, the row the webhook has
    written is the only row the body matches afterwards. *)
Lemma find_after_update b db t :
  unique_ids db -> XenditWebhook.find_transaction b db = Some t ->
  sole_match b db t ->
  let db1 := Prisma.transaction_update (Transaction.id t)
               (XenditWebhook.update_data b) db in
  XenditWebhook.find_transaction b db1 = Some (XenditWebhook.update_data b t)
  /\ sole_match b db1 (XenditWebhook.update_data b t).
Proof.
  intros Hu Hfind Hsole db1.
  destruct (find_transaction_elem b db t Hfind) as [Hin Hm].
  destruct (webhook_target b db t Hfind) as (ext & Hext & _).
  assert (Hm' : XenditWebhook.lookup_matches b (XenditWebhook.update_data b t) = true).
  { unfold XenditWebhook.lookup_matches. rewrite Hext. by apply update_data_matches. }
  assert (Hsole' : sole_match b db1 (XenditWebhook.update_data b t)).
  { intros x Hx Hmx. unfold db1, Prisma.transaction_update in Hx; simpl in Hx.
    apply list_elem_of_fmap in Hx as (x0 & -> & Hx0).
    destruct (String.eqb_spec (Transaction.id x0) (Transaction.id t)) as [E|E].
    - by rewrite (unique_row db t x0 Hu Hin Hx0 E).
    - exfalso. apply E. by rewrite (Hsole x0 Hx0 Hmx). }
  split; [|done]. apply find_transaction_sole; [by apply update_elem|done|done].
Qed.

(** The webhook leaves the transaction table as its status update wrote
    it. *)
Lemma webhook_transactions b db t :
  unique_ids db -> XenditWebhook.find_transaction b db = Some t ->
  transactions (XenditWebhook.POST b db).1
  = transactions (Prisma.transaction_update (Transaction.id t)
                    (XenditWebhook.update_data b) db).
Proof.
  intros Hu Hfind.
  destruct (webhook_target b db t Hfind) as (ext & Hext & Hff).
  rewrite (webhook_found b db ext t Hu Hext Hff). cbn zeta. cbn [fst].
  destruct (_ && _); [|by destruct (PaymentStatus_eqb _ FAILED)].
  cbn [transactions Notifications.notifyPaymentReceived
         Notifications.createNotification Prisma.notification_create].
  apply update_stock_frame.
Qed.

Lemma webhook_writes_status b db t :
  unique_ids db -> XenditWebhook.find_transaction b db = Some t ->
  Transaction.paymentStatus
    <$> Prisma.transaction_findUnique (Transaction.id t) (XenditWebhook.POST b db).1
  = Some (XenditWebhook.map_status (XenditWebhook.status b)).
Proof.
  intros Hu Hfind. pose proof (webhook_transactions b db t Hu Hfind) as Htx.
  destruct (webhook_target b db t Hfind) as (ext & _ & Hff).
  apply findFirst_elem in Hff as [Hin _].
  pose proof (update_findUnique _ db t (update_data_id b) Hu Hin) as HU.
  unfold Prisma.transaction_findUnique in *. by rewrite Htx, HU.
Qed.


(** What the lookup compares: the id read from the external id with the
    id of the row, and the external id and the id of the body with the
    gateway payment id of the row, a null id standing for a row without
    payment id. *)
Lemma lookup_matches_spec b x :
  XenditWebhook.lookup_matches b x = true
  <-> exists ext,
        truthy_string (js_or (XenditWebhook.external_id b) (XenditWebhook.externalId b))
        = Some ext
        /\ (XenditWebhook.match_transaction_id ext = Some (Transaction.id x)
            \/ Transaction.xenditPaymentId x = Some ext
            \/ match XenditWebhook.id b with
               | Undefined => False
               | Null => Transaction.xenditPaymentId x = None
               | Str i => Transaction.xenditPaymentId x = Some i
               end).
Proof.
  unfold XenditWebhook.lookup_matches, XenditWebhook.lookup_filters.
  destruct (truthy_string _) as [ext|]; [|split; [done|by intros (? & ? & _)]].
  rewrite existsb_app, orb_true_iff. cbn [existsb Prisma.where_matches].
  rewrite orb_false_r, orb_true_iff.
  assert (H1 : existsb (fun w => Prisma.where_matches w x)
                 match XenditWebhook.match_transaction_id ext with
                 | Some transactionId => [Prisma.WhereId transactionId]
                 | None => []
                 end = true
               <-> XenditWebhook.match_transaction_id ext = Some (Transaction.id x)).
  { destruct (XenditWebhook.match_transaction_id ext) as [tid|]; simpl; [|done].
    rewrite orb_false_r, String.eqb_eq. split; [by intros ->|by intros [= ->]]. }
  assert (H2 : match Transaction.xenditPaymentId x with
               | Some p => String.eqb p ext
               | None => false
               end = true <-> Transaction.xenditPaymentId x = Some ext).
  { destruct (Transaction.xenditPaymentId x) as [q|]; [|done].
    rewrite String.eqb_eq. split; [by intros ->|by intros [= ->]]. }
  assert (H3 : Prisma.where_matches (Prisma.WhereXenditPaymentId (XenditWebhook.id b)) x
               = true
               <-> match XenditWebhook.id b with
                   | Undefined => False
                   | Null => Transaction.xenditPaymentId x = None
                   | Str i => Transaction.xenditPaymentId x = Some i
                   end).
  { cbn [Prisma.where_matches].
    destruct (XenditWebhook.id b) as [| |i], (Transaction.xenditPaymentId x) as [q|];
      try done.
    rewrite String.eqb_eq. split; [by intros ->|by intros [= ->]]. }
  cbn [Prisma.where_matches] in H3. rewrite H1, H2, H3.
  split; [intros H; by exists ext|]. by intros (e & [= <-] & H).
Qed.




(** C9: the webhook maps "PAID", "SETTLED" and "SUCCEEDED" to PAID,
    "FAILED" to FAILED, "EXPIRED" to EXPIRED and every other status to
    PENDING, and that mapped status is what it writes to the transaction
    it resolved. *)
Theorem webhook_status_vocabulary :
  XenditWebhook.map_status (Str "PAID") = PAID
  /\ XenditWebhook.map_status (Str "SETTLED") = PAID
  /\ XenditWebhook.map_status (Str "SUCCEEDED") = PAID
  /\ XenditWebhook.map_status (Str "FAILED") = FAILED
  /\ XenditWebhook.map_status (Str "EXPIRED") = EXPIRED
  /\ (forall status,
        status <> Str "PAID" -> status <> Str "SETTLED" -> status <> Str "SUCCEEDED" ->
        status <> Str "FAILED" -> status <> Str "EXPIRED" ->
        XenditWebhook.map_status status = PENDING)
  /\ (forall b db t,
        unique_ids db -> XenditWebhook.find_transaction b db = Some t ->
        Transaction.paymentStatus
          <$> Prisma.transaction_findUnique (Transaction.id t)
                (XenditWebhook.POST b db).1
        = Some (XenditWebhook.map_status (XenditWebhook.status b))).
Proof.
  repeat split; try reflexivity.
  - intros status H1 H2 H3 H4 H5. unfold XenditWebhook.map_status, strict_eq.
    destruct status as [| |s]; try done.
    destruct (String.eqb_spec s "PAID"); [congruence|].
    destruct (String.eqb_spec s "SETTLED"); [congruence|].
    destruct (String.eqb_spec s "SUCCEEDED"); [congruence|].
    destruct (String.eqb_spec s "FAILED"); [congruence|].
    destruct (String.eqb_spec s "EXPIRED"); [congruence|]. done.
  - intros b db t Hu Hfind. by apply webhook_writes_status.
Qed.

End Webhook.

(** ** Reconciliation triggers *)

Section Reconciliation.

Implicit Types (db : DB) (t : Transaction.t) (tr : Trigger)
  (gw : PaymentStatusCheck.Gateway).

Lemma eqb_PAID_true s : s = PAID -> PaymentStatus_eqb s PAID = true.
Proof. intros ->. done. Qed.

Lemma eqb_PAID_false s : s <> PAID -> PaymentStatus_eqb s PAID = false.
Proof. intros H. unfold PaymentStatus_eqb. by rewrite bool_decide_eq_false_2. Qed.

Lemma paid_write_id tr x : Transaction.id (paid_write tr x) = Transaction.id x.
Proof. by destruct tr. Qed.

Lemma paid_write_status gw tr t x :
  observes_paid gw tr t -> Transaction.paymentStatus (paid_write tr x) = PAID.
Proof.
  destruct tr as [b|s i]; [|done].
  intros Hs. cbn [paid_write observes_paid] in *.
  by rewrite update_data_status, Hs.
Qed.

Lemma status_check_target session transactionId db t :
  target (StatusCheck session transactionId) db = Some t ->
  exists uid,
    session = Some uid
    /\ truthy_string transactionId = Some (Transaction.id t)
    /\ Prisma.transaction_findUnique (Transaction.id t) db = Some t.
Proof.
  simpl. destruct session as [uid|]; [|done].
  destruct (truthy_string transactionId) as [tid|]; [|done].
  intros H. destruct (findUnique_elem _ _ _ H) as [_ <-]. by exists uid.
Qed.

(** The first firing on a row that is not PAID yet. *)
Lemma first_fire gw tr db t :
  unique_ids db -> target tr db = Some t -> observes_paid gw tr t ->
  Transaction.paymentStatus t <> PAID ->
  fire gw tr db
  = Notifications.notifyPaymentReceived (Transaction.cashierId t)
      (Transaction.transactionNumber t) (Transaction.finalAmount t)
      (PaymentStatusCheck.update_stock t (Transaction.items t)
         (Prisma.transaction_update (Transaction.id t) (paid_write tr) db)).
Proof.
  intros Hu Ht Hobs Hnp. destruct tr as [b|session transactionId].
  - destruct (webhook_target b db t Ht) as (ext & Hext & Hfind).
    simpl in Hobs. simpl fire. rewrite (webhook_found b db ext t Hu Hext Hfind).
    cbn zeta. cbn [fst]. rewrite Hobs.
    change (XenditWebhook.map_status (Str "PAID")) with PAID.
    by rewrite (eqb_PAID_false _ Hnp).
  - destruct (status_check_target _ _ _ _ Ht) as (uid & -> & Htid & Hfind).
    destruct Hobs as (inv & Hinv & Hne & Hgw).
    simpl fire. unfold PaymentStatusCheck.POST.
    rewrite Htid, Hfind, (eqb_PAID_false _ Hnp), Hinv.
    apply String.eqb_neq in Hne. rewrite Hne, Hgw.
    change (PaymentStatusCheck.map_status "PAID") with PAID.
    assert (Hd : PaymentStatus_eqb PAID (Transaction.paymentStatus t) = false).
    { unfold PaymentStatus_eqb. by rewrite bool_decide_eq_false_2. }
    rewrite Hd. done.
Qed.

(** Idempotent re-entry: a trigger that resolves to a row already PAID,
    and reports "PAID" if it is a webhook, touches no product, log entry
    or notification and leaves the row PAID. *)
Lemma fire_on_paid gw tr db t :
  unique_ids db -> target tr db = Some t ->
  Transaction.paymentStatus t = PAID ->
  (forall b, tr = WebhookPush b -> XenditWebhook.status b = Str "PAID") ->
  users (fire gw tr db) = users db
  /\ products (fire gw tr db) = products db
  /\ inventoryLogs (fire gw tr db) = inventoryLogs db
  /\ notifications (fire gw tr db) = notifications db
  /\ status_of (fire gw tr db) (Transaction.id t) = Some PAID.
Proof.
  intros Hu Ht Hp Hst. destruct tr as [b|session transactionId].
  - destruct (webhook_target b db t Ht) as (ext & Hext & Hfind).
    simpl fire. rewrite (webhook_found b db ext t Hu Hext Hfind).
    cbn zeta. cbn [fst]. rewrite (Hst b eq_refl).
    change (XenditWebhook.map_status (Str "PAID")) with PAID.
    rewrite (eqb_PAID_true _ Hp). cbn [negb]. rewrite andb_false_r.
    change (PaymentStatus_eqb PAID FAILED) with false. cbn iota.
    repeat split; try done.
    apply findFirst_elem in Hfind as [Hin _]. unfold status_of.
    rewrite (update_findUnique _ db t (update_data_id b) Hu Hin).
    simpl. by rewrite (Hst b eq_refl).
  - destruct (status_check_target _ _ _ _ Ht) as (uid & -> & Htid & Hfind).
    simpl fire. unfold PaymentStatusCheck.POST.
    rewrite Htid, Hfind, (eqb_PAID_true _ Hp). cbn [fst].
    repeat split; try done. unfold status_of. by rewrite Hfind; simpl; rewrite Hp.
Qed.

Lemma findFirst_ext ws db1 db2 :
  transactions db1 = transactions db2 ->
  Prisma.transaction_findFirst ws db1 = Prisma.transaction_findFirst ws db2.
Proof. unfold Prisma.transaction_findFirst. by intros ->. Qed.

Lemma findUnique_ext tid db1 db2 :
  transactions db1 = transactions db2 ->
  Prisma.transaction_findUnique tid db1 = Prisma.transaction_findUnique tid db2.
Proof. unfold Prisma.transaction_findUnique. by intros ->. Qed.

Lemma target_ext tr db1 db2 :
  transactions db1 = transactions db2 -> target tr db1 = target tr db2.
Proof.
  intros H. destruct tr as [b|s i]; simpl.
  - unfold XenditWebhook.find_transaction.
    destruct (truthy_string _); [by apply findFirst_ext|done].
  - destruct s; [|done]. destruct (truthy_string i); [by apply findUnique_ext|done].
Qed.

(** The trigger that wrote the only row it can resolve to resolves to
    the rewritten row when it fires again. *)
Lemma target_after_write tr db t :
  unique_ids db -> target tr db = Some t -> sole_target tr db t ->
  target tr (Prisma.transaction_update (Transaction.id t) (paid_write tr) db)
  = Some (paid_write tr t).
Proof.
  intros Hu Ht Hsole. destruct tr as [b|session transactionId].
  - exact (proj1 (find_after_update b db t Hu Ht Hsole)).
  - destruct (status_check_target _ _ _ _ Ht) as (uid & -> & Htid & Hfind).
    simpl. rewrite Htid. apply findUnique_elem in Hfind as [Hin _].
    by apply update_findUnique.
Qed.

End Reconciliation.

Section PaidOnce.

Implicit Types (db : DB) (t : Transaction.t) (tr : Trigger)
  (gw : PaymentStatusCheck.Gateway).

(** Firing the same trigger on the row it has just written changes
    nothing at all. *)
Lemma refire_same gw tr db1 t1 :
  unique_ids db1 -> target tr db1 = Some t1 ->
  Transaction.paymentStatus t1 = PAID ->
  (forall b, tr = WebhookPush b ->
             XenditWebhook.status b = Str "PAID" /\ XenditWebhook.update_data b t1 = t1) ->
  fire gw tr db1 = db1.
Proof.
  intros Hu Ht Hp Hb. destruct tr as [b|session transactionId].
  - destruct (Hb b eq_refl) as [Hst Hfix].
    destruct (webhook_target b db1 t1 Ht) as (ext & Hext & Hfind).
    simpl fire. rewrite (webhook_found b db1 ext t1 Hu Hext Hfind).
    cbn zeta. cbn [fst]. rewrite Hst.
    change (XenditWebhook.map_status (Str "PAID")) with PAID.
    rewrite (eqb_PAID_true _ Hp). cbn [negb]. rewrite andb_false_r.
    change (PaymentStatus_eqb PAID FAILED) with false. cbn iota.
    apply update_noop. intros x Hx Hid.
    apply findFirst_elem in Hfind as [Hin _].
    by rewrite (unique_row db1 t1 x Hu Hin Hx Hid).
  - destruct (status_check_target _ _ _ _ Ht) as (uid & -> & Htid & Hfind).
    simpl fire. unfold PaymentStatusCheck.POST.
    by rewrite Htid, Hfind, (eqb_PAID_true _ Hp).
Qed.

(** C1: a trigger that observes "PAID" for a transaction that is not PAID
    applies the PAID side effects once: every product loses the quantity
    its line items sell, one SALE entry is logged per line item with a
    product, and one payment-received notification follows the low-stock
    alerts.  Fired again straight away, the same trigger leaves the store
    unchanged, provided the transaction is the only row its lookup
    matches (so that the second lookup cannot return another row); and
    any trigger that then resolves to the transaction with "PAID" touches
    no product, log entry or notification. *)
Theorem paid_trigger_applied_once gw tr db t :
  unique_ids db -> target tr db = Some t -> observes_paid gw tr t ->
  Transaction.paymentStatus t <> PAID ->
  let db1 := fire gw tr db in
  let db2 := fire gw tr db1 in
  (forall pid,
      stock_of db1 pid
      = (fun s => s - qty_for pid (Transaction.items t)) <$> stock_of db pid)
  /\ (exists logs alerts,
        inventoryLogs db1 = inventoryLogs db ++ logs
        /\ Forall2 (is_sale_log t) (sellable db (Transaction.items t)) logs
        /\ notifications db1 = notifications db ++ alerts ++ [payment_received t]
        /\ Forall is_low_stock_alert alerts)
  /\ status_of db1 (Transaction.id t) = Some PAID
  /\ (sole_target tr db t -> db2 = db1)
  /\ (forall gw' tr' t',
        target tr' db1 = Some t' -> Transaction.id t' = Transaction.id t ->
        (forall b, tr' = WebhookPush b -> XenditWebhook.status b = Str "PAID") ->
        products (fire gw' tr' db1) = products db1
        /\ inventoryLogs (fire gw' tr' db1) = inventoryLogs db1
        /\ notifications (fire gw' tr' db1) = notifications db1
        /\ status_of (fire gw' tr' db1) (Transaction.id t) = Some PAID).
Proof.
  intros Hu Ht Hobs Hnp db1 db2.
  pose proof (first_fire gw tr db t Hu Ht Hobs Hnp) as H1. fold db1 in H1.
  set (dbu := Prisma.transaction_update (Transaction.id t) (paid_write tr) db) in *.
  set (dbl := PaymentStatusCheck.update_stock t (Transaction.items t) dbu) in *.
  assert (Hin : t ∈ transactions db).
  { destruct tr as [b|s i].
    - destruct (webhook_target b db t Ht) as (ext & _ & Hf).
      by apply findFirst_elem in Hf as [? _].
    - destruct (status_check_target _ _ _ _ Ht) as (uid & _ & _ & Hf).
      by apply findUnique_elem in Hf as [? _]. }
  assert (Hpu : products dbu = products db) by done.
  assert (Htx : transactions db1 = transactions dbu).
  { rewrite H1. apply (update_stock_frame t (Transaction.items t) dbu). }
  assert (Hu1 : unique_ids db1).
  { unfold unique_ids. rewrite Htx. apply update_unique; [apply paid_write_id|done]. }
  assert (Hrow : Prisma.transaction_findUnique (Transaction.id t) db1
                 = Some (paid_write tr t)).
  { rewrite (findUnique_ext _ db1 dbu Htx).
    apply update_findUnique; [apply paid_write_id|done|done]. }
  assert (Hpaid : Transaction.paymentStatus (paid_write tr t) = PAID).
  { by apply (paid_write_status gw tr t). }
  split.
  { intros pid. rewrite H1.
    rewrite (stock_of_ext _ dbl) by done.
    unfold dbl. rewrite update_stock_stock. by rewrite (stock_of_ext dbu db). }
  split.
  { destruct (update_stock_logs t (Transaction.items t) dbu) as (logs & Hl & HF).
    destruct (update_stock_notifications t (Transaction.items t) dbu)
      as (alerts & Hn & HA).
    exists logs, alerts. rewrite H1. split; [exact Hl|].
    split; [by rewrite (sellable_ext dbu db) in HF|].
    split; [|done].
    change (notifications dbl ++ [payment_received t]
            = notifications db ++ alerts ++ [payment_received t]).
    unfold dbl. rewrite Hn. by rewrite <- app_assoc. }
  split.
  { unfold status_of. by rewrite Hrow; simpl; rewrite Hpaid. }
  split.
  { intros Hsole.
    assert (Ht1 : target tr db1 = Some (paid_write tr t)).
    { rewrite (target_ext tr db1 dbu Htx). by apply target_after_write. }
    apply (refire_same gw tr db1 (paid_write tr t) Hu1 Ht1 Hpaid).
    intros b ->. split; [exact Hobs|apply update_data_idem]. }
  intros gw' tr' t' Ht' Hid Hst.
  assert (Hin' : t' ∈ transactions db1).
  { destruct tr' as [b|s i].
    - destruct (webhook_target b db1 t' Ht') as (ext & _ & Hf).
      by apply findFirst_elem in Hf as [? _].
    - destruct (status_check_target _ _ _ _ Ht') as (uid & _ & _ & Hf).
      by apply findUnique_elem in Hf as [? _]. }
  assert (Heq : t' = paid_write tr t).
  { apply findUnique_elem in Hrow as [Hin1 Hid1].
    apply (unique_row db1 _ _ Hu1 Hin1 Hin'). by rewrite Hid, Hid1. }
  subst t'.
  destruct (fire_on_paid gw' tr' db1 _ Hu1 Ht' Hpaid Hst) as (_ & ? & ? & ? & HS).
  rewrite paid_write_id in HS. done.
Qed.

End PaidOnce.

(** ** The two reconciliation paths compared *)

Section PathsCompared.

Implicit Types (db : DB) (t : Transaction.t) (gw : PaymentStatusCheck.Gateway).

Lemma sell_item_set_transactions ts t it db :
  PaymentStatusCheck.sell_item t it (Prisma.set_transactions ts db)
  = Prisma.set_transactions ts (PaymentStatusCheck.sell_item t it db).
Proof.
  destruct (products db !! TransactionItem.productId it) as [p|] eqn:Hp.
  - rewrite (check_sell_item_found t it db p Hp).
    by rewrite (check_sell_item_found t it (Prisma.set_transactions ts db) p Hp).
  - rewrite (check_sell_item_missing t it db Hp).
    by rewrite (check_sell_item_missing t it (Prisma.set_transactions ts db) Hp).
Qed.

Lemma update_stock_set_transactions ts t its db :
  PaymentStatusCheck.update_stock t its (Prisma.set_transactions ts db)
  = Prisma.set_transactions ts (PaymentStatusCheck.update_stock t its db).
Proof.
  revert db; induction its as [|it its IH]; intros db; simpl; [done|].
  by rewrite sell_item_set_transactions, IH.
Qed.

(** The stock loop and a status update do not interfere. *)
Lemma update_stock_transaction_update tid f t its db :
  Prisma.transaction_update tid f (PaymentStatusCheck.update_stock t its db)
  = PaymentStatusCheck.update_stock t its (Prisma.transaction_update tid f db).
Proof.
  unfold Prisma.transaction_update.
  destruct (update_stock_frame t its db) as [_ ->].
  by rewrite update_stock_set_transactions.
Qed.

Lemma findUnique_update tid tid' f db :
  (forall x, Transaction.id (f x) = Transaction.id x) ->
  Prisma.transaction_findUnique tid' (Prisma.transaction_update tid f db)
  = (fun x => if String.eqb (Transaction.id x) tid then f x else x)
      <$> Prisma.transaction_findUnique tid' db.
Proof.
  intros Hid. unfold Prisma.transaction_findUnique, Prisma.transaction_update; simpl.
  induction (transactions db) as [|x l IH]; simpl; [done|].
  assert (Hx : Transaction.id (if String.eqb (Transaction.id x) tid then f x else x)
               = Transaction.id x) by (destruct (String.eqb _ _); [apply Hid|done]).
  rewrite Hx. destruct (String.eqb (Transaction.id x) tid'); [done|apply IH].
Qed.

Lemma status_check_never_failed st : PaymentStatusCheck.map_status st <> FAILED.
Proof.
  unfold PaymentStatusCheck.map_status.
  destruct (_ || _); [done|]. by destruct (String.eqb st "EXPIRED").
Qed.

Lemma map_status_agree st :
  st <> "FAILED" -> st <> "SUCCEEDED" ->
  XenditWebhook.map_status (Str st) = PaymentStatusCheck.map_status st.
Proof.
  intros HF HS. unfold XenditWebhook.map_status, PaymentStatusCheck.map_status, strict_eq.
  apply String.eqb_neq in HF, HS. rewrite HF, HS.
  destruct (String.eqb st "PAID"), (String.eqb st "SETTLED"); done.
Qed.

Lemma with_paymentStatus_same t :
  Transaction.with_paymentStatus (Transaction.paymentStatus t) t = t.
Proof. by destruct t. Qed.

(** C3: the webhook writes the mapped status over a PAID transaction: a
    push with "EXPIRED", "FAILED" or any unknown status takes the row out
    of PAID, and a later "PAID" push then sells the stock a second time.
    The status check returns early on a PAID row and leaves it PAID. *)
Theorem webhook_overwrites_paid :
  let db := Example.store PAID in
  let gw := Example.gateway "EXPIRED" in
  status_of db "t1" = Some PAID
  /\ status_of (fire gw (WebhookPush (Example.push "EXPIRED")) db) "t1" = Some EXPIRED
  /\ status_of (fire gw (WebhookPush (Example.push "FAILED")) db) "t1" = Some FAILED
  /\ status_of (fire gw (WebhookPush (Example.push "REFUNDED")) db) "t1" = Some PENDING
  /\ status_of (fire gw Example.check db) "t1" = Some PAID
  /\ stock_of db "p1" = Some 10
  /\ stock_of
       (fire gw (WebhookPush (Example.push "PAID"))
          (fire gw (WebhookPush (Example.push "REFUNDED")) db)) "p1" = Some 7.
Proof. vm_compute. repeat split. Qed.

(** C4 (as amended): for a transaction that is not PAID and carries a
    gateway payment id, and a gateway status other than "FAILED" and
    "SUCCEEDED", the webhook and the status check map the status to the
    same payment status and leave the same products, inventory log,
    notifications and payment status; the webhook's store is the status
    check's store with the transaction's gateway payment id rewritten. *)
Theorem webhook_and_check_agree gw b db t uid inv st :
  unique_ids db ->
  XenditWebhook.find_transaction b db = Some t ->
  XenditWebhook.status b = Str st ->
  Transaction.id t <> "" ->
  Transaction.paymentStatus t <> PAID ->
  Transaction.xenditPaymentId t = Some inv -> inv <> "" -> gw inv = Some st ->
  st <> "FAILED" -> st <> "SUCCEEDED" ->
  let dbw := (XenditWebhook.POST b db).1 in
  let dbc := (PaymentStatusCheck.POST gw (Some uid) (Str (Transaction.id t)) db).1 in
  XenditWebhook.map_status (Str st) = PaymentStatusCheck.map_status st
  /\ dbw = Prisma.transaction_update (Transaction.id t)
             (Transaction.with_xenditPaymentId
                (XenditWebhook.column_of
                   (js_or (XenditWebhook.id b)
                      (js_or (XenditWebhook.external_id b)
                         (XenditWebhook.externalId b))))) dbc
  /\ products dbw = products dbc
  /\ inventoryLogs dbw = inventoryLogs dbc
  /\ notifications dbw = notifications dbc
  /\ status_of dbw (Transaction.id t) = Some (PaymentStatusCheck.map_status st)
  /\ status_of dbc (Transaction.id t) = Some (PaymentStatusCheck.map_status st).
Proof.
  intros Hu Hfind Hst Hidne Hnp Hinv Hinvne Hgw HF HS dbw dbc.
  pose proof (map_status_agree st HF HS) as Hmap.
  set (ps := PaymentStatusCheck.map_status st) in *.
  set (xp := Transaction.with_xenditPaymentId _).
  destruct (webhook_target b db t Hfind) as (ext & Hext & Hff).
  pose proof Hff as Hin. apply findFirst_elem in Hin as [Hin _].
  pose proof (findUnique_of_unique db t Hu Hin) as Hrow.
  assert (Hdata : forall x, XenditWebhook.update_data b x
                            = xp (Transaction.with_paymentStatus ps x)).
  { intros x. unfold XenditWebhook.update_data. by rewrite Hst, Hmap. }
  assert (Hpsf : PaymentStatus_eqb ps FAILED = false).
  { unfold PaymentStatus_eqb. rewrite bool_decide_eq_false_2; [done|].
    apply status_check_never_failed. }
  assert (Hw : dbw
               = let db1 := Prisma.transaction_update (Transaction.id t)
                              (XenditWebhook.update_data b) db in
                 if PaymentStatus_eqb ps PAID
                 then Notifications.notifyPaymentReceived (Transaction.cashierId t)
                        (Transaction.transactionNumber t) (Transaction.finalAmount t)
                        (PaymentStatusCheck.update_stock t (Transaction.items t) db1)
                 else db1).
  { unfold dbw. rewrite (webhook_found b db ext t Hu Hext Hff). cbn zeta. cbn [fst].
    rewrite Hst, Hmap. fold ps. rewrite (eqb_PAID_false _ Hnp), Hpsf.
    cbn [negb]. by rewrite andb_true_r. }
  assert (Hc : dbc
               = if negb (PaymentStatus_eqb ps (Transaction.paymentStatus t))
                 then
                   let db1 := Prisma.transaction_update (Transaction.id t)
                                (Transaction.with_paymentStatus ps) db in
                   if PaymentStatus_eqb ps PAID
                   then Notifications.notifyPaymentReceived (Transaction.cashierId t)
                          (Transaction.transactionNumber t) (Transaction.finalAmount t)
                          (PaymentStatusCheck.update_stock t (Transaction.items t) db1)
                   else db1
                 else db).
  { unfold dbc, PaymentStatusCheck.POST. cbn [truthy_string].
    apply String.eqb_neq in Hidne, Hinvne.
    rewrite Hidne, Hrow, (eqb_PAID_false _ Hnp), Hinv, Hinvne, Hgw. fold ps.
    destruct (negb _); [|done]. cbn zeta. by destruct (PaymentStatus_eqb ps PAID). }
  assert (Hupd : Prisma.transaction_update (Transaction.id t)
                   (XenditWebhook.update_data b) db
                 = Prisma.transaction_update (Transaction.id t) xp
                     (Prisma.transaction_update (Transaction.id t)
                        (Transaction.with_paymentStatus ps) db)).
  { rewrite update_update by done. apply update_ext. intros x _ _. apply Hdata. }
  assert (Heq : dbw = Prisma.transaction_update (Transaction.id t) xp dbc).
  { rewrite Hw, Hc. cbn zeta.
    destruct (bool_decide_reflect (ps = Transaction.paymentStatus t)) as [E|E];
      unfold PaymentStatus_eqb at 2.
    - rewrite bool_decide_eq_true_2 by done. cbn [negb].
      rewrite eqb_PAID_false by (by rewrite E).
      apply update_ext. intros x Hx Hid.
      rewrite (unique_row db t x Hu Hin Hx Hid), Hdata, E.
      by rewrite with_paymentStatus_same.
    - rewrite bool_decide_eq_false_2 by done. cbn [negb].
      destruct (PaymentStatus_eqb ps PAID); [|exact Hupd].
      rewrite Hupd.
      change (Prisma.transaction_update (Transaction.id t) xp
                (Notifications.notifyPaymentReceived ?a ?n ?m ?d))
        with (Notifications.notifyPaymentReceived a n m
                (Prisma.transaction_update (Transaction.id t) xp d)).
      by rewrite update_stock_transaction_update. }
  split; [exact Hmap|]. split; [exact Heq|].
  split; [by rewrite Heq|]. split; [by rewrite Heq|]. split; [by rewrite Heq|].
  assert (Hsw : status_of dbw (Transaction.id t) = Some ps).
  { unfold status_of, dbw. rewrite (webhook_writes_status b db t Hu Hfind).
    by rewrite Hst, Hmap. }
  split; [exact Hsw|].
  rewrite Heq in Hsw. unfold status_of in *.
  rewrite findUnique_update in Hsw by done.
  destruct (Prisma.transaction_findUnique (Transaction.id t) dbc) as [x|]; [|done].
  cbn [fmap option_fmap option_map] in *.
  destruct (String.eqb (Transaction.id x) (Transaction.id t)); exact Hsw.
Qed.

(** C4, the claim as stated fails: on a pending sale the webhook turns
    "FAILED" into FAILED and notifies the cashier, the status check turns
    the same gateway status into PENDING and notifies nobody. *)
Lemma failed_status_diverges :
  let db := Example.store PENDING in
  let gw := Example.gateway "FAILED" in
  let dbw := fire gw (WebhookPush (Example.push "FAILED")) db in
  let dbc := fire gw Example.check db in
  XenditWebhook.map_status (Str "FAILED") = FAILED
  /\ PaymentStatusCheck.map_status "FAILED" = PENDING
  /\ status_of dbw "t1" = Some FAILED
  /\ status_of dbc "t1" = Some PENDING
  /\ notifications dbw = [payment_failed (Example.sale PENDING) (Str "FAILED")]
  /\ notifications dbc = []
  /\ ~ (XenditWebhook.map_status (Str "FAILED") = PaymentStatusCheck.map_status "FAILED"
        /\ status_of dbc "t1" = Some FAILED).
Proof. vm_compute. repeat split; intros [? ?]; discriminate. Qed.

End PathsCompared.

(** ** A digital sale created with a PAID flag *)

Section DigitalPaidFlag.

Implicit Types (db : DB) (env : Transactions.Env) (body : Transactions.Body).

Lemma xendit_is_not_cash s method :
  parse_PaymentMethod s = Some method -> Transactions.isXenditPayment method = true ->
  String.eqb s "CASH" = false.
Proof.
  unfold parse_PaymentMethod. destruct (String.eqb s "CASH"); [|done].
  intros [= <-]. done.
Qed.

Lemma create_unique db t :
  unique_ids db -> Transaction.id t ∉ map Transaction.id (transactions db) ->
  unique_ids (Prisma.transaction_append t db).
Proof.
  unfold unique_ids, Prisma.transaction_append; simpl. intros Hu Hfresh.
  rewrite map_app. apply NoDup_app. split; [done|]. split.
  - intros x Hx Hx'. apply list_elem_of_singleton in Hx'. by subst.
  - apply NoDup_singleton.
Qed.



End DigitalPaidFlag.

(** ** The low-stock boundary *)

Section LowStockBoundary.

(** C8: one pass of the sale loop body, on any of the three sale paths,
    leaves the product at [stock - quantity] and emits a low-stock alert
    exactly when that value is at most [minStock]: at [minStock] the
    alert is appended, one unit above nothing is. *)
Theorem low_stock_boundary (t : Transaction.t) (i : Transactions.Item) (db : DB)
    (p : Product.t) :
  products db !! Transactions.productId i = Some p ->
  let item := Transactions.to_row i in
  let newStock := Product.stock p - Transactions.quantity i in
  let alert := low_stock_alert (Transaction.cashierId t) (Product.name p) newStock in
  let created := (Transactions.sell_item (Transaction.cashierId t)
                    (Transaction.transactionNumber t) i db).1 in
  let pushed := XenditWebhook.sell_item t item db in
  let checked := PaymentStatusCheck.sell_item t item db in
  created = checked /\ pushed = checked
  /\ stock_of checked (Transactions.productId i) = Some newStock
  /\ notifications checked
     = notifications db ++ (if newStock <=? Product.minStock p then [alert] else [])
  /\ (newStock = Product.minStock p ->
      notifications created = notifications db ++ [alert]
      /\ notifications pushed = notifications db ++ [alert]
      /\ notifications checked = notifications db ++ [alert])
  /\ (newStock = Product.minStock p + 1 ->
      notifications created = notifications db
      /\ notifications pushed = notifications db
      /\ notifications checked = notifications db).
Proof.
  intros Hp item newStock alert created pushed checked.
  assert (Hc : created = checked).
  { unfold created. by rewrite (create_sell_item t i db p Hp). }
  assert (Hw : pushed = checked) by apply webhook_sell_item.
  assert (Hn : notifications checked
               = notifications db
                 ++ (if newStock <=? Product.minStock p then [alert] else [])).
  { unfold checked. by rewrite (check_sell_item_found t item db p Hp). }
  split; [exact Hc|]. split; [exact Hw|]. split.
  { unfold checked, stock_of. rewrite (check_sell_item_found t item db p Hp).
    cbn [products]. change (TransactionItem.productId item)
      with (Transactions.productId i). by rewrite lookup_alter_eq, Hp. }
  split; [exact Hn|]. rewrite Hc, Hw, Hn. split; intros E.
  - rewrite (proj2 (Z.leb_le _ _)) by lia. done.
  - rewrite (proj2 (Z.leb_gt _ _)) by lia. by rewrite app_nil_r.
Qed.

End LowStockBoundary.

(** ** Inventory adjustment batches *)

Section InventoryBatch.

Implicit Types (db : DB) (a : Inventory.Adjustment).

Lemma adjustment_log_insertable uid db pid p n reason :
  products db !! pid = Some p -> adjustable uid db (Product.stock p) n ->
  Prisma.inventoryLog_insertable
    (InventoryLog.mk pid (Inventory.log_type (n - Product.stock p))
       (Z.abs (n - Product.stock p)) (Product.stock p) n reason uid)
    (Prisma.product_set_stock pid n db) = true.
Proof.
  intros Hp (Hu & Hn & Hs & Hq).
  unfold Prisma.inventoryLog_insertable, Prisma.user_exists.
  cbn [InventoryLog.createdBy InventoryLog.productId InventoryLog.quantity
         InventoryLog.previousStock InventoryLog.newStock].
  rewrite Hn, Hs, Hq. rewrite !bool_decide_eq_true_2; [done| |done].
  unfold Prisma.product_set_stock; cbn [products Prisma.set_products].
  rewrite lookup_alter_eq, Hp. by eexists.
Qed.

(** One accepted adjustment, as one store update. *)
Lemma adjust_cons_found uid a rest acc db p n :
  Inventory.newStock a = Some n ->
  Inventory.productId a <> "" -> Inventory.reason a <> "" ->
  products db !! Inventory.productId a = Some p ->
  adjustable uid db (Product.stock p) n ->
  Inventory.adjust uid (a :: rest) acc db
  = Inventory.adjust uid rest
      (acc ++ [Inventory.mkResult (Inventory.productId a) (Product.stock p) n
                 (n - Product.stock p)])
      (mkDB (users db)
         (alter (Product.with_stock n) (Inventory.productId a) (products db))
         (transactions db)
         (inventoryLogs db
          ++ [InventoryLog.mk (Inventory.productId a)
                (Inventory.log_type (n - Product.stock p)) (Z.abs (n - Product.stock p))
                (Product.stock p) n (Inventory.reason a) uid])
         (notifications db
          ++ Notification.mk uid "Inventory Updated" INFO
               (InventoryUpdateMeta (Product.name p) (Z.abs (n - Product.stock p))
                  (Inventory.log_type (n - Product.stock p)))
             :: (if n <=? Product.minStock p
                 then [low_stock_alert uid (Product.name p) n] else []))).
Proof.
  intros Hn Hpid Hr Hp Hadj. cbn [Inventory.adjust]. rewrite Hn.
  apply String.eqb_neq in Hpid, Hr. rewrite Hpid, Hr. cbn [orb].
  unfold Prisma.product_findUnique. rewrite Hp.
  rewrite (adjustment_log_insertable uid db _ p n _ Hp Hadj).
  destruct Hadj as (_ & -> & _). cbn [negb]. f_equal.
  unfold Notifications.notifyLowStock, Notifications.notifyInventoryUpdate,
    Notifications.createNotification, Prisma.notification_create,
    Prisma.inventoryLog_create, Prisma.product_set_stock, Prisma.set_products.
  destruct (n <=? Product.minStock p); simpl; by rewrite <- ?app_assoc.
Qed.

(** An entry that is well formed but names no product ends the request. *)
Lemma adjust_cons_missing uid a rest acc db n :
  Inventory.newStock a = Some n ->
  Inventory.productId a <> "" -> Inventory.reason a <> "" ->
  products db !! Inventory.productId a = None ->
  Inventory.adjust uid (a :: rest) acc db
  = (db, Inventory.Error 404 ("Product " +:+ Inventory.productId a +:+ " not found")).
Proof.
  intros Hn Hpid Hr Hp. cbn [Inventory.adjust]. rewrite Hn.
  apply String.eqb_neq in Hpid, Hr. rewrite Hpid, Hr. cbn [orb].
  unfold Prisma.product_findUnique. by rewrite Hp.
Qed.




Lemma insertable_adjustable uid db pid p n reason :
  Prisma.int4 n = true ->
  Prisma.inventoryLog_insertable
    (InventoryLog.mk pid (Inventory.log_type (n - Product.stock p))
       (Z.abs (n - Product.stock p)) (Product.stock p) n reason uid)
    (Prisma.product_set_stock pid n db) = true ->
  adjustable uid db (Product.stock p) n.
Proof.
  intros Hfit Hins.
  unfold Prisma.inventoryLog_insertable, Prisma.user_exists in Hins.
  cbn [InventoryLog.createdBy InventoryLog.quantity InventoryLog.previousStock
         InventoryLog.newStock users Prisma.product_set_stock Prisma.set_products]
    in Hins.
  rewrite !andb_true_iff in Hins. destruct Hins as ((((Hu & _) & Hq) & Hs) & _).
  apply bool_decide_eq_true in Hu. by repeat split.
Qed.

(** A successful run went through every entry. *)
Lemma adjust_success_inv uid a rest acc db db1 rs :
  Inventory.adjust uid (a :: rest) acc db = (db1, Inventory.Success rs) ->
  exists n p,
    Inventory.newStock a = Some n
    /\ Inventory.productId a <> "" /\ Inventory.reason a <> ""
    /\ products db !! Inventory.productId a = Some p
    /\ adjustable uid db (Product.stock p) n.
Proof.
  cbn [Inventory.adjust]. destruct (Inventory.newStock a) as [n|]; [|done].
  destruct (String.eqb_spec (Inventory.productId a) ""); [done|].
  destruct (String.eqb_spec (Inventory.reason a) ""); [done|]. cbn [orb].
  unfold Prisma.product_findUnique.
  destruct (products db !! Inventory.productId a) as [p|]; [|done].
  destruct (Prisma.int4 n) eqn:Hfit; cbn [negb]; [|done].
  destruct (Prisma.inventoryLog_insertable _ _) eqn:Hins; cbn [negb]; [|done].
  intros _. exists n, p. do 4 (split; [done|]).
  by apply (insertable_adjustable uid db _ p n _ Hfit Hins).
Qed.

(** The loop on a batch split in two: the second part runs only if the
    first part went through, from the store and the results it left. *)
Lemma adjust_app uid pre rest acc db :
  Inventory.adjust uid (pre ++ rest) acc db
  = match Inventory.adjust uid pre acc db with
    | (db1, Inventory.Success rs) => Inventory.adjust uid rest rs db1
    | failed => failed
    end.
Proof.
  revert acc db; induction pre as [|a pre IH]; intros acc db; [done|].
  cbn [app Inventory.adjust]. destruct (Inventory.newStock a) as [n|]; [|done].
  destruct (_ || _); [done|].
  destruct (Prisma.product_findUnique _ db); [|done].
  destruct (negb (Prisma.int4 n)); [done|].
  destruct (negb (Prisma.inventoryLog_insertable _ _)); [done|]. apply IH.
Qed.

(** What a successful run leaves behind. *)
Lemma adjust_success uid pre acc db db1 rs :
  Inventory.adjust uid pre acc db = (db1, Inventory.Success rs) ->
  (forall pid, stock_of db1 pid = adjusted_stock pid pre <$> stock_of db pid)
  /\ (exists logs, inventoryLogs db1 = inventoryLogs db ++ logs
                   /\ Forall2 (is_adjustment_log uid) pre logs)
  /\ (exists new, rs = acc ++ new /\ Forall2 is_result_of pre new)
  /\ transactions db1 = transactions db.
Proof.
  revert acc db; induction pre as [|a pre IH]; intros acc db Hrun.
  - injection Hrun as <- <-. split.
    { intros pid. by destruct (stock_of db pid). }
    split; [exists []; by rewrite app_nil_r|].
    split; [exists []; by rewrite app_nil_r|done].
  - destruct (adjust_success_inv _ _ _ _ _ _ _ Hrun)
      as (n & p & Hn & Hpid & Hr & Hp & Hadj).
    rewrite (adjust_cons_found uid a pre acc db p n Hn Hpid Hr Hp Hadj) in Hrun.
    apply IH in Hrun as (Hstock & (logs & Hlogs & HFl) & (new & Hnew & HFn) & Htx).
    cbn [inventoryLogs transactions] in Hlogs, Htx. split.
    { intros pid. rewrite Hstock. unfold stock_of; cbn [products adjusted_stock].
      rewrite lookup_alter, Hn. cbn [default].
      case_decide as E.
      - subst pid. rewrite String.eqb_refl, Hp. done.
      - apply String.eqb_neq in E. rewrite E. done. }
    split.
    { eexists (_ :: logs). split; [by rewrite Hlogs, <- app_assoc|].
      constructor; [|done]. by repeat split. }
    split; [|done].
    eexists (_ :: new). split; [by rewrite Hnew, <- app_assoc|].
    constructor; [|done]. by repeat split.
Qed.

(** C6 (as amended): in a batch whose entries before the first unknown
    productId are valid, those entries are applied and reflected in stock
    and inventory-log state; at the unknown productId the request ends
    with a single 404 not-found error that names it, no per-item result
    list is returned and the entries after it are not applied.  Only a
    batch that goes through entirely returns the list of per-item
    results. *)
Theorem batch_stops_at_unknown_product uid pre bad post db db1 rs n :
  Inventory.adjust uid pre [] db = (db1, Inventory.Success rs) ->
  Inventory.newStock bad = Some n ->
  Inventory.productId bad <> "" -> Inventory.reason bad <> "" ->
  products db !! Inventory.productId bad = None ->
  Inventory.POST (Some uid) (Some (pre ++ bad :: post)) db
  = (db1, Inventory.Error 404
            ("Product " +:+ Inventory.productId bad +:+ " not found"))
  /\ (forall pid, stock_of db1 pid = adjusted_stock pid pre <$> stock_of db pid)
  /\ (exists logs, inventoryLogs db1 = inventoryLogs db ++ logs
                   /\ Forall2 (is_adjustment_log uid) pre logs)
  /\ Forall2 is_result_of pre rs
  /\ (pre <> [] -> Inventory.POST (Some uid) (Some pre) db = (db1, Inventory.Success rs)).
Proof.
  intros Hrun Hn Hpid Hr Hmiss.
  destruct (adjust_success uid pre [] db db1 rs Hrun)
    as (Hstock & Hlogs & (new & -> & Hres) & _).
  assert (Hmiss1 : products db1 !! Inventory.productId bad = None).
  { pose proof (Hstock (Inventory.productId bad)) as Hs. unfold stock_of in Hs.
    rewrite Hmiss in Hs. by destruct (products db1 !! Inventory.productId bad). }
  split.
  { unfold Inventory.POST.
    destruct (pre ++ bad :: post) as [|x l] eqn:E; [by destruct pre|]. rewrite <- E.
    rewrite adjust_app, Hrun.
    by apply (adjust_cons_missing uid bad post _ db1 n). }
  split; [exact Hstock|]. split; [exact Hlogs|]. split; [exact Hres|].
  intros Hne. unfold Inventory.POST. by destruct pre.
Qed.

(** C6, the claim as stated fails: with the unknown productId in second
    place the answer is one 404 error and not a list of per-item results,
    and the valid third entry is not applied. *)
Lemma batch_failure_is_not_per_item :
  let r := Inventory.POST (Some "u1") (Some Example.batch) Example.empty_store in
  r.2 = Inventory.Error 404 "Product nope not found"
  /\ (forall results, r.2 <> Inventory.Success results)
  /\ stock_of r.1 "p1" = Some 20
  /\ stock_of Example.empty_store "p2" = Some 7
  /\ stock_of r.1 "p2" = Some 7
  /\ length (inventoryLogs r.1) = 1%nat.
Proof. vm_compute. repeat split. intros results. discriminate. Qed.

End InventoryBatch.

(** ** The low-stock figures of the report *)

Section ReportLowStock.

Implicit Types (db : DB) (r : string * Product.t) (l : list (string * Product.t)).

Lemma insert_by_stock_perm r l : Permutation (Reports.insert_by_stock r l) (r :: l).
Proof.
  induction l as [|x l IH]; simpl; [done|].
  destruct (_ <=? _); [done|]. rewrite IH. apply perm_swap.
Qed.

Lemma sort_by_stock_perm l : Permutation (Reports.sort_by_stock l) l.
Proof.
  induction l as [|x l IH]; simpl; [done|].
  rewrite insert_by_stock_perm. by constructor.
Qed.

Lemma findMany_elem w db pid p :
  (pid, p) ∈ Reports.product_findMany w db
  <-> products db !! pid = Some p /\ Reports.product_matches w p = true.
Proof.
  unfold Reports.product_findMany, Reports.rows.
  rewrite sort_by_stock_perm, list_elem_of_In, filter_In, <- list_elem_of_In.
  by rewrite elem_of_map_to_list.
Qed.

Lemma filter_fst_NoDup (f : string * Product.t -> bool) l :
  NoDup l.*1 -> NoDup (List.filter f l).*1.
Proof.
  induction l as [|x l IH]; simpl; [done|]. intros Hnd.
  apply NoDup_cons in Hnd as [Hx Hnd]. destruct (f x); simpl; [|by apply IH].
  apply NoDup_cons. split; [|by apply IH].
  intros Hin. apply Hx. apply list_elem_of_fmap in Hin as (y & -> & Hy).
  apply list_elem_of_fmap. exists y. split; [done|].
  apply list_elem_of_In. apply list_elem_of_In in Hy. by apply filter_In in Hy as [? _].
Qed.

(** C10: the report's low-stock figures are decided by the fixed
    threshold five.  A product is listed on the inventory tab exactly
    when it is active, has stock at most 5 and, if a category is asked
    for, belongs to it; each such product is listed once and the overview
    count is the length of the unrestricted listing.  The product's own
    [minStock] plays no part: a product below its [minStock] but above
    five is not reported, one above its [minStock] but below five is. *)
Theorem report_low_stock_fixed_threshold :
  (forall db categoryId pid p,
      (pid, p) ∈ Reports.lowStockProducts categoryId db
      <-> products db !! pid = Some p
          /\ Product.isActive p = true
          /\ Product.stock p <= 5
          /\ match categoryId with
             | Some c => c = "" \/ Product.categoryId p = c
             | None => True
             end)
  /\ (forall db categoryId, NoDup (Reports.lowStockProducts categoryId db).*1)
  /\ (forall db, Reports.lowStockCount db = length (Reports.lowStockProducts None db))
  /\ (stock_of Example.shelf "a" = Some 8
      /\ Product.minStock <$> products Example.shelf !! "a" = Some 10
      /\ Product.minStock <$> products Example.shelf !! "b" = Some 2
      /\ Reports.lowStockCount Example.shelf = 1%nat
      /\ Reports.lowStockProducts None Example.shelf
         = [("b", Product.mk "Garam" 4 2 "c2" true)]).
Proof.
  split; [|split; [|split]].
  - intros db categoryId pid p. unfold Reports.lowStockProducts.
    rewrite findMany_elem. unfold Reports.product_matches; simpl.
    rewrite !andb_true_iff, Z.leb_le, Bool.eqb_true_iff.
    destruct categoryId as [c|]; [|tauto].
    destruct (String.eqb_spec c "") as [->|Hc]; simpl.
    + intuition.
    + rewrite String.eqb_eq. intuition.
  - intros db categoryId. unfold Reports.lowStockProducts, Reports.product_findMany.
    rewrite sort_by_stock_perm. apply filter_fst_NoDup, NoDup_fst_map_to_list.
  - intros db. unfold Reports.lowStockCount, Reports.lowStockProducts,
      Reports.product_count, Reports.product_findMany.
    by rewrite sort_by_stock_perm.
  - vm_compute. by repeat split.
Qed.

End ReportLowStock.

(** ** Worked examples *)

Section WorkedExamples.

Lemma example_store_unique status : unique_ids (Example.store status).
Proof. unfold unique_ids; simpl. apply NoDup_singleton. Qed.

Lemma example_order_accepted paymentMethod paymentStatus :
  accepted Example.env (Example.order paymentMethod paymentStatus) Example.empty_store.
Proof.
  unfold accepted. split; [by eexists|].
  split; [discriminate|]. split; [discriminate|]. split; [discriminate|].
  split; [simpl; by apply elem_of_singleton|]. split; [discriminate|].
  split; [repeat constructor; simpl; lia|].
  split; [repeat constructor; vm_compute; by eexists|].
  unfold storable. split; [apply not_elem_of_nil|]. split; [apply not_elem_of_nil|].
  split; [apply (bool_decide_unpack _); by vm_compute|]. do 4 (split; [reflexivity|]).
  by repeat constructor.
Qed.

Lemma example_store_sole b : sole_match b (Example.store PENDING) (Example.sale PENDING).
Proof. intros x Hx _. simpl in Hx. by apply list_elem_of_singleton in Hx. Qed.

(** A pending digital sale, paid by a webhook that is delivered twice. *)
Lemma paid_trigger_applied_once_witness :
  let gw := Example.gateway "PAID" in
  let tr := WebhookPush (Example.push "PAID") in
  let db := Example.store PENDING in
  let t := Example.sale PENDING in
  unique_ids db /\ target tr db = Some t /\ observes_paid gw tr t
  /\ Transaction.paymentStatus t <> PAID
  /\ sole_target tr db t
  /\ stock_of (fire gw tr db) "p1" = Some 7
  /\ fire gw tr (fire gw tr db) = fire gw tr db.
Proof.
  intros gw tr db t.
  assert (H1 : unique_ids db) by apply example_store_unique.
  assert (H2 : target tr db = Some t) by (vm_compute; reflexivity).
  assert (H3 : observes_paid gw tr t) by reflexivity.
  assert (H4 : Transaction.paymentStatus t <> PAID) by discriminate.
  assert (H5 : sole_target tr db t) by apply example_store_sole.
  pose proof (paid_trigger_applied_once gw tr db t H1 H2 H3 H4) as (Hs & _ & _ & Hre & _).
  do 5 (split; [assumption|]). split; [|exact (Hre H5)].
  rewrite (Hs "p1"). vm_compute. reflexivity.
Defined.

(** The same sale, settled by the cashier pressing "check payment". *)
Lemma paid_check_applied_once_example :
  let gw := Example.gateway "PAID" in
  let db := Example.store PENDING in
  stock_of (fire gw Example.check db) "p1" = Some 7
  /\ stock_of (fire gw Example.check db) "p2" = Some 6
  /\ fire gw Example.check (fire gw Example.check db) = fire gw Example.check db
  /\ stock_of (fire gw (WebhookPush (Example.push "PAID")) (fire gw Example.check db)) "p1"
     = Some 7.
Proof. vm_compute. by repeat split. Qed.

(** The cart of two items, paid in cash. *)
Lemma cash_sale_paid_and_stocked_witness :
  let body := Example.order "CASH" Undefined in
  accepted Example.env body Example.empty_store
  /\ Transactions.paymentMethod body = "CASH"
  /\ exists db' t logs,
       Transactions.POST Example.env body Example.empty_store
       = (db', Transactions.Created t)
       /\ Transaction.paymentStatus t = PAID
       /\ total_stock db' = total_stock Example.empty_store - 4
       /\ length logs = 2%nat
       /\ inventoryLogs db' = logs.
Proof.
  intros body.
  assert (H1 : accepted Example.env body Example.empty_store)
    by apply example_order_accepted.
  assert (H2 : Transactions.paymentMethod body = "CASH") by reflexivity.
  split; [exact H1|]. split; [exact H2|].
  destruct (cash_sale_paid_and_stocked Example.env body Example.empty_store H1 H2)
    as (db' & t & logs & HP & Hst & Hit & _ & _ & _ & Htot & Hlogs & HF).
  exists db', t, logs. split; [exact HP|]. split; [exact Hst|].
  split; [by rewrite Htot, Hit|].
  split; [|exact Hlogs].
  apply Forall2_length in HF. by rewrite <- HF, Hit.
Defined.

(** A pending sale that the gateway reports as expired, on both paths. *)
Lemma webhook_and_check_agree_witness :
  let gw := Example.gateway "EXPIRED" in
  let b := Example.push "EXPIRED" in
  let db := Example.store PENDING in
  let t := Example.sale PENDING in
  unique_ids db /\ XenditWebhook.find_transaction b db = Some t
  /\ XenditWebhook.status b = Str "EXPIRED"
  /\ Transaction.id t <> "" /\ Transaction.paymentStatus t <> PAID
  /\ Transaction.xenditPaymentId t = Some "inv-1" /\ "inv-1" <> ""
  /\ gw "inv-1" = Some "EXPIRED" /\ "EXPIRED" <> "FAILED" /\ "EXPIRED" <> "SUCCEEDED"
  /\ status_of (XenditWebhook.POST b db).1 "t1" = Some EXPIRED
  /\ status_of (PaymentStatusCheck.POST gw (Some "u1") (Str "t1") db).1 "t1"
     = Some EXPIRED.
Proof.
  intros gw b db t.
  assert (H1 : unique_ids db) by apply example_store_unique.
  assert (H2 : XenditWebhook.find_transaction b db = Some t) by (vm_compute; reflexivity).
  assert (H3 : XenditWebhook.status b = Str "EXPIRED") by reflexivity.
  assert (H4 : Transaction.id t <> "") by discriminate.
  assert (H5 : Transaction.paymentStatus t <> PAID) by discriminate.
  assert (H6 : Transaction.xenditPaymentId t = Some "inv-1") by reflexivity.
  assert (H7 : "inv-1" <> "") by discriminate.
  assert (H8 : gw "inv-1" = Some "EXPIRED") by reflexivity.
  assert (H9 : "EXPIRED" <> "FAILED") by discriminate.
  assert (H10 : "EXPIRED" <> "SUCCEEDED") by discriminate.
  pose proof (webhook_and_check_agree gw b db t "u1" "inv-1" "EXPIRED"
                H1 H2 H3 H4 H5 H6 H7 H8 H9 H10) as (_ & _ & _ & _ & _ & Hw & Hc).
  do 10 (split; [assumption|]). split; [exact Hw|exact Hc].
Defined.


(** The whole story of that sale: created, then confirmed by the gateway. *)
Lemma digital_paid_flag_example :
  let db1 := (Transactions.POST Example.env (Example.order "XENDIT_QRIS" (Str "PAID"))
                Example.empty_store).1 in
  let db2 := (XenditWebhook.POST (Example.push "PAID") db1).1 in
  status_of db1 "t1" = Some PENDING
  /\ stock_of Example.empty_store "p1" = Some 10
  /\ stock_of db1 "p1" = Some 7
  /\ stock_of db2 "p1" = Some 4
  /\ length (inventoryLogs db1) = 2%nat
  /\ length (inventoryLogs db2) = 4%nat.
Proof. vm_compute. by repeat split. Qed.

(** The batch with an unknown product in second place. *)
Lemma batch_stops_at_unknown_product_witness :
  let pre := [Inventory.mkAdjustment "p1" (Some 20) "recount"] in
  let bad := Inventory.mkAdjustment "nope" (Some 1) "recount" in
  let post := [Inventory.mkAdjustment "p2" (Some 30) "delivery"] in
  let db := Example.empty_store in
  let db1 := (Inventory.adjust "u1" pre [] db).1 in
  let rs := [Inventory.mkResult "p1" 10 20 10] in
  Inventory.adjust "u1" pre [] db = (db1, Inventory.Success rs)
  /\ Inventory.newStock bad = Some 1
  /\ Inventory.productId bad <> "" /\ Inventory.reason bad <> ""
  /\ products db !! Inventory.productId bad = None
  /\ Inventory.POST (Some "u1") (Some (pre ++ bad :: post)) db
     = (db1, Inventory.Error 404 "Product nope not found").
Proof.
  intros pre bad post db db1 rs.
  assert (H1 : Inventory.adjust "u1" pre [] db = (db1, Inventory.Success rs))
    by (vm_compute; reflexivity).
  assert (H2 : Inventory.newStock bad = Some 1) by reflexivity.
  assert (H3 : Inventory.productId bad <> "") by discriminate.
  assert (H4 : Inventory.reason bad <> "") by discriminate.
  assert (H5 : products db !! Inventory.productId bad = None) by (vm_compute; reflexivity).
  repeat (split; [assumption|]).
  exact (proj1 (batch_stops_at_unknown_product "u1" pre bad post db db1 rs 1
                  H1 H2 H3 H4 H5)).
Defined.



(** Selling five of ten with a minimum of five alerts; selling four does
    not. *)
Lemma low_stock_boundary_witness :
  let t := Example.sale PENDING in
  let p := Product.mk "Kopi" 10 5 "c1" true in
  let db := Example.empty_store in
  products db !! "p1" = Some p
  /\ notifications (PaymentStatusCheck.sell_item t (TransactionItem.mk "p1" 5 10000 50000) db)
     = [low_stock_alert "u1" "Kopi" 5]
  /\ notifications (PaymentStatusCheck.sell_item t (TransactionItem.mk "p1" 4 10000 40000) db)
     = [].
Proof.
  intros t p db.
  assert (H : products db !! "p1" = Some p) by (vm_compute; reflexivity).
  split; [exact H|]. split.
  - destruct (low_stock_boundary t (Transactions.mkItem "p1" 5 10000 50000) db p H)
      as (_ & _ & _ & _ & Hat & _).
    exact (proj2 (proj2 (Hat eq_refl))).
  - destruct (low_stock_boundary t (Transactions.mkItem "p1" 4 10000 40000) db p H)
      as (_ & _ & _ & _ & _ & Habove).
    exact (proj2 (proj2 (Habove eq_refl))).
Defined.

(** A settled invoice is written as PAID. *)
Lemma webhook_status_vocabulary_witness :
  let db := Example.store PENDING in
  unique_ids db
  /\ XenditWebhook.find_transaction (Example.push "SETTLED") db
     = Some (Example.sale PENDING)
  /\ status_of (XenditWebhook.POST (Example.push "SETTLED") db).1 "t1" = Some PAID.
Proof.
  intros db.
  assert (H1 : unique_ids db) by apply example_store_unique.
  assert (H2 : XenditWebhook.find_transaction (Example.push "SETTLED") db
               = Some (Example.sale PENDING)) by (vm_compute; reflexivity).
  split; [exact H1|]. split; [exact H2|].
  destruct webhook_status_vocabulary as (_ & _ & _ & _ & _ & _ & Hw).
  exact (Hw (Example.push "SETTLED") db (Example.sale PENDING) H1 H2).
Defined.

End WorkedExamples.

(** * Further properties *)

(** ** The ledger: stock moves only with a log entry *)

Section Ledger.

Implicit Types (db : DB) (pid : string) (t : Transaction.t).










End Ledger.

(** ** What no handler rewrites *)

Section CheckoutColumns.

Implicit Types (db : DB) (t : Transaction.t).

Lemma update_keeps_columns tid f db :
  (forall x, checkout_columns (f x) = checkout_columns x) ->
  map checkout_columns (transactions (Prisma.transaction_update tid f db))
  = map checkout_columns (transactions db).
Proof.
  intros Hf. unfold Prisma.transaction_update; simpl.
  rewrite map_map. apply map_ext. intros x. by destruct (String.eqb _ _).
Qed.

Lemma columns_give_ids (l1 l2 : list Transaction.t) :
  map checkout_columns l1 = map checkout_columns l2 ->
  map Transaction.id l1 = map Transaction.id l2.
Proof.
  intros H.
  assert (Hid : forall l, map Transaction.id l
                          = map (fun c => c.1.1.1.1) (map checkout_columns l)).
  { intros l. rewrite map_map. by apply map_ext. }
  by rewrite !Hid, H.
Qed.

Lemma fire_keeps_columns gw tr db :
  map checkout_columns (transactions (fire gw tr db))
  = map checkout_columns (transactions db).
Proof.
  destruct tr as [b|session transactionId]; simpl fire.
  - unfold XenditWebhook.POST. cbn zeta.
    destruct (truthy_string _) as [ext|]; [|done].
    destruct (Prisma.transaction_findFirst _ db) as [t|]; [|done]. cbn [fst].
    destruct (_ && _).
    + destruct (Prisma.transaction_findUnique _ _) as [twi|];
        [|by apply update_keeps_columns].
      rewrite webhook_update_stock.
      cbn [transactions Notifications.notifyPaymentReceived
             Notifications.createNotification Prisma.notification_create].
      destruct (update_stock_frame t (Transaction.items twi)
                  (Prisma.transaction_update (Transaction.id t)
                     (XenditWebhook.update_data b) db)) as [_ ->].
      by apply update_keeps_columns.
    + destruct (PaymentStatus_eqb _ FAILED); by apply update_keeps_columns.
  - unfold PaymentStatusCheck.POST.
    destruct session; [|done]. destruct (truthy_string _) as [tid|]; [|done].
    destruct (Prisma.transaction_findUnique _ _) as [t|]; [|done].
    destruct (PaymentStatus_eqb _ PAID); [done|].
    destruct (Transaction.xenditPaymentId t) as [inv|]; [|done].
    destruct (String.eqb inv ""); [done|]. destruct (gw inv) as [st|]; [|done].
    destruct (negb _); [|done]. cbn [fst].
    destruct (PaymentStatus_eqb _ PAID); [|by apply update_keeps_columns].
    cbn [transactions Notifications.notifyPaymentReceived
           Notifications.createNotification Prisma.notification_create].
    destruct (update_stock_frame t (Transaction.items t)
                (Prisma.transaction_update tid
                   (Transaction.with_paymentStatus (PaymentStatusCheck.map_status st)) db))
      as [_ ->].
    by apply update_keeps_columns.
Qed.

(** X2: a transaction is written once.  Neither reconciliation trigger, nor
    the PATCH route, nor the older payment callback adds, removes or
    reorders a transaction or changes its id, number, amounts, cashier or
    line items; the primary key therefore stays a key under all of them. *)
Theorem checkout_columns_kept :
  (forall gw tr db,
      map checkout_columns (transactions (fire gw tr db))
      = map checkout_columns (transactions db))
  /\ (forall session id body db,
        map checkout_columns (transactions (TransactionById.PATCH session id body db).1)
        = map checkout_columns (transactions db))
  /\ (forall body db,
        map checkout_columns (transactions (Payments.PUT body db).1)
        = map checkout_columns (transactions db))
  /\ (forall gw tr db, unique_ids db -> unique_ids (fire gw tr db)).
Proof.
  split; [exact fire_keeps_columns|]. split; [|split].
  - intros session id body db. unfold TransactionById.PATCH.
    destruct session; [|done].
    destruct (TransactionById.patch_data body) as [data|] eqn:Hd; [|done].
    destruct (Prisma.transaction_findUnique id db); [|done]. cbn [fst].
    apply update_keeps_columns. intros x.
    unfold TransactionById.patch_data in Hd.
    destruct (truthy_string (TransactionById.paymentStatus body)) as [ps|].
    + destruct (parse_PaymentStatus ps); [|done]. injection Hd as <-.
      unfold TransactionById.spread_xenditInvoiceUrl,
        TransactionById.spread_xenditPaymentId.
      by destruct (truthy_string _), (truthy_string _).
    + injection Hd as <-.
      unfold TransactionById.spread_xenditInvoiceUrl,
        TransactionById.spread_xenditPaymentId.
      by destruct (truthy_string _), (truthy_string _).
  - intros body db. unfold Payments.PUT.
    destruct (Payments.external_id body) as [| |ext]; try done.
    destruct (Prisma.transaction_findFirst _ db) as [t|]; [|done].
    destruct (parse_PaymentMethod _); [|done]. cbn [fst].
    by apply update_keeps_columns.
  - intros gw tr db. unfold unique_ids.
    by rewrite (columns_give_ids _ _ (fire_keeps_columns gw tr db)).
Qed.

End CheckoutColumns.

(** ** Webhook deliveries that do not pay *)

Section WebhookOtherStatuses.

Implicit Types (db : DB) (t : Transaction.t) (b : XenditWebhook.Body).

(** X3: a webhook whose status maps to EXPIRED or PENDING writes that
    status (and the gateway id) to the transaction it resolved and nothing
    else: no product, log entry or notification changes. *)
Theorem webhook_without_side_effects b db t :
  unique_ids db ->
  XenditWebhook.find_transaction b db = Some t ->
  XenditWebhook.map_status (XenditWebhook.status b) <> PAID ->
  XenditWebhook.map_status (XenditWebhook.status b) <> FAILED ->
  XenditWebhook.POST b db
  = (Prisma.transaction_update (Transaction.id t) (XenditWebhook.update_data b) db,
     XenditWebhook.Received)
  /\ products (XenditWebhook.POST b db).1 = products db
  /\ inventoryLogs (XenditWebhook.POST b db).1 = inventoryLogs db
  /\ notifications (XenditWebhook.POST b db).1 = notifications db
  /\ status_of (XenditWebhook.POST b db).1 (Transaction.id t)
     = Some (XenditWebhook.map_status (XenditWebhook.status b)).
Proof.
  intros Hu Hfind Hnp Hnf.
  destruct (webhook_target b db t Hfind) as (ext & Hext & Hff).
  assert (HP : XenditWebhook.POST b db
               = (Prisma.transaction_update (Transaction.id t)
                    (XenditWebhook.update_data b) db, XenditWebhook.Received)).
  { rewrite (webhook_found b db ext t Hu Hext Hff). cbn zeta.
    rewrite (eqb_PAID_false _ Hnp). cbn [andb].
    unfold PaymentStatus_eqb. by rewrite bool_decide_eq_false_2. }
  split; [exact HP|]. rewrite HP. cbn [fst]. repeat (split; [done|]).
  apply findFirst_elem in Hff as [Hin _]. unfold status_of.
  by rewrite (update_findUnique _ db t (update_data_id b) Hu Hin).
Qed.

(** X4: a "FAILED" webhook writes FAILED and appends one payment-failed
    notification that carries the raw status, without touching stock or
    log; nothing guards a repeated delivery, so the same body delivered
    twice, to the only transaction it matches, notifies twice. *)
Theorem webhook_failed_notifies_each_time b db t :
  unique_ids db ->
  XenditWebhook.find_transaction b db = Some t ->
  sole_match b db t ->
  XenditWebhook.status b = Str "FAILED" ->
  let db1 := (XenditWebhook.POST b db).1 in
  let db2 := (XenditWebhook.POST b db1).1 in
  status_of db1 (Transaction.id t) = Some FAILED
  /\ products db1 = products db /\ inventoryLogs db1 = inventoryLogs db
  /\ notifications db1 = notifications db ++ [payment_failed t (Str "FAILED")]
  /\ products db2 = products db /\ inventoryLogs db2 = inventoryLogs db
  /\ notifications db2
     = notifications db
       ++ [payment_failed t (Str "FAILED"); payment_failed t (Str "FAILED")].
Proof.
  intros Hu Hfind Hsole Hst db1 db2.
  destruct (webhook_target b db t Hfind) as (ext & Hext & Hff).
  set (dbu := Prisma.transaction_update (Transaction.id t)
                (XenditWebhook.update_data b) db).
  assert (H1 : db1 = Notifications.notifyPaymentFailed (Transaction.cashierId t)
                       (Transaction.transactionNumber t) (Str "FAILED") dbu).
  { unfold db1. rewrite (webhook_found b db ext t Hu Hext Hff). cbn zeta.
    by rewrite Hst. }
  assert (Hu1 : unique_ids db1).
  { rewrite H1. change (unique_ids dbu). by apply update_unique. }
  assert (Hff1 : Prisma.transaction_findFirst
                   (XenditWebhook.lookup_filters ext (XenditWebhook.id b)) db1
                 = Some (XenditWebhook.update_data b t)).
  { rewrite (findFirst_ext _ db1 dbu) by (by rewrite H1).
    pose proof (proj1 (find_after_update b db t Hu Hfind Hsole)) as Hf.
    unfold XenditWebhook.find_transaction in Hf. by rewrite Hext in Hf. }
  assert (H2 : db2 = Notifications.notifyPaymentFailed (Transaction.cashierId t)
                       (Transaction.transactionNumber t) (Str "FAILED")
                       (Prisma.transaction_update (Transaction.id t)
                          (XenditWebhook.update_data b) db1)).
  { unfold db2. rewrite (webhook_found b db1 ext _ Hu1 Hext Hff1). cbn zeta.
    by rewrite Hst. }
  split.
  { unfold status_of. rewrite (findUnique_ext _ db1 dbu) by (by rewrite H1).
    apply findFirst_elem in Hff as [Hin _]. unfold dbu.
    rewrite (update_findUnique _ db t (update_data_id b) Hu Hin).
    simpl. by rewrite Hst. }
  rewrite H2, H1. repeat (split; [done|]).
  simpl. by rewrite <- app_assoc.
Qed.

End WebhookOtherStatuses.

(** ** When the status check writes *)

Section StatusCheckEdges.

Implicit Types (db : DB) (t : Transaction.t) (gw : PaymentStatusCheck.Gateway).

(** X5: the status check leaves the store alone unless everything lines
    up: a session, a transaction with that id that is not PAID and carries
    a gateway payment id, a gateway that answers, and an answer that maps
    to a status other than the stored one. *)
Theorem status_check_writes_only_on_change gw session transactionId db :
  (PaymentStatusCheck.POST gw session transactionId db).1 <> db ->
  exists t invoiceId invoiceStatus,
    target (StatusCheck session transactionId) db = Some t
    /\ Transaction.paymentStatus t <> PAID
    /\ Transaction.xenditPaymentId t = Some invoiceId /\ invoiceId <> ""
    /\ gw invoiceId = Some invoiceStatus
    /\ PaymentStatusCheck.map_status invoiceStatus <> Transaction.paymentStatus t.
Proof.
  unfold PaymentStatusCheck.POST; simpl target.
  destruct session as [uid|]; [|done].
  destruct (truthy_string transactionId) as [tid|]; [|done].
  destruct (Prisma.transaction_findUnique tid db) as [t|] eqn:Hrow; [|done].
  destruct (bool_decide_reflect (Transaction.paymentStatus t = PAID)) as [E|E];
    unfold PaymentStatus_eqb at 1.
  { by rewrite bool_decide_eq_true_2. }
  rewrite bool_decide_eq_false_2 by done.
  destruct (Transaction.xenditPaymentId t) as [inv|] eqn:Hinv; [|done].
  destruct (String.eqb_spec inv ""); [done|].
  destruct (gw inv) as [st|] eqn:Hgw; [|done].
  destruct (bool_decide_reflect
              (PaymentStatusCheck.map_status st = Transaction.paymentStatus t)) as [E'|E'];
    unfold PaymentStatus_eqb at 1.
  { by rewrite bool_decide_eq_true_2. }
  intros _. by exists t, inv, st.
Qed.

(** X6: when the gateway reports an invoice as expired, the status check
    moves a pending transaction to EXPIRED, answers with the updated row
    and changes nothing else. *)
Theorem status_check_expires gw uid db t invoiceId :
  Prisma.transaction_findUnique (Transaction.id t) db = Some t ->
  Transaction.id t <> "" ->
  Transaction.paymentStatus t = PENDING ->
  Transaction.xenditPaymentId t = Some invoiceId -> invoiceId <> "" ->
  gw invoiceId = Some "EXPIRED" ->
  PaymentStatusCheck.POST gw (Some uid) (Str (Transaction.id t)) db
  = (Prisma.transaction_update (Transaction.id t)
       (Transaction.with_paymentStatus EXPIRED) db,
     PaymentStatusCheck.Status EXPIRED (Transaction.with_paymentStatus EXPIRED t)).
Proof.
  intros Hrow Hid Hst Hinv Hne Hgw. unfold PaymentStatusCheck.POST. cbn [truthy_string].
  apply String.eqb_neq in Hid, Hne. rewrite Hid, Hrow, Hst, Hinv, Hne, Hgw. done.
Qed.

End StatusCheckEdges.

(** ** Creating a transaction: rejections and half-done sales *)

Section CreateEdges.

Implicit Types (db : DB) (env : Transactions.Env) (body : Transactions.Body).

Lemma invalid_quantity_some (xs : list Transactions.Item) :
  Exists (fun i => Transactions.quantity i <= 0) xs ->
  is_Some (Transactions.invalid_quantity xs).
Proof.
  induction 1 as [i xs Hi|i xs _ IH]; simpl.
  - rewrite (proj2 (Z.leb_le _ _) Hi). by eexists.
  - destruct (_ <=? _); [by eexists|exact IH].
Qed.

(** The handler once its guards are passed. *)
Lemma POST_after_guards env body db method :
  passes_guards env body db ->
  parse_PaymentMethod (Transactions.paymentMethod body) = Some method ->
  Transactions.POST env body db
  = let t := created_row env body method
               (if String.eqb (Transactions.paymentMethod body) "CASH"
                then PAID else PENDING) in
    match Prisma.transaction_create t db with
    | None => (db, Transactions.Error 500 "Internal server error")
    | Some db0 =>
        let '(db1, thrown) :=
          if String.eqb (Transactions.paymentMethod body) "CASH"
             || (Transactions.isXenditPayment method
                 && strict_eq (Transactions.paymentStatus body) "PAID")
          then Transactions.update_stock (Transactions.cashierId body)
                 (Transactions.transactionNumber env) (Transactions.items body) db0
          else (db0, None) in
        match thrown with
        | Some _ => (db1, Transactions.Error 500 "Internal server error")
        | None => (Notifications.notifyNewOrder (Transactions.cashierId body)
                     (Transactions.transactionNumber env)
                     (Transactions.finalAmount body) db1,
                   Transactions.Created t)
        end
    end.
Proof.
  intros (Hs & Ht & Hf & Hc & Hu & Hi & Hq) Hm.
  unfold Transactions.POST. destruct Hs as [uid ->].
  apply Z.eqb_neq in Ht, Hf. apply String.eqb_neq in Hc. rewrite Ht, Hf, Hc.
  assert (Hmne : String.eqb (Transactions.paymentMethod body) "" = false).
  { apply String.eqb_neq. intros E. rewrite E in Hm. discriminate. }
  rewrite Hmne.
  assert (Hlen : (length (Transactions.items body) =? 0)%nat = false).
  { apply Nat.eqb_neq. destruct (Transactions.items body); [done|simpl; lia]. }
  rewrite Hlen. cbn [orb].
  unfold Prisma.user_exists. rewrite bool_decide_eq_true_2 by done. cbn [negb].
  by rewrite (invalid_quantity_none _ Hq), Hm.
Qed.

(** The insert of a cart that names an unknown product, or one product on
    two lines, is rejected. *)
Lemma bad_cart_not_insertable env body db method status :
  Exists (fun i => products db !! Transactions.productId i = None)
    (Transactions.items body)
  \/ ~ NoDup (map Transactions.productId (Transactions.items body)) ->
  Prisma.transaction_create (created_row env body method status) db = None.
Proof.
  intros Hbad. unfold Prisma.transaction_create, Prisma.transaction_insertable.
  cbn [Transaction.items created_row]. destruct Hbad as [Hmiss|Hdup].
  - assert (Hf : forallb (fun it => Prisma.item_insertable it db)
                   (map Transactions.to_row (Transactions.items body)) = false).
    { induction Hmiss as [i xs Hi|i xs _ IH]; cbn [map forallb].
      - unfold Prisma.item_insertable at 1. cbn [Transactions.to_row
          TransactionItem.productId]. rewrite Hi.
        rewrite bool_decide_eq_false_2; [done|]. by intros [? ?].
      - rewrite IH. apply andb_false_r. }
    rewrite Hf. by rewrite andb_false_r.
  - rewrite row_product_ids. rewrite (bool_decide_eq_false_2 (NoDup _)) by done.
    by rewrite andb_false_r.
Qed.

(** X7: a request answered with a client error (401 or 400) has written
    nothing: the session, the required fields, the cashier and every
    quantity are checked before the first write. *)
Theorem create_client_error_writes_nothing env body db status error :
  (Transactions.POST env body db).2 = Transactions.Error status error ->
  status <> 500 ->
  (Transactions.POST env body db).1 = db.
Proof.
  unfold Transactions.POST.
  destruct (Transactions.session env); [|done].
  destruct (_ || _); [done|]. destruct (negb _); [done|].
  destruct (Transactions.invalid_quantity _); [done|].
  destruct (parse_PaymentMethod _) as [method|]; [|done].
  destruct (Prisma.transaction_create _ db) as [db0|]; [|done].
  destruct (_ || _).
  - destruct (Transactions.update_stock _ _ _ _) as [db1 [thrown|]]; cbn [fst snd].
    + intros [= <- <-]. done.
    + done.
  - cbn [fst snd]. done.
Qed.

(** X8: one non-positive quantity anywhere in the cart rejects the whole
    sale: the answer is a client error and the store is untouched. *)
Theorem bad_quantity_rejects_sale env body db :
  Exists (fun i => Transactions.quantity i <= 0) (Transactions.items body) ->
  (Transactions.POST env body db).1 = db
  /\ exists status error,
       (Transactions.POST env body db).2 = Transactions.Error status error
       /\ (status = 400 \/ status = 401).
Proof.
  intros Hbad. apply invalid_quantity_some in Hbad as [i Hi].
  unfold Transactions.POST.
  destruct (Transactions.session env); [|split; [done|eexists _, _; split; [done|by right]]].
  destruct (_ || _); [split; [done|eexists _, _; split; [done|by left]]|].
  destruct (negb _); [split; [done|eexists _, _; split; [done|by left]]|].
  rewrite Hi. split; [done|]. eexists _, _; split; [done|by left].
Qed.

(** X9: a sale whose cart names an unknown product, or the same product
    on two lines, is answered with 500 and writes nothing: the line items
    are inserted together with the transaction, the insert is rejected,
    and the stock loop, with its own "not found" error, is never
    reached. *)
Theorem sale_with_bad_cart_writes_nothing env body db method :
  passes_guards env body db ->
  parse_PaymentMethod (Transactions.paymentMethod body) = Some method ->
  Exists (fun i => products db !! Transactions.productId i = None)
    (Transactions.items body)
  \/ ~ NoDup (map Transactions.productId (Transactions.items body)) ->
  Transactions.POST env body db
  = (db, Transactions.Error 500 "Internal server error").
Proof.
  intros Hg Hm Hbad.
  rewrite (POST_after_guards env body db method Hg Hm). cbn zeta.
  by rewrite (bad_cart_not_insertable env body db method _ Hbad).
Qed.

End CreateEdges.

(** ** A digital sale from checkout to payment *)

Section DigitalSale.

Implicit Types (db : DB) (env : Transactions.Env) (body : Transactions.Body).

(** X10: a digital sale posted without a PAID flag is stored PENDING and
    sells nothing yet: only the row and a "New Order" notification are
    added.  The first "PAID" webhook that resolves to it then takes each
    product's quantity off stock once and leaves the row PAID. *)
Theorem digital_sale_waits_for_payment env body db method :
  accepted env body db ->
  parse_PaymentMethod (Transactions.paymentMethod body) = Some method ->
  Transactions.isXenditPayment method = true ->
  strict_eq (Transactions.paymentStatus body) "PAID" = false ->
  unique_ids db ->
  let t := created_row env body method PENDING in
  let db1 := (Transactions.POST env body db).1 in
  Transactions.POST env body db = (db1, Transactions.Created t)
  /\ transactions db1 = transactions db ++ [t]
  /\ products db1 = products db
  /\ inventoryLogs db1 = inventoryLogs db
  /\ notifications db1 = notifications db ++ [new_order env body]
  /\ (forall wb,
        XenditWebhook.find_transaction wb db1 = Some t ->
        XenditWebhook.status wb = Str "PAID" ->
        status_of (XenditWebhook.POST wb db1).1 (Transaction.id t) = Some PAID
        /\ forall pid,
             stock_of (XenditWebhook.POST wb db1).1 pid
             = (fun s => s - qty_for pid (Transaction.items t)) <$> stock_of db pid).
Proof.
  intros Hacc Hm Hx Hflag Hu t db1.
  assert (Hg : passes_guards env body db).
  { destruct Hacc as (? & ? & ? & ? & ? & ? & ? & _). by repeat split. }
  pose proof (xendit_is_not_cash _ _ Hm Hx) as Hnc.
  pose proof (POST_after_guards env body db method Hg Hm) as HP.
  rewrite Hnc, Hx, Hflag in HP. cbn [orb andb] in HP. cbn zeta in HP.
  rewrite (accepted_create env body db method PENDING Hacc) in HP. fold t in HP.
  assert (Hfresh : Transactions.newId env ∉ map Transaction.id (transactions db)).
  { by destruct Hacc as (_ & _ & _ & _ & _ & _ & _ & _ & ? & _). }
  assert (H1 : db1 = Notifications.notifyNewOrder (Transactions.cashierId body)
                       (Transactions.transactionNumber env)
                       (Transactions.finalAmount body)
                       (Prisma.transaction_append t db)).
  { unfold db1. by rewrite HP. }
  split; [unfold db1; by rewrite HP|].
  do 4 (split; [by rewrite H1|]).
  intros wb Hfind Hst.
  assert (Hu1 : unique_ids db1).
  { rewrite H1. change (unique_ids (Prisma.transaction_append t db)).
    by apply create_unique. }
  pose proof (first_fire (fun _ => None) (WebhookPush wb) db1 t Hu1 Hfind Hst) as HF.
  simpl fire in HF. rewrite HF by done. split.
  - unfold status_of.
    rewrite (findUnique_ext _ _ (Prisma.transaction_update (Transaction.id t)
                                   (paid_write (WebhookPush wb)) db1))
      by apply update_stock_frame.
    destruct (webhook_target wb db1 t Hfind) as (ext & _ & Hff).
    apply findFirst_elem in Hff as [Hin _].
    rewrite (update_findUnique _ db1 t (paid_write_id (WebhookPush wb)) Hu1 Hin).
    simpl. by rewrite Hst.
  - intros pid.
    rewrite (stock_of_ext _ (PaymentStatusCheck.update_stock t (Transaction.items t)
                               (Prisma.transaction_update (Transaction.id t)
                                  (paid_write (WebhookPush wb)) db1)) pid) by done.
    rewrite update_stock_stock. apply f_equal. apply stock_of_ext. by rewrite H1.
Qed.

End DigitalSale.

(** ** The external id of an invoice *)

Section ExternalId.

(** X11: the external id the invoice route builds for a transaction is
    read back by the webhook's pattern: a non-empty id without a dash is
    recovered exactly, whatever the clock printed; an id that contains a
    dash is never recovered. *)
Theorem external_id_round_trip (transactionId now : string) :
  (transactionId <> "" -> has_dash transactionId = false ->
   XenditWebhook.match_transaction_id (Payments.externalId transactionId now)
   = Some transactionId)
  /\ (has_dash transactionId = true ->
      XenditWebhook.match_transaction_id (Payments.externalId transactionId now)
      <> Some transactionId).
Proof. exact (external_id_id transactionId now). Qed.

(** X12: the webhook for the invoice of transaction [t], carrying the
    external id the invoice route built, resolves to [t], provided the id
    of [t] is non-empty and dash-free and no other transaction carries
    the body's external id or gateway id as its payment id. *)
Theorem invoice_webhook_resolves b db t now :
  unique_ids db -> t ∈ transactions db ->
  Transaction.id t <> "" -> has_dash (Transaction.id t) = false ->
  js_or (XenditWebhook.external_id b) (XenditWebhook.externalId b)
  = Str (Payments.externalId (Transaction.id t) now) ->
  (forall x, x ∈ transactions db -> x <> t ->
     Prisma.where_matches
       (Prisma.WhereXenditPaymentId (Str (Payments.externalId (Transaction.id t) now))) x
     = false
     /\ Prisma.where_matches (Prisma.WhereXenditPaymentId (XenditWebhook.id b)) x = false) ->
  XenditWebhook.find_transaction b db = Some t.
Proof.
  intros Hu Hin Hne Hnd Hext Hothers.
  unfold XenditWebhook.find_transaction. rewrite Hext.
  cbn [truthy_string Payments.externalId]. simpl String.eqb.
  unfold XenditWebhook.lookup_filters.
  fold (Payments.externalId (Transaction.id t) now).
  rewrite (proj1 (external_id_id (Transaction.id t) now) Hne Hnd).
  unfold Prisma.transaction_findFirst. apply find_only_match; [done| |].
  - simpl. by rewrite String.eqb_refl.
  - intros x Hx Hpx.
    destruct (String.eqb_spec (Transaction.id x) (Transaction.id t)) as [E|E].
    + by apply (unique_row db t x Hu Hin Hx).
    + assert (Hxt : x <> t) by (by intros ->).
      destruct (Hothers x Hx Hxt) as [H1 H2].
      cbn [app existsb] in Hpx. rewrite H1, H2 in Hpx.
      simpl in Hpx. by rewrite (proj2 (String.eqb_neq _ _) E) in Hpx.
Qed.

End ExternalId.

(** ** The PATCH route *)

Section PatchRoute.

Implicit Types (db : DB) (t : Transaction.t) (body : TransactionById.PatchBody).

Lemma patch_data_id body data x :
  TransactionById.patch_data body = Some data ->
  Transaction.id (data x) = Transaction.id x.
Proof.
  unfold TransactionById.patch_data.
  destruct (truthy_string (TransactionById.paymentStatus body)) as [ps|].
  - destruct (parse_PaymentStatus ps); [|done]. intros [= <-].
    unfold TransactionById.spread_xenditInvoiceUrl, TransactionById.spread_xenditPaymentId.
    by destruct (truthy_string _), (truthy_string _).
  - intros [= <-].
    unfold TransactionById.spread_xenditInvoiceUrl, TransactionById.spread_xenditPaymentId.
    by destruct (truthy_string _), (truthy_string _).
Qed.

(** X13: PATCH followed by GET returns the row PATCH answered with: each
    truthy field of the body is stored, each absent or empty field keeps
    its stored value, and no product, log entry or notification is
    touched, whatever status is written. *)
Theorem patch_then_get uid id body db t data :
  unique_ids db ->
  Prisma.transaction_findUnique id db = Some t ->
  TransactionById.patch_data body = Some data ->
  let db1 := (TransactionById.PATCH (Some uid) id body db).1 in
  TransactionById.PATCH (Some uid) id body db = (db1, TransactionById.Ok (data t))
  /\ TransactionById.GET (Some uid) id db1 = TransactionById.Ok (data t)
  /\ Transaction.xenditPaymentId (data t)
     = match truthy_string (TransactionById.xenditPaymentId body) with
       | Some s => Some s
       | None => Transaction.xenditPaymentId t
       end
  /\ Transaction.xenditInvoiceUrl (data t)
     = match truthy_string (TransactionById.xenditInvoiceUrl body) with
       | Some s => Some s
       | None => Transaction.xenditInvoiceUrl t
       end
  /\ Some (Transaction.paymentStatus (data t))
     = match truthy_string (TransactionById.paymentStatus body) with
       | Some s => parse_PaymentStatus s
       | None => Some (Transaction.paymentStatus t)
       end
  /\ products db1 = products db
  /\ inventoryLogs db1 = inventoryLogs db
  /\ notifications db1 = notifications db.
Proof.
  intros Hu Hrow Hd db1.
  assert (HP : TransactionById.PATCH (Some uid) id body db
               = (Prisma.transaction_update id data db, TransactionById.Ok (data t))).
  { unfold TransactionById.PATCH. by rewrite Hd, Hrow. }
  assert (H1 : db1 = Prisma.transaction_update id data db) by (unfold db1; by rewrite HP).
  split; [by rewrite HP, H1|]. split.
  { unfold TransactionById.GET. rewrite H1.
    destruct (findUnique_elem _ _ _ Hrow) as [Hin <-].
    by rewrite (update_findUnique data db t (fun x => patch_data_id body data x Hd) Hu Hin). }
  assert (Hfields : forall x,
             data x = (match truthy_string (TransactionById.paymentStatus body) with
                       | Some s => match parse_PaymentStatus s with
                                   | Some st => Transaction.with_paymentStatus st
                                   | None => fun y => y
                                   end
                       | None => fun y => y
                       end)
                        (TransactionById.spread_xenditInvoiceUrl body
                           (TransactionById.spread_xenditPaymentId body x))).
  { intros x. unfold TransactionById.patch_data in Hd.
    destruct (truthy_string (TransactionById.paymentStatus body)) as [ps|].
    - destruct (parse_PaymentStatus ps); [|done]. by injection Hd as <-.
    - by injection Hd as <-. }
  rewrite H1. rewrite (Hfields t).
  unfold TransactionById.spread_xenditInvoiceUrl, TransactionById.spread_xenditPaymentId.
  unfold TransactionById.patch_data in Hd.
  destruct (truthy_string (TransactionById.paymentStatus body)) as [ps|];
    [destruct (parse_PaymentStatus ps); [|done]|];
    destruct (truthy_string (TransactionById.xenditPaymentId body)),
      (truthy_string (TransactionById.xenditInvoiceUrl body)); by repeat split.
Qed.

(** X14: a sale marked PAID through PATCH never has its stock taken.
    PATCH itself sells nothing, and every later trigger that resolves to
    the sale with "PAID" finds it PAID already and skips the stock loop:
    products, inventory log and notifications stay as they were before
    the PATCH. *)
Theorem patch_paid_skips_stock gw uid id body db t tr t1 :
  unique_ids db ->
  Prisma.transaction_findUnique id db = Some t ->
  TransactionById.paymentStatus body = Str "PAID" ->
  let db1 := (TransactionById.PATCH (Some uid) id body db).1 in
  target tr db1 = Some t1 -> Transaction.id t1 = id ->
  (forall b, tr = WebhookPush b -> XenditWebhook.status b = Str "PAID") ->
  status_of db1 id = Some PAID
  /\ products (fire gw tr db1) = products db
  /\ inventoryLogs (fire gw tr db1) = inventoryLogs db
  /\ notifications (fire gw tr db1) = notifications db
  /\ status_of (fire gw tr db1) id = Some PAID.
Proof.
  intros Hu Hrow Hst db1 Ht1 Hid1 Hpaid.
  set (data := fun x => Transaction.with_paymentStatus PAID
                          (TransactionById.spread_xenditInvoiceUrl body
                             (TransactionById.spread_xenditPaymentId body x))).
  assert (Hd : TransactionById.patch_data body = Some data).
  { unfold TransactionById.patch_data. by rewrite Hst. }
  assert (H1 : db1 = Prisma.transaction_update id data db).
  { unfold db1, TransactionById.PATCH. by rewrite Hd, Hrow. }
  destruct (findUnique_elem _ _ _ Hrow) as [Hin Hidt].
  assert (Hkeep : forall x, Transaction.id (data x) = Transaction.id x)
    by (intros x; by apply (patch_data_id body)).
  assert (Hu1 : unique_ids db1) by (rewrite H1; by apply update_unique).
  assert (Hrow1 : Prisma.transaction_findUnique id db1 = Some (data t)).
  { rewrite H1, <- Hidt. by apply update_findUnique. }
  assert (Hin1 : t1 ∈ transactions db1).
  { destruct tr as [b|s i].
    - destruct (webhook_target b db1 t1 Ht1) as (ext & _ & Hf).
      by apply findFirst_elem in Hf as [? _].
    - destruct (status_check_target _ _ _ _ Ht1) as (u & _ & _ & Hf).
      by apply findUnique_elem in Hf as [? _]. }
  assert (Heq : t1 = data t).
  { destruct (findUnique_elem _ _ _ Hrow1) as [Hin' Hid'].
    apply (unique_row db1 _ _ Hu1 Hin' Hin1). by rewrite Hid1, Hid'. }
  assert (Hp1 : Transaction.paymentStatus t1 = PAID) by (by rewrite Heq).
  destruct (fire_on_paid gw tr db1 t1 Hu1 Ht1 Hp1 Hpaid) as (_ & Hp & Hl & Hn & Hs).
  split; [unfold status_of; by rewrite Hrow1|].
  split; [by rewrite Hp, H1|]. split; [by rewrite Hl, H1|].
  split; [by rewrite Hn, H1|]. by rewrite <- Hid1.
Qed.

End PatchRoute.

(** ** The older payment callback *)

Section PaymentCallback.

Implicit Types (db : DB) (body : Payments.PutBody).

(** X15: the PUT callback of the payments route never sells: products,
    inventory log and notifications are left alone on every body.  It
    writes to the store only when the status is "PAID" or "SETTLED" and
    the reported payment method is literally one of the four
    [PaymentMethod] names; for every other status it tries to store the
    method "UNKNOWN", the update is rejected, and the store is unchanged. *)
Theorem callback_effects body db :
  products (Payments.PUT body db).1 = products db
  /\ inventoryLogs (Payments.PUT body db).1 = inventoryLogs db
  /\ notifications (Payments.PUT body db).1 = notifications db
  /\ ((Payments.PUT body db).1 <> db ->
      Payments.map_status (Payments.status body) = PAID
      /\ exists s method,
           (Payments.payment_method body = Payments.MethodString s
            \/ Payments.payment_method body = Payments.MethodObject (Str s))
           /\ parse_PaymentMethod s = Some method)
  /\ (Payments.map_status (Payments.status body) <> PAID ->
      (Payments.PUT body db).1 = db).
Proof.
  assert (Hunknown : Payments.map_status (Payments.status body) <> PAID ->
                     parse_PaymentMethod
                       (Payments.method_name (Payments.status body)
                          (Payments.payment_method body)) = None).
  { unfold Payments.map_status, Payments.method_name.
    destruct (_ || _); [done|]. done. }
  unfold Payments.PUT.
  destruct (Payments.external_id body) as [| |ext]; try by repeat split.
  destruct (Prisma.transaction_findFirst _ db) as [t|]; [|by repeat split].
  destruct (parse_PaymentMethod _) as [m|] eqn:Hm; [|by repeat split].
  cbn [fst]. repeat (split; [done|]). split.
  - intros _.
    destruct (bool_decide_reflect (Payments.map_status (Payments.status body) = PAID))
      as [E|E].
    2:{ discriminate (Hunknown E). }
    split; [done|].
    unfold Payments.method_name, Payments.map_status in *.
    destruct (_ || _); [|done].
    destruct (Payments.payment_method body) as [s|[| |s]|]; try done.
    + exists s, m. split; [by left|done].
    + simpl in Hm. destruct (String.eqb s ""); [done|].
      exists s, m. split; [by right|done].
  - intros E. discriminate (Hunknown E).
Qed.

End PaymentCallback.

(** ** Dashboard and report figures *)

Section Figures.

Implicit Types (db : DB) (t : Transaction.t) (l : list Transaction.t).

Lemma filter_length_mono {A} (f g : A -> bool) (xs : list A) :
  (forall x, f x = true -> g x = true) ->
  (length (List.filter f xs) <= length (List.filter g xs))%nat.
Proof.
  intros Hfg. induction xs as [|x xs IH]; simpl; [done|].
  destruct (f x) eqn:Hf.
  - rewrite (Hfg x Hf). simpl. lia.
  - destruct (g x); simpl; lia.
Qed.

Lemma paid_in_range_all x :
  ReportOverview.paid_in_range (fun _ => true) x
  = PaymentStatus_eqb (Transaction.paymentStatus x) PAID.
Proof. done. Qed.

(** X16: the dashboard and the report disagree by construction.  The
    dashboard counts every product with stock below ten, retired ones
    included, so its low-stock figure is never below the report's; and its
    revenue and transaction count include the sales that are not PAID,
    which the report leaves out. *)
Theorem dashboard_counts_more db :
  (Reports.lowStockCount db <= DashboardStats.lowStockProducts (DashboardStats.GET db))%nat
  /\ DashboardStats.totalRevenue (DashboardStats.GET db)
     = paid_revenue db
       + foldr (fun x acc => Transaction.finalAmount x + acc) 0
           (List.filter
              (fun x => negb (PaymentStatus_eqb (Transaction.paymentStatus x) PAID))
              (transactions db))
  /\ DashboardStats.totalTransactions (DashboardStats.GET db)
     = (paid_count db
        + length (List.filter
                    (fun x => negb (PaymentStatus_eqb (Transaction.paymentStatus x) PAID))
                    (transactions db)))%nat.
Proof.
  split; [|split].
  - unfold Reports.lowStockCount, Reports.product_count, DashboardStats.GET; simpl.
    apply filter_length_mono. intros [pid p]. unfold Reports.product_matches; simpl.
    rewrite !andb_true_iff, Z.leb_le, Z.ltb_lt. lia.
  - unfold paid_revenue, ReportOverview.overview, DashboardStats.GET; simpl.
    induction (transactions db) as [|x l IH]; simpl; [done|].
    rewrite paid_in_range_all.
    destruct (PaymentStatus_eqb _ PAID); simpl; lia.
  - unfold paid_count, ReportOverview.overview, DashboardStats.GET; simpl.
    induction (transactions db) as [|x l IH]; simpl; [done|].
    rewrite paid_in_range_all.
    destruct (PaymentStatus_eqb _ PAID); simpl; lia.
Qed.

(** The PAID total after one row is rewritten to PAID. *)
Lemma paid_totals_after_update f t l :
  NoDup (map Transaction.id l) -> t ∈ l ->
  Transaction.paymentStatus t <> PAID ->
  Transaction.paymentStatus (f t) = PAID ->
  Transaction.finalAmount (f t) = Transaction.finalAmount t ->
  let upd := fun x => if String.eqb (Transaction.id x) (Transaction.id t) then f x else x in
  let paid := fun rows => List.filter (ReportOverview.paid_in_range (fun _ => true)) rows in
  foldr (fun x acc => Transaction.finalAmount x + acc) 0 (paid (map upd l))
  = foldr (fun x acc => Transaction.finalAmount x + acc) 0 (paid l)
    + Transaction.finalAmount t
  /\ length (paid (map upd l)) = S (length (paid l)).
Proof.
  intros Hnd Hin Hnp Hp Ha upd paid.
  induction l as [|x l IH]; [by apply elem_of_nil in Hin|].
  apply NoDup_cons in Hnd as [Hx Hnd]. apply elem_of_cons in Hin as [<-|Hin].
  - assert (Hrest : map upd l = l).
    { rewrite <- (map_id l) at 2. apply map_ext_in. intros y Hy. unfold upd.
      destruct (String.eqb_spec (Transaction.id y) (Transaction.id t)) as [E|_]; [|done].
      exfalso. apply Hx. rewrite <- E. apply list_elem_of_fmap_2. by apply list_elem_of_In. }
    cbn [map]. rewrite Hrest. unfold upd. rewrite String.eqb_refl.
    unfold paid; cbn [List.filter]. rewrite !paid_in_range_all, Hp.
    rewrite (eqb_PAID_false _ Hnp). change (PaymentStatus_eqb PAID PAID) with true.
    cbn [foldr length]. rewrite Ha. split; lia.
  - destruct (IH Hnd Hin) as [IH1 IH2].
    assert (Hux : upd x = x).
    { unfold upd.
      destruct (String.eqb_spec (Transaction.id x) (Transaction.id t)) as [E|_]; [|done].
      exfalso. apply Hx. rewrite E. by apply list_elem_of_fmap_2. }
    cbn [map]. rewrite Hux. unfold paid in *; cbn [List.filter].
    destruct (ReportOverview.paid_in_range _ x); cbn [foldr length]; split; lia.
Qed.

(** X17: revenue is recognised when a trigger marks the sale PAID.  For a
    transaction that is not PAID and a trigger that observes "PAID", the
    PAID revenue of the report grows by exactly the transaction's final
    amount and the PAID count by one. *)
Theorem revenue_recognised_on_payment gw tr db t :
  unique_ids db -> target tr db = Some t -> observes_paid gw tr t ->
  Transaction.paymentStatus t <> PAID ->
  paid_revenue (fire gw tr db) = paid_revenue db + Transaction.finalAmount t
  /\ paid_count (fire gw tr db) = S (paid_count db).
Proof.
  intros Hu Ht Hobs Hnp.
  assert (Hin : t ∈ transactions db).
  { destruct tr as [b|s i].
    - destruct (webhook_target b db t Ht) as (ext & _ & Hf).
      by apply findFirst_elem in Hf as [? _].
    - destruct (status_check_target _ _ _ _ Ht) as (uid & _ & _ & Hf).
      by apply findUnique_elem in Hf as [? _]. }
  assert (Htx : transactions (fire gw tr db)
                = map (fun x => if String.eqb (Transaction.id x) (Transaction.id t)
                                then paid_write tr x else x) (transactions db)).
  { rewrite (first_fire gw tr db t Hu Ht Hobs Hnp).
    apply (update_stock_frame t (Transaction.items t)
             (Prisma.transaction_update (Transaction.id t) (paid_write tr) db)). }
  unfold paid_revenue, paid_count, ReportOverview.overview; simpl. rewrite Htx.
  apply (paid_totals_after_update (paid_write tr) t (transactions db) Hu Hin Hnp).
  - by apply (paid_write_status gw tr t).
  - by destruct tr.
Qed.

(** X18: at checkout a cash sale counts as revenue at once and a digital
    sale does not: the PAID revenue grows by the final amount for "CASH"
    and is unchanged for a Xendit method, even when the request carries a
    PAID flag. *)
Theorem revenue_at_checkout env body db method :
  accepted env body db ->
  parse_PaymentMethod (Transactions.paymentMethod body) = Some method ->
  paid_revenue (Transactions.POST env body db).1
  = paid_revenue db
    + (if Transactions.isXenditPayment method then 0 else Transactions.finalAmount body).
Proof.
  intros Hacc Hm.
  assert (Hg : passes_guards env body db).
  { destruct Hacc as (? & ? & ? & ? & ? & ? & ? & _). by repeat split. }
  pose proof (POST_after_guards env body db method Hg Hm) as HP. cbn zeta in HP.
  rewrite (accepted_create env body db method _ Hacc) in HP.
  destruct Hacc as (_ & _ & _ & _ & _ & _ & _ & Hp & _).
  set (t := created_row env body method _) in HP.
  assert (Htx : transactions (Transactions.POST env body db).1 = transactions db ++ [t]).
  { rewrite HP. destruct (_ || _).
    - pose proof (create_update_stock t (Transactions.items body)
                    (Prisma.transaction_append t db) Hp) as HL.
      cbn [Transaction.cashierId Transaction.transactionNumber t created_row] in HL.
      rewrite HL. cbn [fst].
      apply (update_stock_frame t (map Transactions.to_row (Transactions.items body))
               (Prisma.transaction_append t db)).
    - done. }
  unfold paid_revenue, ReportOverview.overview; simpl. rewrite Htx.
  rewrite List.filter_app, foldr_app. cbn [List.filter].
  rewrite paid_in_range_all. subst t. cbn [created_row Transaction.paymentStatus].
  assert (Hsum : forall (z : Z) l,
             foldr (fun x acc => Transaction.finalAmount x + acc) z l
             = foldr (fun x acc => Transaction.finalAmount x + acc) 0 l + z).
  { intros z l. induction l as [|x l IH]; simpl; lia. }
  destruct (String.eqb_spec (Transactions.paymentMethod body) "CASH") as [E|E].
  - rewrite E in Hm. injection Hm as <-. cbn [Transactions.isXenditPayment foldr].
    change (PaymentStatus_eqb PAID PAID) with true. cbn [foldr Transaction.finalAmount].
    rewrite Hsum. unfold created_row; cbn [Transaction.finalAmount]. lia.
  - assert (Hx : Transactions.isXenditPayment method = true).
    { unfold parse_PaymentMethod in Hm.
      rewrite (proj2 (String.eqb_neq _ _) E) in Hm.
      destruct (String.eqb _ "XENDIT_QRIS"); [by injection Hm as <-|].
      destruct (String.eqb _ "XENDIT_EWALLET"); [by injection Hm as <-|].
      destruct (String.eqb _ "XENDIT_VIRTUAL_ACCOUNT"); [by injection Hm as <-|done]. }
    rewrite Hx. change (PaymentStatus_eqb PENDING PAID) with false. cbn [foldr]. lia.
Qed.

End Figures.

(** ** Deleting a product *)

Section ProductDelete.

Implicit Types (db : DB) (id : string).

Lemma transactionItems_elem id db x it :
  x ∈ transactions db -> it ∈ Transaction.items x ->
  TransactionItem.productId it = id ->
  it ∈ ProductById.transactionItems id db.
Proof.
  intros Hx Hit Hid. unfold ProductById.transactionItems.
  apply list_elem_of_In, in_flat_map. exists x. split; [by apply list_elem_of_In|].
  apply filter_In. split; [by apply list_elem_of_In|]. by apply String.eqb_eq.
Qed.

Lemma no_items_when_empty id db :
  (0 <? length (ProductById.transactionItems id db))%nat = false ->
  forall x it, x ∈ transactions db -> it ∈ Transaction.items x ->
               TransactionItem.productId it <> id.
Proof.
  intros Hlen x it Hx Hit Hid.
  pose proof (transactionItems_elem id db x it Hx Hit Hid) as Hin.
  destruct (ProductById.transactionItems id db); [by apply elem_of_nil in Hin|].
  done.
Qed.

(** X19: deleting a product never leaves a line item or a log entry
    without its product.  If every reference resolved before the request,
    every reference resolves after it, whatever the answer was: a product
    that was ever sold is kept and only deactivated, and the hard delete
    goes through only for a product nothing refers to. *)
Theorem delete_keeps_references session id db :
  references_resolve db ->
  references_resolve (ProductById.DELETE session id db).1.
Proof.
  intros [Hitems Hlogs]. unfold ProductById.DELETE.
  destruct session; [|done].
  destruct (Prisma.product_findUnique id db) as [p|]; [|done].
  destruct (0 <? length _)%nat eqn:Hlen; cbn [fst].
  - split.
    + intros x it Hx Hit. cbn [products transactions Prisma.set_products] in *.
      rewrite lookup_alter. case_decide; [subst|by apply (Hitems x)].
      apply fmap_is_Some. by apply (Hitems x).
    + intros l Hl. cbn [products inventoryLogs Prisma.set_products] in *.
      rewrite lookup_alter. case_decide; [subst|by apply Hlogs].
      apply fmap_is_Some. by apply Hlogs.
  - destruct (existsb _ _) eqn:Hex; cbn [fst]; [done|].
    split.
    + intros x it Hx Hit. cbn [products transactions Prisma.set_products] in *.
      rewrite lookup_delete_ne; [by apply (Hitems x)|].
      intros E. by apply (no_items_when_empty id db Hlen x it Hx Hit).
    + intros l Hl. cbn [products inventoryLogs Prisma.set_products] in *.
      rewrite lookup_delete_ne; [by apply Hlogs|].
      intros E. assert (Hex' : existsb (fun l => String.eqb (InventoryLog.productId l) id)
                                 (inventoryLogs db) = true).
      { apply existsb_exists. exists l. split; [by apply list_elem_of_In|].
        by apply String.eqb_eq. }
      congruence.
Qed.

(** X20: deleting a product that a line item names answers "Product
    deactivated": the product stays with its stock and threshold, only
    [isActive] turns false, every other product is untouched, and the
    product is on no low-stock listing of the report afterwards. *)
Theorem delete_sold_product_deactivates uid id db p x it :
  products db !! id = Some p ->
  x ∈ transactions db -> it ∈ Transaction.items x ->
  TransactionItem.productId it = id ->
  let db' := (ProductById.DELETE (Some uid) id db).1 in
  (ProductById.DELETE (Some uid) id db).2 = ProductById.Deactivated
  /\ products db' !! id = Some (with_isActive false p)
  /\ stock_of db' id = Some (Product.stock p)
  /\ (forall pid, pid <> id -> products db' !! pid = products db !! pid)
  /\ transactions db' = transactions db
  /\ inventoryLogs db' = inventoryLogs db
  /\ (forall categoryId q, (id, q) ∉ Reports.lowStockProducts categoryId db').
Proof.
  intros Hp Hx Hit Hid db'.
  pose proof (transactionItems_elem id db x it Hx Hit Hid) as Hin.
  assert (Hlen : (0 <? length (ProductById.transactionItems id db))%nat = true).
  { destruct (ProductById.transactionItems id db); [by apply elem_of_nil in Hin|done]. }
  assert (HD : ProductById.DELETE (Some uid) id db
               = (Prisma.set_products (alter (with_isActive false) id (products db)) db,
                  ProductById.Deactivated)).
  { unfold ProductById.DELETE, Prisma.product_findUnique. by rewrite Hp, Hlen. }
  assert (Hnew : products db' !! id = Some (with_isActive false p)).
  { unfold db'. rewrite HD. cbn [fst products Prisma.set_products].
    by rewrite lookup_alter_eq, Hp. }
  split; [by rewrite HD|]. split; [exact Hnew|].
  split; [unfold stock_of; by rewrite Hnew|]. split.
  { intros pid Hne. unfold db'. rewrite HD. cbn [fst products Prisma.set_products].
    by rewrite lookup_alter_ne. }
  split; [unfold db'; by rewrite HD|]. split; [unfold db'; by rewrite HD|].
  intros categoryId q Hq. unfold Reports.lowStockProducts in Hq.
  apply findMany_elem in Hq as [Hq Hm]. rewrite Hnew in Hq. injection Hq as <-.
  unfold Reports.product_matches in Hm. simpl in Hm.
  by rewrite andb_false_r in Hm.
Qed.

End ProductDelete.

(** ** One adjustment, read back *)

Section AdjustmentRoundTrip.

Implicit Types (db : DB) (a : Inventory.Adjustment).

(** X21: after a single valid adjustment to [n] by a user who has a row,
    with values that fit their columns, the product page shows stock [n]
    and lists the new log entry first: its [newStock] is [n],
    its [previousStock] the stock before, its quantity the absolute
    difference, and its type RESTOCK exactly when the stock went up (an
    adjustment to the current value is logged as ADJUSTMENT of 0).  The
    user is told of the update, and of low stock when [n] is at most the
    product's [minStock]. *)
Theorem adjustment_round_trip uid a db p n :
  Inventory.newStock a = Some n ->
  Inventory.productId a <> "" -> Inventory.reason a <> "" ->
  products db !! Inventory.productId a = Some p ->
  adjustable uid db (Product.stock p) n ->
  let r := Inventory.POST (Some uid) (Some [a]) db in
  let entry := InventoryLog.mk (Inventory.productId a)
                 (Inventory.log_type (n - Product.stock p)) (Z.abs (n - Product.stock p))
                 (Product.stock p) n (Inventory.reason a) uid in
  r.2 = Inventory.Success
          [Inventory.mkResult (Inventory.productId a) (Product.stock p) n
             (n - Product.stock p)]
  /\ ProductById.GET (Some uid) (Inventory.productId a) r.1
     = ProductById.Found (Product.with_stock n p)
         (entry :: firstn 9 (ProductById.logs_of (Inventory.productId a) db))
  /\ (InventoryLog.type entry = RESTOCK <-> Product.stock p < n)
  /\ 0 <= InventoryLog.quantity entry
  /\ notifications r.1
     = notifications db
       ++ Notification.mk uid "Inventory Updated" INFO
            (InventoryUpdateMeta (Product.name p) (Z.abs (n - Product.stock p))
               (Inventory.log_type (n - Product.stock p)))
          :: (if n <=? Product.minStock p
              then [low_stock_alert uid (Product.name p) n] else []).
Proof.
  intros Hn Hpid Hr Hp Hadj r entry.
  assert (HR : r = Inventory.adjust uid [a] [] db) by done.
  rewrite (adjust_cons_found uid a [] [] db p n Hn Hpid Hr Hp Hadj) in HR.
  cbn [Inventory.adjust app] in HR. rewrite HR. cbn [fst snd].
  split; [done|]. split.
  - unfold ProductById.GET, Prisma.product_findUnique. cbn [products].
    rewrite lookup_alter_eq, Hp. cbn [fmap option_fmap option_map].
    f_equal. unfold ProductById.logs_of. cbn [inventoryLogs].
    rewrite List.filter_app. cbn [List.filter InventoryLog.productId].
    rewrite String.eqb_refl, rev_app_distr. done.
  - split.
    + unfold entry, Inventory.log_type; cbn [InventoryLog.type].
      destruct (Z.ltb_spec 0 (n - Product.stock p)); split; intros; try done; lia.
    + split; [unfold entry; cbn [InventoryLog.quantity]; lia|done].
Qed.

End AdjustmentRoundTrip.

(** ** The product page *)

Section ProductPage.

Lemma firstn_Forall {A} (P : A -> Prop) (n : nat) (l : list A) :
  Forall P l -> Forall P (firstn n l).
Proof.
  intros H. revert n. induction H as [|x l Hx _ IH]; intros [|n]; simpl; try done.
  constructor; [done|apply IH].
Qed.

(** X22: the product page lists at most ten log entries, all of them of
    the product asked for, and answers 404 exactly when the store has no
    product with that id. *)
Theorem product_page_lists_ten uid id db :
  match ProductById.GET (Some uid) id db with
  | ProductById.Found product logs =>
      products db !! id = Some product
      /\ (length logs <= 10)%nat
      /\ Forall (fun l => InventoryLog.productId l = id /\ l ∈ inventoryLogs db) logs
  | ProductById.Error status _ => status = 404 /\ products db !! id = None
  | _ => False
  end.
Proof.
  unfold ProductById.GET, Prisma.product_findUnique.
  destruct (products db !! id) as [p|]; [|done].
  split; [done|]. split; [apply firstn_le_length|].
  apply firstn_Forall. unfold ProductById.logs_of.
  apply Forall_forall. intros l Hl.
  apply list_elem_of_In, in_rev, filter_In in Hl as [Hl Hid].
  split; [by apply String.eqb_eq|by apply list_elem_of_In].
Qed.

End ProductPage.

(** ** Further worked examples *)

Section FurtherWorkedExamples.

Lemma example_sale_listed status : Example.sale status ∈ transactions (Example.store status).
Proof. simpl. by apply list_elem_of_singleton. Qed.

Lemma scenario_cart_passes middle quantity :
  0 < quantity ->
  passes_guards Example.env (Scenario.cart_of middle quantity) Example.empty_store.
Proof.
  intros Hq. unfold passes_guards. split; [by eexists|].
  split; [discriminate|]. split; [discriminate|]. split; [discriminate|].
  split; [simpl; by apply elem_of_singleton|]. split; [discriminate|].
  repeat constructor; simpl; lia.
Qed.

(** An expired invoice on a pending sale. *)
Lemma webhook_without_side_effects_witness :
  let b := Example.push "EXPIRED" in
  let db := Example.store PENDING in
  unique_ids db /\ XenditWebhook.find_transaction b db = Some (Example.sale PENDING)
  /\ XenditWebhook.map_status (XenditWebhook.status b) <> PAID
  /\ XenditWebhook.map_status (XenditWebhook.status b) <> FAILED
  /\ status_of (XenditWebhook.POST b db).1 "t1" = Some EXPIRED
  /\ products (XenditWebhook.POST b db).1 = products db.
Proof.
  intros b db.
  assert (H1 : unique_ids db) by apply example_store_unique.
  assert (H2 : XenditWebhook.find_transaction b db = Some (Example.sale PENDING))
    by (vm_compute; reflexivity).
  assert (H3 : XenditWebhook.map_status (XenditWebhook.status b) <> PAID) by discriminate.
  assert (H4 : XenditWebhook.map_status (XenditWebhook.status b) <> FAILED) by discriminate.
  destruct (webhook_without_side_effects b db _ H1 H2 H3 H4) as (_ & Hp & _ & _ & Hs).
  do 4 (split; [assumption|]). split; [exact Hs|exact Hp].
Defined.

(** A failed payment reported twice. *)
Lemma webhook_failed_notifies_each_time_witness :
  let b := Example.push "FAILED" in
  let db := Example.store PENDING in
  unique_ids db /\ XenditWebhook.find_transaction b db = Some (Example.sale PENDING)
  /\ sole_match b db (Example.sale PENDING)
  /\ XenditWebhook.status b = Str "FAILED"
  /\ length (notifications (XenditWebhook.POST b (XenditWebhook.POST b db).1).1) = 2%nat.
Proof.
  intros b db.
  assert (H1 : unique_ids db) by apply example_store_unique.
  assert (H2 : XenditWebhook.find_transaction b db = Some (Example.sale PENDING))
    by (vm_compute; reflexivity).
  assert (H3 : sole_match b db (Example.sale PENDING)) by apply example_store_sole.
  assert (H4 : XenditWebhook.status b = Str "FAILED") by reflexivity.
  destruct (webhook_failed_notifies_each_time b db _ H1 H2 H3 H4)
    as (_ & _ & _ & _ & _ & _ & Hn).
  do 4 (split; [assumption|]). by rewrite Hn.
Defined.

(** The cashier checks a pending sale that the gateway reports as paid. *)
Lemma status_check_writes_only_on_change_witness :
  let gw := Example.gateway "PAID" in
  let db := Example.store PENDING in
  (PaymentStatusCheck.POST gw (Some "u1") (Str "t1") db).1 <> db
  /\ exists t invoiceId invoiceStatus,
       target Example.check db = Some t
       /\ Transaction.xenditPaymentId t = Some invoiceId
       /\ gw invoiceId = Some invoiceStatus.
Proof.
  intros gw db.
  assert (H : (PaymentStatusCheck.POST gw (Some "u1") (Str "t1") db).1 <> db).
  { intros E. apply (f_equal inventoryLogs) in E. vm_compute in E. discriminate. }
  split; [exact H|].
  destruct (status_check_writes_only_on_change gw (Some "u1") (Str "t1") db H)
    as (t & inv & st & Ht & _ & Hinv & _ & Hgw & _).
  by exists t, inv, st.
Defined.

(** The cashier checks a pending sale whose invoice has expired. *)
Lemma status_check_expires_witness :
  let gw := Example.gateway "EXPIRED" in
  let db := Example.store PENDING in
  let t := Example.sale PENDING in
  Prisma.transaction_findUnique (Transaction.id t) db = Some t
  /\ Transaction.id t <> "" /\ Transaction.paymentStatus t = PENDING
  /\ Transaction.xenditPaymentId t = Some "inv-1" /\ "inv-1" <> ""
  /\ gw "inv-1" = Some "EXPIRED"
  /\ (PaymentStatusCheck.POST gw (Some "u1") (Str (Transaction.id t)) db).2
     = PaymentStatusCheck.Status EXPIRED (Example.sale EXPIRED).
Proof.
  intros gw db t.
  assert (H1 : Prisma.transaction_findUnique (Transaction.id t) db = Some t)
    by (vm_compute; reflexivity).
  assert (H2 : Transaction.id t <> "") by discriminate.
  assert (H3 : Transaction.paymentStatus t = PENDING) by reflexivity.
  assert (H4 : Transaction.xenditPaymentId t = Some "inv-1") by reflexivity.
  assert (H5 : "inv-1" <> "") by discriminate.
  assert (H6 : gw "inv-1" = Some "EXPIRED") by reflexivity.
  do 6 (split; [assumption|]).
  by rewrite (status_check_expires gw "u1" db t "inv-1" H1 H2 H3 H4 H5 H6).
Defined.

(** A request without a session. *)
Lemma create_client_error_writes_nothing_witness :
  let env := Transactions.mkEnv None "TXN-1" "t1" in
  let body := Example.order "CASH" Undefined in
  (Transactions.POST env body Example.empty_store).2 = Transactions.Error 401 "Unauthorized"
  /\ 401 <> 500
  /\ (Transactions.POST env body Example.empty_store).1 = Example.empty_store.
Proof.
  intros env body.
  assert (H1 : (Transactions.POST env body Example.empty_store).2
               = Transactions.Error 401 "Unauthorized") by reflexivity.
  assert (H2 : 401 <> 500) by lia.
  do 2 (split; [assumption|]).
  exact (create_client_error_writes_nothing env body Example.empty_store _ _ H1 H2).
Defined.

(** A cart whose second line has quantity zero. *)
Lemma bad_quantity_rejects_sale_witness :
  let body := Scenario.cart_of "p2" 0 in
  Exists (fun i => Transactions.quantity i <= 0) (Transactions.items body)
  /\ (Transactions.POST Example.env body Example.empty_store).1 = Example.empty_store.
Proof.
  intros body.
  assert (H : Exists (fun i => Transactions.quantity i <= 0) (Transactions.items body)).
  { apply Exists_cons_tl, Exists_cons_hd. simpl. lia. }
  split; [exact H|].
  exact (proj1 (bad_quantity_rejects_sale Example.env body Example.empty_store H)).
Defined.

(** A cart whose second line names no product, and a cart that names the
    first product twice. *)
Lemma sale_with_bad_cart_writes_nothing_witness :
  let db := Example.empty_store in
  let unknown := Scenario.cart_of "nope" 1 in
  let double := Scenario.double_cart in
  passes_guards Example.env unknown db
  /\ parse_PaymentMethod (Transactions.paymentMethod unknown) = Some CASH
  /\ Exists (fun i => products db !! Transactions.productId i = None)
       (Transactions.items unknown)
  /\ passes_guards Example.env double db
  /\ ~ NoDup (map Transactions.productId (Transactions.items double))
  /\ Transactions.POST Example.env unknown db
     = (db, Transactions.Error 500 "Internal server error")
  /\ Transactions.POST Example.env double db
     = (db, Transactions.Error 500 "Internal server error").
Proof.
  intros db unknown double.
  assert (H1 : passes_guards Example.env unknown db) by (apply scenario_cart_passes; lia).
  assert (H2 : parse_PaymentMethod (Transactions.paymentMethod unknown) = Some CASH)
    by reflexivity.
  assert (H3 : Exists (fun i => products db !! Transactions.productId i = None)
                 (Transactions.items unknown)).
  { apply Exists_cons_tl, Exists_cons_hd. vm_compute. reflexivity. }
  assert (H4 : passes_guards Example.env double db).
  { unfold passes_guards. split; [by eexists|].
    split; [discriminate|]. split; [discriminate|]. split; [discriminate|].
    split; [simpl; by apply elem_of_singleton|]. split; [discriminate|].
    repeat constructor; simpl; lia. }
  assert (H5 : ~ NoDup (map Transactions.productId (Transactions.items double))).
  { intros Hnd. apply NoDup_cons in Hnd as [Hnd _]. apply Hnd. by left. }
  do 5 (split; [assumption|]). split.
  - exact (sale_with_bad_cart_writes_nothing Example.env unknown db CASH H1 H2
             (or_introl H3)).
  - exact (sale_with_bad_cart_writes_nothing Example.env double db CASH H4 eq_refl
             (or_intror H5)).
Defined.

(** A QRIS sale without a PAID flag, paid later through the webhook. *)
Lemma digital_sale_waits_for_payment_witness :
  let body := Example.order "XENDIT_QRIS" Undefined in
  let db := Example.empty_store in
  accepted Example.env body db
  /\ parse_PaymentMethod (Transactions.paymentMethod body) = Some XENDIT_QRIS
  /\ Transactions.isXenditPayment XENDIT_QRIS = true
  /\ strict_eq (Transactions.paymentStatus body) "PAID" = false
  /\ unique_ids db
  /\ products (Transactions.POST Example.env body db).1 = products db
  /\ stock_of (XenditWebhook.POST (Example.push "PAID")
                 (Transactions.POST Example.env body db).1).1 "p1" = Some 7.
Proof.
  intros body db.
  assert (H1 : accepted Example.env body db) by apply example_order_accepted.
  assert (H2 : parse_PaymentMethod (Transactions.paymentMethod body) = Some XENDIT_QRIS)
    by reflexivity.
  assert (H3 : Transactions.isXenditPayment XENDIT_QRIS = true) by reflexivity.
  assert (H4 : strict_eq (Transactions.paymentStatus body) "PAID" = false) by reflexivity.
  assert (H5 : unique_ids db) by apply NoDup_nil_2.
  destruct (digital_sale_waits_for_payment Example.env body db XENDIT_QRIS
              H1 H2 H3 H4 H5) as (_ & _ & Hp & _ & _ & Hw).
  do 5 (split; [assumption|]). split; [exact Hp|].
  assert (Hf : XenditWebhook.find_transaction (Example.push "PAID")
                 (Transactions.POST Example.env body db).1
               = Some (created_row Example.env body XENDIT_QRIS PENDING))
    by (vm_compute; reflexivity).
  destruct (Hw (Example.push "PAID") Hf eq_refl) as [_ Hs].
  rewrite (Hs "p1"). vm_compute. reflexivity.
Defined.

(** The external id built for transaction [t1]. *)
Lemma external_id_round_trip_witness :
  "t1" <> "" /\ has_dash "t1" = false
  /\ XenditWebhook.match_transaction_id (Payments.externalId "t1" "1700000000000")
     = Some "t1".
Proof.
  assert (H1 : "t1" <> "") by discriminate.
  assert (H2 : has_dash "t1" = false) by reflexivity.
  do 2 (split; [assumption|]).
  exact (proj1 (external_id_round_trip "t1" "1700000000000") H1 H2).
Defined.

(** The webhook of the invoice created for the pending sale. *)
Lemma invoice_webhook_resolves_witness :
  let b := Scenario.invoice_push "PAID" in
  let db := Example.store PENDING in
  let t := Example.sale PENDING in
  unique_ids db /\ t ∈ transactions db
  /\ Transaction.id t <> "" /\ has_dash (Transaction.id t) = false
  /\ js_or (XenditWebhook.external_id b) (XenditWebhook.externalId b)
     = Str (Payments.externalId (Transaction.id t) "1700000000000")
  /\ XenditWebhook.find_transaction b db = Some t.
Proof.
  intros b db t.
  assert (H1 : unique_ids db) by apply example_store_unique.
  assert (H2 : t ∈ transactions db) by apply example_sale_listed.
  assert (H3 : Transaction.id t <> "") by discriminate.
  assert (H4 : has_dash (Transaction.id t) = false) by reflexivity.
  assert (H5 : js_or (XenditWebhook.external_id b) (XenditWebhook.externalId b)
               = Str (Payments.externalId (Transaction.id t) "1700000000000"))
    by reflexivity.
  do 5 (split; [assumption|]).
  apply (invoice_webhook_resolves b db t "1700000000000" H1 H2 H3 H4 H5).
  intros x Hx Hxt. simpl in Hx. apply list_elem_of_singleton in Hx. by subst.
Defined.

(** The pending sale marked PAID by hand, then read back. *)
Lemma patch_then_get_witness :
  let db := Example.store PENDING in
  let body := Scenario.mark "PAID" in
  unique_ids db
  /\ Prisma.transaction_findUnique "t1" db = Some (Example.sale PENDING)
  /\ TransactionById.patch_data body = Some (Transaction.with_paymentStatus PAID)
  /\ TransactionById.GET (Some "u1") "t1" (TransactionById.PATCH (Some "u1") "t1" body db).1
     = TransactionById.Ok (Example.sale PAID).
Proof.
  intros db body.
  assert (H1 : unique_ids db) by apply example_store_unique.
  assert (H2 : Prisma.transaction_findUnique "t1" db = Some (Example.sale PENDING))
    by (vm_compute; reflexivity).
  assert (H3 : TransactionById.patch_data body = Some (Transaction.with_paymentStatus PAID))
    by reflexivity.
  do 3 (split; [assumption|]).
  exact (proj1 (proj2 (patch_then_get "u1" "t1" body db _ _ H1 H2 H3))).
Defined.

(** The same sale, marked PAID by hand and then confirmed by the gateway. *)
Lemma patch_paid_skips_stock_witness :
  let db := Example.store PENDING in
  let body := Scenario.mark "PAID" in
  let db1 := (TransactionById.PATCH (Some "u1") "t1" body db).1 in
  let tr := WebhookPush (Example.push "PAID") in
  unique_ids db
  /\ Prisma.transaction_findUnique "t1" db = Some (Example.sale PENDING)
  /\ TransactionById.paymentStatus body = Str "PAID"
  /\ target tr db1 = Some (Example.sale PAID)
  /\ Transaction.id (Example.sale PAID) = "t1"
  /\ products (fire (Example.gateway "PAID") tr db1) = products db
  /\ stock_of db "p1" = Some 10.
Proof.
  intros db body db1 tr.
  assert (H1 : unique_ids db) by apply example_store_unique.
  assert (H2 : Prisma.transaction_findUnique "t1" db = Some (Example.sale PENDING))
    by (vm_compute; reflexivity).
  assert (H3 : TransactionById.paymentStatus body = Str "PAID") by reflexivity.
  assert (H4 : target tr db1 = Some (Example.sale PAID)) by (vm_compute; reflexivity).
  assert (H5 : Transaction.id (Example.sale PAID) = "t1") by reflexivity.
  assert (H6 : forall b, tr = WebhookPush b -> XenditWebhook.status b = Str "PAID")
    by (by intros b [= <-]).
  destruct (patch_paid_skips_stock (Example.gateway "PAID") "u1" "t1" body db _ tr _
              H1 H2 H3 H4 H5 H6) as (_ & Hp & _).
  do 5 (split; [assumption|]). split; [exact Hp|]. vm_compute. reflexivity.
Defined.

(** Revenue of the pending sale, recognised when its webhook arrives. *)
Lemma revenue_recognised_on_payment_witness :
  let gw := Example.gateway "PAID" in
  let tr := WebhookPush (Example.push "PAID") in
  let db := Example.store PENDING in
  let t := Example.sale PENDING in
  unique_ids db /\ target tr db = Some t /\ observes_paid gw tr t
  /\ Transaction.paymentStatus t <> PAID
  /\ paid_revenue db = 0
  /\ paid_revenue (fire gw tr db) = 35000.
Proof.
  intros gw tr db t.
  assert (H1 : unique_ids db) by apply example_store_unique.
  assert (H2 : target tr db = Some t) by (vm_compute; reflexivity).
  assert (H3 : observes_paid gw tr t) by reflexivity.
  assert (H4 : Transaction.paymentStatus t <> PAID) by discriminate.
  destruct (revenue_recognised_on_payment gw tr db t H1 H2 H3 H4) as [Hr _].
  do 4 (split; [assumption|]). split; [reflexivity|]. rewrite Hr. reflexivity.
Defined.

(** Revenue of the cart of two, paid in cash. *)
Lemma revenue_at_checkout_witness :
  let body := Example.order "CASH" Undefined in
  accepted Example.env body Example.empty_store
  /\ parse_PaymentMethod (Transactions.paymentMethod body) = Some CASH
  /\ paid_revenue (Transactions.POST Example.env body Example.empty_store).1 = 35000.
Proof.
  intros body.
  assert (H1 : accepted Example.env body Example.empty_store)
    by apply example_order_accepted.
  assert (H2 : parse_PaymentMethod (Transactions.paymentMethod body) = Some CASH)
    by reflexivity.
  do 2 (split; [assumption|]).
  rewrite (revenue_at_checkout Example.env body Example.empty_store CASH H1 H2).
  reflexivity.
Defined.

(** Deleting the first product after the cash sale, which left a line
    item and a log entry that name it. *)
Lemma delete_keeps_references_witness :
  let db := Scenario.after_cash_sale in
  references_resolve db
  /\ (exists x it, x ∈ transactions db /\ it ∈ Transaction.items x
                   /\ TransactionItem.productId it = "p1")
  /\ (exists l, l ∈ inventoryLogs db /\ InventoryLog.productId l = "p1")
  /\ (ProductById.DELETE (Some "u1") "p1" db).2 = ProductById.Deactivated
  /\ references_resolve (ProductById.DELETE (Some "u1") "p1" db).1.
Proof.
  intros db.
  assert (Htx : transactions db
                = [Transaction.mk "t1" "TXN-1" 35000 0 0 35000 CASH PAID None None
                     "u1" Example.cart]) by (vm_compute; reflexivity).
  assert (Hlogs : inventoryLogs db
                  = [InventoryLog.mk "p1" SALE 3 10 7 "Sale - Transaction TXN-1" "u1";
                     InventoryLog.mk "p2" SALE 1 7 6 "Sale - Transaction TXN-1" "u1"])
    by (vm_compute; reflexivity).
  assert (H : references_resolve db).
  { split.
    - intros x it Hx Hit. rewrite Htx in Hx. apply list_elem_of_singleton in Hx.
      subst x. cbn [Transaction.items Example.cart] in Hit.
      apply elem_of_cons in Hit as [->|Hit]; [vm_compute; by eexists|].
      apply list_elem_of_singleton in Hit as ->. vm_compute; by eexists.
    - intros l Hl. rewrite Hlogs in Hl.
      apply elem_of_cons in Hl as [->|Hl]; [vm_compute; by eexists|].
      apply list_elem_of_singleton in Hl as ->. vm_compute; by eexists. }
  split; [exact H|]. split.
  { eexists _, (TransactionItem.mk "p1" 3 10000 30000). rewrite Htx.
    split; [by apply list_elem_of_singleton|]. split; [by left|done]. }
  split.
  { eexists. rewrite Hlogs. split; [by left|done]. }
  split; [vm_compute; reflexivity|].
  exact (delete_keeps_references (Some "u1") "p1" db H).
Defined.

(** Deleting the first product of the pending sale. *)
Lemma delete_sold_product_deactivates_witness :
  let db := Example.store PENDING in
  let p := Product.mk "Kopi" 10 5 "c1" true in
  let it := TransactionItem.mk "p1" 3 10000 30000 in
  products db !! "p1" = Some p
  /\ Example.sale PENDING ∈ transactions db
  /\ it ∈ Transaction.items (Example.sale PENDING)
  /\ TransactionItem.productId it = "p1"
  /\ (ProductById.DELETE (Some "u1") "p1" db).2 = ProductById.Deactivated
  /\ stock_of (ProductById.DELETE (Some "u1") "p1" db).1 "p1" = Some 10.
Proof.
  intros db p it.
  assert (H1 : products db !! "p1" = Some p) by (vm_compute; reflexivity).
  assert (H2 : Example.sale PENDING ∈ transactions db) by apply example_sale_listed.
  assert (H3 : it ∈ Transaction.items (Example.sale PENDING)) by (simpl; by left).
  assert (H4 : TransactionItem.productId it = "p1") by reflexivity.
  destruct (delete_sold_product_deactivates "u1" "p1" db p _ it H1 H2 H3 H4)
    as (Hr & _ & Hs & _).
  do 4 (split; [assumption|]). split; [exact Hr|exact Hs].
Defined.

(** A recount of the first product from ten to twenty. *)
Lemma adjustment_round_trip_witness :
  let a := Scenario.recount in
  let db := Example.empty_store in
  let p := Product.mk "Kopi" 10 5 "c1" true in
  Inventory.newStock a = Some 20
  /\ Inventory.productId a <> "" /\ Inventory.reason a <> ""
  /\ products db !! Inventory.productId a = Some p
  /\ adjustable "u1" db (Product.stock p) 20
  /\ ProductById.GET (Some "u1") "p1" (Inventory.POST (Some "u1") (Some [a]) db).1
     = ProductById.Found (Product.mk "Kopi" 20 5 "c1" true)
         [InventoryLog.mk "p1" RESTOCK 10 10 20 "recount" "u1"].
Proof.
  intros a db p.
  assert (H1 : Inventory.newStock a = Some 20) by reflexivity.
  assert (H2 : Inventory.productId a <> "") by discriminate.
  assert (H3 : Inventory.reason a <> "") by discriminate.
  assert (H4 : products db !! Inventory.productId a = Some p) by (vm_compute; reflexivity).
  assert (H5 : adjustable "u1" db (Product.stock p) 20).
  { split; [simpl; by apply elem_of_singleton|]. by repeat split. }
  do 5 (split; [assumption|]).
  exact (proj1 (proj2 (adjustment_round_trip "u1" a db p 20 H1 H2 H3 H4 H5))).
Defined.


(** The pending sale keeps its columns and its key under a "PAID" push. *)
Lemma checkout_columns_kept_witness :
  let db := Example.store PENDING in
  let db' := fire (Example.gateway "PAID") (WebhookPush (Example.push "PAID")) db in
  unique_ids db /\ unique_ids db'
  /\ map checkout_columns (transactions db') = map checkout_columns (transactions db).
Proof.
  intros db db'.
  assert (H : unique_ids db) by apply example_store_unique.
  split; [exact H|].
  destruct checkout_columns_kept as (Hc & _ & _ & Hu).
  split; [exact (Hu _ _ db H)|exact (Hc _ _ db)].
Defined.

(** The callback reporting the pending sale as paid in cash. *)
Lemma callback_effects_witness :
  let body := Scenario.callback "PAID" (Payments.MethodString "CASH") in
  let db := Example.store PENDING in
  (Payments.PUT body db).1 <> db
  /\ Payments.map_status (Payments.status body) = PAID
  /\ products (Payments.PUT body db).1 = products db.
Proof.
  intros body db.
  assert (H : (Payments.PUT body db).1 <> db).
  { intros E. apply (f_equal transactions) in E. vm_compute in E. discriminate. }
  split; [exact H|].
  destruct (callback_effects body db) as (Hp & _ & _ & Hw & _).
  split; [exact (proj1 (Hw H))|exact Hp].
Defined.

End FurtherWorkedExamples.
